(** * unida-backend: the paper-publishing servers, embedded and verified

    The repository holds several iterations of one Express server.  Each
    iteration is embedded in a module of its own:

    - [Early]   src/unnamed/part_000, first document (GET and POST only);
    - [Rich]    src/unnamed/part_000, second document (auth, validation,
                rate limiting, news and events in MongoDB);
    - [Mid]     src/unnamed/part_002 (auth, comments, no validation layer),
                with its in-memory news and events in [MidNews];
    - [Basic]   src/unnamed/part_001 (no auth, DELETE by id);
    - [Server1] src/server.js, first document (GET and POST only);
    - [Server2] src/server.js, second document (GET, POST, DELETE).

    MongoDB collections are lists of documents in insertion order, Cloudinary
    is a list of stored objects, and every handler is a computation in a
    small state-and-exception monad.  What the environment decides (the
    clock, random salts and uuids, the rate limiter, a failing network call)
    is read from an explicit [Env]. *)

From Stdlib Require Import String Ascii List ZArith Bool Arith Lia.
From Stdlib Require Import Sorting.Sorted Sorting.Permutation DecimalString.
Import ListNotations.

Local Open Scope string_scope.
Local Open Scope list_scope.

(** ** JavaScript values *)

(** A field that may be [undefined] is an [option]. *)
Definition opt_eqb (a b : option string) : bool :=
  match a, b with
  | Some x, Some y => String.eqb x y
  | None, None => true
  | _, _ => false
  end.

(** Truthiness of a string-or-undefined value. *)
Definition truthy (v : option string) : bool :=
  match v with
  | Some s => negb (String.eqb s "")
  | None => false
  end.

(** [v || ''] *)
Definition or_empty (v : option string) : string :=
  match v with
  | Some s => s
  | None => ""
  end.

(** Template-literal rendering of a string-or-undefined value. *)
Definition js_string (v : option string) : string :=
  match v with
  | Some s => s
  | None => "undefined"
  end.

(** [hay.includes(needle)] *)
Fixpoint includes (needle hay : string) : bool :=
  if String.prefix needle hay then true
  else match hay with
       | EmptyString => false
       | String _ rest => includes needle rest
       end.

(** [String(n)] for an integer. *)
Definition show_Z (z : Z) : string := NilZero.string_of_int (Z.to_int z).

(** ** Identifiers, tokens and hashes *)

(** An ObjectId, up to equality.  The generators below hand out numbers
    not used before.  How real ObjectIds compare with one another (they
    lead with the clock's second) is not modelled: no statement below says
    where a generated id falls in the order of the others. *)
Definition ObjectId := nat.

(** The [:id] segment of a path as mongoose receives it: a string it casts
    to an ObjectId, or any other string. *)
Inductive IdParam :=
| IdOf (id : ObjectId)
| NotAnId (raw : string).

(** The payload [generateToken] signs, with the [iat] and [exp] claims that
    [jwt.sign] adds (both in seconds). *)
Record Claims := {
  c_id : ObjectId;
  c_email : option string;
  c_name : option string;
  c_isAdmin : bool;
  c_iat : Z;
  c_exp : Z
}.

Record Token := {
  t_claims : Claims;
  t_signature : string
}.

(** A bcrypt hash carries its salt next to the digest. *)
Record BcryptHash := {
  bh_salt : string;
  bh_digest : string
}.

(** What the servers take from their libraries and from the process
    environment. *)
Class Platform := {
  env_JWT_SECRET : option string;              (* process.env.JWT_SECRET *)
  hs256 : string -> Claims -> string;          (* jsonwebtoken's signature *)
  bcrypt_kdf : string -> string -> string;     (* salt, password |-> digest *)
  isEmail : string -> bool;                    (* validator.js *)
  encodeURIComponent : string -> string;
  path_parse_name : string -> string;          (* path.parse(f).name *)
  toLocaleDateString : Z -> string;            (* Date#toLocaleDateString('ru-RU') *)
  castErrorMessage : string -> string -> string;  (* value, model |-> mongoose's CastError *)
  cloudinary_secure_url : string -> string -> string  (* resource type, public id *)
}.

(** ** The environment of one request *)

Record Env := {
  now : Z;                        (* Date.now(), milliseconds *)
  limited : bool;                 (* express-rate-limit refuses the request *)
  salt : string;                  (* the salt bcrypt.hash draws *)
  uuid : string;                  (* uuidv4() *)
  faults : list (option string)   (* per external call: Some e = it rejects with e *)
}.

(** ** Effects: state, a script of external failures, exceptions *)

Inductive Outcome (A : Type) : Type :=
| Return (a : A)
| Throw (e : string).
Arguments Return {A} a.
Arguments Throw {A} e.

Definition Faults := list (option string).

Definition Eff (W A : Type) : Type := W -> Faults -> Outcome A * W * Faults.

Definition ret {W A} (a : A) : Eff W A := fun w fs => (Return a, w, fs).

Definition throw {W A} (e : string) : Eff W A := fun w fs => (Throw e, w, fs).

Definition bind {W A B} (m : Eff W A) (k : A -> Eff W B) : Eff W B :=
  fun w fs =>
    match m w fs with
    | (Return a, w', fs') => k a w' fs'
    | (Throw e, w', fs') => (Throw e, w', fs')
    end.

(** [try { body } catch (e) { handler }]: the state reached before the throw
    stays. *)
Definition try_catch {W A} (body : Eff W A) (handler : string -> Eff W A) : Eff W A :=
  fun w fs =>
    match body w fs with
    | (Return a, w', fs') => (Return a, w', fs')
    | (Throw e, w', fs') => handler e w' fs'
    end.

Definition get_world {W} : Eff W W := fun w fs => (Return w, w, fs).

Definition put_world {W} (w' : W) : Eff W unit := fun _ fs => (Return tt, w', fs).

Definition modify {W} (f : W -> W) : Eff W unit := fun w fs => (Return tt, f w, fs).

(** One round trip to MongoDB or Cloudinary: it succeeds unless the script
    says otherwise; an exhausted script means no more failures. *)
Definition io {W} : Eff W unit :=
  fun w fs =>
    match fs with
    | Some e :: fs' => (Throw e, w, fs')
    | None :: fs' => (Return tt, w, fs')
    | [] => (Return tt, w, [])
    end.

(** No external call of the request fails. *)
Definition healthy (env : Env) : Prop := Forall (fun f => f = None) (faults env).

Declare Scope eff_scope.
Delimit Scope eff_scope with eff.
Notation "x <- m ;; k" := (bind m (fun x => k))
  (at level 100, m at next level, right associativity) : eff_scope.
Notation "m ;;; k" := (bind m (fun _ => k))
  (at level 100, right associativity) : eff_scope.
Notation "'try' b 'catch' e '=>' h" := (try_catch b (fun e => h))
  (at level 100, b at next level, e name, right associativity) : eff_scope.
Local Open Scope eff_scope.

(** ** Query helpers *)

(** [.sort({ key: -1 })]: a stable insertion sort, largest key first. *)
Fixpoint insert_desc {A} (key : A -> Z) (x : A) (l : list A) : list A :=
  match l with
  | [] => [x]
  | y :: ys => if (key y <? key x)%Z then x :: y :: ys else y :: insert_desc key x ys
  end.

Fixpoint sort_desc {A} (key : A -> Z) (l : list A) : list A :=
  match l with
  | [] => []
  | x :: xs => insert_desc key x (sort_desc key xs)
  end.

(** Largest key first: every element is followed only by elements whose key
    is not larger. *)
Definition descending {A} (key : A -> Z) (l : list A) : Prop :=
  StronglySorted (fun a b => (key b <= key a)%Z) l.

(** [updateOne({ _id }, doc)]: the first document with that id. *)
Fixpoint replace_by_id {A} (id_of : A -> ObjectId) (d : A) (l : list A) : list A :=
  match l with
  | [] => []
  | x :: xs =>
      if Nat.eqb (id_of x) (id_of d) then d :: xs
      else x :: replace_by_id id_of d xs
  end.

(** [deleteOne({ _id })]: the first document with that id. *)
Fixpoint delete_by_id {A} (id_of : A -> ObjectId) (i : ObjectId) (l : list A) : list A :=
  match l with
  | [] => []
  | x :: xs =>
      if Nat.eqb (id_of x) i then xs
      else x :: delete_by_id id_of i xs
  end.

(** MongoDB keeps [_id] unique within a collection. *)
Definition unique_ids {A} (id_of : A -> ObjectId) (l : list A) : Prop :=
  NoDup (map id_of l).

Definition find_by_id {A} (id_of : A -> ObjectId) (i : ObjectId) (l : list A) : option A :=
  find (fun x => Nat.eqb (id_of x) i) l.

(** ** Schemas shared by the two servers with accounts *)

(** [UserSchema] *)
Record User := {
  u_id : ObjectId;
  u_name : option string;
  u_email : option string;
  u_passwordHash : option BcryptHash;
  u_institution : string;
  u_avatar : string;
  u_isAdmin : bool;
  u_bio : option string;
  u_createdAt : Z
}.

(** [CommentSchema] *)
Record Comment := {
  cm_author : option string;
  cm_avatar : string;
  cm_text : option string;
  cm_time : Z
}.

(** [PaperSchema] *)
Record Paper := {
  p_id : ObjectId;
  p_title : option string;
  p_desc : option string;
  p_category : option string;
  p_author : option string;
  p_authorAvatar : option string;
  p_pdfUrl : option string;
  p_cloudinary_public_id : option string;
  p_collaboration : bool;
  p_likes : Z;
  p_comments : list Comment;
  p_date : Z
}.

(** [NewsSchema] *)
Record News := {
  n_id : ObjectId;
  n_title : option string;
  n_desc : option string;
  n_tag : option string;
  n_img : option string;
  n_date : string;
  n_author : option string;
  n_createdAt : Z
}.

(** [EventSchema] *)
Record Event := {
  e_id : ObjectId;
  e_title : option string;
  e_desc : option string;
  e_type : option string;
  e_day : option string;
  e_month : option string;
  e_location : option string;
  e_createdAt : Z
}.

(** An object held by Cloudinary. *)
Record CloudObject := {
  o_public_id : string;
  o_resource_type : string;
  o_bytes : string
}.

(** The database, the media store and the ObjectId generator. *)
Record World := {
  users : list User;
  papers : list Paper;
  news : list News;
  events : list Event;
  cloud : list CloudObject;
  oid : nat
}.

Definition set_users (w : World) (l : list User) : World :=
  {| users := l; papers := papers w; news := news w; events := events w;
     cloud := cloud w; oid := oid w |}.

Definition set_papers (w : World) (l : list Paper) : World :=
  {| users := users w; papers := l; news := news w; events := events w;
     cloud := cloud w; oid := oid w |}.

Definition set_news (w : World) (l : list News) : World :=
  {| users := users w; papers := papers w; news := l; events := events w;
     cloud := cloud w; oid := oid w |}.

Definition set_events (w : World) (l : list Event) : World :=
  {| users := users w; papers := papers w; news := news w; events := l;
     cloud := cloud w; oid := oid w |}.

Definition set_cloud (w : World) (l : list CloudObject) : World :=
  {| users := users w; papers := papers w; news := news w; events := events w;
     cloud := l; oid := oid w |}.

Definition set_oid (w : World) (n : nat) : World :=
  {| users := users w; papers := papers w; news := news w; events := events w;
     cloud := cloud w; oid := n |}.

Definition empty_world : World :=
  {| users := []; papers := []; news := []; events := []; cloud := []; oid := 0 |}.

(** ** Requests and responses *)

Record File := {
  originalname : string;
  mimetype : string;
  buffer : string
}.

(** The [Authorization] header as [authMiddleware] sees it: either it does
    not start with ['Bearer '], or the word after it decodes to a token
    ([Some]) or is not a JWT at all ([None]). *)
Inductive Authorization :=
| Absent
| Bearer (wire : option Token).

Record RegisterBody := {
  rb_name : option string;
  rb_email : option string;
  rb_password : option string;
  rb_institution : option string
}.

Record LoginBody := {
  lb_email : option string;
  lb_password : option string
}.

Record PaperBody := {
  pb_title : option string;
  pb_desc : option string;
  pb_category : option string;
  pb_author : option string;
  pb_authorAvatar : option string;
  pb_collaboration : option string
}.

Record CommentBody := {
  cb_text : option string
}.

Record NewsBody := {
  nb_id : option ObjectId;
  nb_title : option string;
  nb_desc : option string;
  nb_tag : option string;
  nb_img : option string;
  nb_createdAt : option Z
}.

Record EventBody := {
  eb_id : option ObjectId;
  eb_title : option string;
  eb_desc : option string;
  eb_type : option string;
  eb_day : option string;
  eb_month : option string;
  eb_location : option string;
  eb_createdAt : option Z
}.

(** The [user] object of the register and login responses. *)
Record PublicUser := {
  pu_name : option string;
  pu_email : option string;
  pu_institution : string;
  pu_avatar : string;
  pu_isAdmin : bool
}.

Inductive Body :=
| Message (m : string)                         (* { message } *)
| ValidationFailed (errors : list string)      (* { message: 'Validation error', errors } *)
| MessageError (m : string) (e : string)       (* { message, error } *)
| Text (s : string)                            (* a plain-text or HTML body *)
| Ok                                           (* { ok: true } *)
| Session (user : PublicUser) (token : Token)  (* { user, token } *)
| PaperList (l : list Paper)
| OnePaper (p : Paper)
| OkComments (l : list Comment)                (* { ok: true, comments } *)
| OkAvatar (a : string)                        (* { ok: true, avatar } *)
| NewsList (l : list News)
| OneNews (n : News)
| EventList (l : list Event)
| OneEvent (e : Event).

Record Response := {
  status : nat;
  body : Body
}.

(** [res.status(code).json(b)] *)
Definition res (code : nat) (b : Body) : Response := {| status := code; body := b |}.

(** [res.json(b)] *)
Definition json (b : Body) : Response := res 200 b.

(** ** Helpers shared by [Rich] and [Mid] *)

Section Helpers.
Context `{Platform}.

(** [const JWT_SECRET = process.env.JWT_SECRET || 'dev_secret'] *)
Definition JWT_SECRET : string :=
  if truthy env_JWT_SECRET then or_empty env_JWT_SECRET else "dev_secret".

(** ['30d'] in seconds. *)
Definition thirty_days : Z := 30 * 24 * 60 * 60.

(** [jwt.sign(payload, secret, { expiresIn })] at clock reading [clock]
    (milliseconds): [iat] is the clock in whole seconds, [exp] is [iat] plus
    the life time. *)
Definition jwt_sign (id : ObjectId) (email name : option string) (isAdmin : bool)
    (secret : string) (expiresIn : Z) (clock : Z) : Token :=
  let iat := (clock / 1000)%Z in
  let claims := {| c_id := id; c_email := email; c_name := name; c_isAdmin := isAdmin;
                   c_iat := iat; c_exp := (iat + expiresIn)%Z |} in
  {| t_claims := claims; t_signature := hs256 secret claims |}.

(** [jwt.verify(token, secret)]: [None] stands for any of its exceptions
    (malformed token, wrong signature, expired). *)
Definition jwt_verify (wire : option Token) (secret : string) (clock : Z) : option Claims :=
  match wire with
  | None => None
  | Some t =>
      if String.eqb (t_signature t) (hs256 secret (t_claims t)) then
        if (c_exp (t_claims t) <=? clock / 1000)%Z then None
        else Some (t_claims t)
      else None
  end.

Definition generateToken (clock : Z) (user : User) : Token :=
  jwt_sign (u_id user) (u_email user) (u_name user) (u_isAdmin user)
           JWT_SECRET thirty_days clock.

Definition authMiddleware (env : Env) (auth : Authorization)
    (next : Claims -> Eff World Response) : Eff World Response :=
  match auth with
  | Absent => ret (res 401 (Message "Unauthorized"))
  | Bearer wire =>
      match jwt_verify wire JWT_SECRET (now env) with
      | Some payload => next payload
      | None => ret (res 401 (Message "Invalid token"))
      end
  end.

(** [bcrypt.hash(password, 10)] with the salt it drew. *)
Definition bcrypt_hash {W} (password : option string) (s : string) : Eff W BcryptHash :=
  match password with
  | Some p => ret {| bh_salt := s; bh_digest := bcrypt_kdf s p |}
  | None => throw "Illegal arguments: undefined, number"
  end.

(** [bcrypt.compare(password, user.passwordHash || '')] *)
Definition bcrypt_compare {W} (password : option string) (h : option BcryptHash)
    : Eff W bool :=
  match password with
  | None => throw "Illegal arguments: undefined, string"
  | Some p =>
      match h with
      | None => ret false
      | Some h => ret (String.eqb (bcrypt_kdf (bh_salt h) p) (bh_digest h))
      end
  end.

(** Mongoose casting a path segment to the [_id] of a model: a string
    that is no ObjectId makes the query reject with a CastError. *)
Definition castObjectId {W} (model : string) (id : IdParam) : Eff W ObjectId :=
  match id with
  | IdOf i => ret i
  | NotAnId raw => throw (castErrorMessage raw model)
  end.

(** [new ObjectId()] *)
Definition new_ObjectId : Eff World ObjectId :=
  fun w fs => (Return (oid w), set_oid w (S (oid w)), fs).

(** *** The [User] model *)

Definition User_findOne (email : option string) : Eff World (option User) :=
  io ;;;
  w <- get_world ;;
  ret (find (fun u => opt_eqb (u_email u) email) (users w)).

Definition User_findById (id : ObjectId) : Eff World (option User) :=
  io ;;;
  w <- get_world ;;
  ret (find_by_id u_id id (users w)).

(** [new User({ name, email, passwordHash, institution, avatar })] with the
    schema's defaults. *)
Definition new_User (clock : Z) (name email : option string) (passwordHash : BcryptHash)
    (institution avatar : string) : Eff World User :=
  id <- new_ObjectId ;;
  ret {| u_id := id; u_name := name; u_email := email;
         u_passwordHash := Some passwordHash; u_institution := institution;
         u_avatar := avatar; u_isAdmin := false; u_bio := None;
         u_createdAt := clock |}.

(** The unique, sparse index on [email]. *)
Definition email_taken (email : option string) (l : list User) : bool :=
  match email with
  | Some _ => existsb (fun u => opt_eqb (u_email u) email) l
  | None => false
  end.

(** [user.save()] of a new document. *)
Definition User_insert (u : User) : Eff World unit :=
  io ;;;
  w <- get_world ;;
  if existsb (fun x => Nat.eqb (u_id x) (u_id u)) (users w)
  then throw "E11000 duplicate key error: _id"
  else if email_taken (u_email u) (users w)
  then throw "E11000 duplicate key error: email"
  else put_world (set_users w (users w ++ [u])).

(** [user.save()] of a document read from the collection. *)
Definition User_update (u : User) : Eff World unit :=
  io ;;;
  modify (fun w => set_users w (replace_by_id u_id u (users w))).

Definition public (u : User) : PublicUser :=
  {| pu_name := u_name u; pu_email := u_email u; pu_institution := u_institution u;
     pu_avatar := u_avatar u; pu_isAdmin := u_isAdmin u |}.

(** *** The [Paper] model *)

(** [Paper.find({}).sort({ date: -1 }).lean()] *)
Definition Paper_find_sorted : Eff World (list Paper) :=
  io ;;;
  w <- get_world ;;
  ret (sort_desc p_date (papers w)).

(** [Paper.findById(req.params.id)]: the id is cast when the query is
    built, before the database is asked. *)
Definition Paper_findById (id : IdParam) : Eff World (option Paper) :=
  i <- castObjectId "Paper" id ;;
  io ;;;
  w <- get_world ;;
  ret (find_by_id p_id i (papers w)).

Definition Paper_insert (p : Paper) : Eff World unit :=
  io ;;;
  w <- get_world ;;
  if existsb (fun x => Nat.eqb (p_id x) (p_id p)) (papers w)
  then throw "E11000 duplicate key error: _id"
  else put_world (set_papers w (papers w ++ [p])).

Definition Paper_update (p : Paper) : Eff World unit :=
  io ;;;
  modify (fun w => set_papers w (replace_by_id p_id p (papers w))).

(** [paper.remove()] *)
Definition Paper_remove (p : Paper) : Eff World unit :=
  io ;;;
  modify (fun w => set_papers w (delete_by_id p_id (p_id p) (papers w))).

(** *** Cloudinary *)

Record UploadResult := {
  secure_url : string;
  public_id : string
}.

(** [cloudinary.uploader.upload_stream({ resource_type, public_id }, cb)]
    fed with [buffer]. *)
Definition cloudinary_upload (resource_type id buffer : string) : Eff World UploadResult :=
  io ;;;
  modify (fun w => set_cloud w (cloud w ++
            [{| o_public_id := id; o_resource_type := resource_type;
                o_bytes := buffer |}])) ;;;
  ret {| secure_url := cloudinary_secure_url resource_type id; public_id := id |}.

(** [cloudinary.uploader.destroy(public_id, { resource_type })] *)
Definition cloudinary_destroy (id resource_type : string) : Eff World unit :=
  io ;;;
  modify (fun w => set_cloud w
            (filter (fun o => negb (String.eqb (o_public_id o) id &&
                                    String.eqb (o_resource_type o) resource_type))
                    (cloud w))).

(** Cloudinary holds an object under this public id. *)
Definition stored (id : string) (w : World) : Prop :=
  exists o, In o (cloud w) /\ o_public_id o = id.

(** [multer({ storage: memoryStorage, limits: { fileSize }, fileFilter }).single('file')]:
    the filter sees the part's headers before any byte of it is read; a
    part that reaches [fileSize] bytes is cut off and refused. *)
Definition multer_single {W} (fileFilter : File -> option string) (fileSize : option Z)
    (file : option File) : Eff W (option File) :=
  match file with
  | None => ret None
  | Some f =>
      match fileFilter f with
      | Some err => throw err
      | None =>
          match fileSize with
          | Some limit =>
              if (limit <=? Z.of_nat (String.length (buffer f)))%Z
              then throw "File too large"
              else ret (Some f)
          | None => ret (Some f)
          end
      end
  end.

(** express-validator: a failed check contributes its message.  The
    checked fields are read where the handlers read them, in the body:
    requests that also carry a checked field in the query string or in a
    header are not among the requests of this development. *)
Definition check (passed : bool) (msg : string) : list string :=
  if passed then [] else [msg].

Definition isLength (min : nat) (v : option string) : bool :=
  Nat.leb min (String.length (or_empty v)).

Definition exists_ (v : option string) : bool :=
  match v with Some _ => true | None => false end.

Definition isEmpty (errors : list string) : bool :=
  match errors with [] => true | _ => false end.

(** [req.user.name === paper.author].  ([req.user] is the token's payload;
    it has no [avatar], so [req.user.avatar || ''] is [''] in the comment
    handlers.) *)
Definition same_name (a b : option string) : bool := opt_eqb a b.

End Helpers.

(** ** [Rich]: src/unnamed/part_000, lines 100-521 *)

Module Rich.
Section Handlers.
Context `{Platform}.

(** [uploadPDF]'s [fileFilter] *)
Definition uploadPDF_fileFilter (f : File) : option string :=
  if String.eqb (mimetype f) "application/pdf" then None
  else Some "Only PDF files are allowed".

(** [uploadImage]'s [fileFilter] *)
Definition uploadImage_fileFilter (f : File) : option string :=
  if String.prefix "image/" (mimetype f) then None
  else Some "Only image files are allowed for avatar".

Definition uploadPDF : option File -> Eff World (option File) :=
  multer_single uploadPDF_fileFilter (Some (50 * 1024 * 1024)%Z).

Definition uploadImage : option File -> Eff World (option File) :=
  multer_single uploadImage_fileFilter (Some (5 * 1024 * 1024)%Z).

Definition rateLimit (env : Env) (message : string) (next : Eff World Response)
    : Eff World Response :=
  if limited env then ret (res 429 (Text message)) else next.

Definition authLimiter (env : Env) := rateLimit env "Too many auth requests, try again later".
Definition uploadLimiter (env : Env) := rateLimit env "Too many uploads, try later".

Definition uploadBufferToCloudinary (env : Env) (buffer filename resource_type : string)
    : Eff World UploadResult :=
  cloudinary_upload resource_type
    ("unida/" ++ path_parse_name filename ++ "-" ++ show_Z (now env) ++ "-" ++ uuid env)%string
    buffer.

(** POST /api/auth/register *)
Definition register (env : Env) (b : RegisterBody) : Eff World Response :=
  authLimiter env (
    let errors :=
      check (isLength 2 (rb_name b)) "Name is required" ++
      check (isEmail (or_empty (rb_email b))) "Valid email required" ++
      check (isLength 6 (rb_password b)) "Password min 6 chars" in
    try (
      if negb (isEmpty errors) then ret (res 400 (ValidationFailed errors)) else
      found <- User_findOne (rb_email b) ;;
      match found with
      | Some _ => ret (res 400 (Message "Email already registered"))
      | None =>
          passwordHash <- bcrypt_hash (rb_password b) (salt env) ;;
          let avatar := ("https://ui-avatars.com/api/?name=" ++
                         encodeURIComponent (js_string (rb_name b)) ++
                         "&background=76935C&color=fff")%string in
          user <- new_User (now env) (rb_name b) (rb_email b) passwordHash
                           (or_empty (rb_institution b)) avatar ;;
          User_insert user ;;;
          let token := generateToken (now env) user in
          ret (json (Session (public user) token))
      end)
    catch e => ret (res 500 (Message "Server error"))).

(** POST /api/auth/login *)
Definition login (env : Env) (b : LoginBody) : Eff World Response :=
  authLimiter env (
    let errors :=
      check (isEmail (or_empty (lb_email b))) "Invalid value" ++
      check (exists_ (lb_password b)) "Invalid value" in
    try (
      if negb (isEmpty errors) then ret (res 400 (ValidationFailed errors)) else
      found <- User_findOne (lb_email b) ;;
      match found with
      | None => ret (res 400 (Message "Invalid credentials"))
      | Some user =>
          ok <- bcrypt_compare (lb_password b) (u_passwordHash user) ;;
          if negb ok then ret (res 400 (Message "Invalid credentials")) else
          let token := generateToken (now env) user in
          ret (json (Session (public user) token))
      end)
    catch e => ret (res 500 (Message "Server error"))).

(** GET /api/papers *)
Definition getPapers : Eff World Response :=
  try (
    papers <- Paper_find_sorted ;;
    ret (json (PaperList papers)))
  catch e => ret (res 500 (Message "Server error")).

(** POST /api/papers *)
Definition postPaper (env : Env) (auth : Authorization) (file : option File)
    (b : PaperBody) : Eff World Response :=
  authMiddleware env auth (fun user =>
  uploadLimiter env (
    file <- uploadPDF file ;;
    let errors :=
      check (isLength 1 (pb_title b)) "Title required" ++
      check (isLength 1 (pb_author b)) "Author required" in
    try (
      if negb (isEmpty errors) then ret (res 400 (ValidationFailed errors)) else
      match file with
      | None => ret (res 400 (Message "File required"))
      | Some f =>
          result <- uploadBufferToCloudinary env (buffer f) (originalname f) "raw" ;;
          id <- new_ObjectId ;;
          let paper :=
            {| p_id := id;
               p_title := pb_title b;
               p_desc := pb_desc b;
               p_category := pb_category b;
               p_author := pb_author b;
               p_authorAvatar := pb_authorAvatar b;
               p_pdfUrl := Some (secure_url result);
               p_cloudinary_public_id := Some (public_id result);
               p_collaboration := opt_eqb (pb_collaboration b) (Some "true");
               p_likes := 0;
               p_comments := [];
               p_date := now env |} in
          Paper_insert paper ;;;
          ret (json (OnePaper paper))
      end)
    catch e => ret (res 500 (MessageError "Upload failed" e)))).

(** DELETE /api/papers/:id *)
Definition deletePaper (env : Env) (auth : Authorization) (id : IdParam)
    : Eff World Response :=
  authMiddleware env auth (fun user =>
    try (
      found <- Paper_findById id ;;
      match found with
      | None => ret (res 404 (Message "Not found"))
      | Some paper =>
          let isAuthor := same_name (c_name user) (p_author paper) in
          let isAdmin := c_isAdmin user in
          if negb isAuthor && negb isAdmin then ret (res 403 (Message "Forbidden")) else
          (if truthy (p_cloudinary_public_id paper) then
             try cloudinary_destroy (or_empty (p_cloudinary_public_id paper)) "raw"
             catch err => ret tt
           else ret tt) ;;;
          Paper_remove paper ;;;
          ret (json Ok)
      end)
    catch e => ret (res 500 (Message "Server error"))).

(** POST /api/papers/:id/comments *)
Definition postComment (env : Env) (auth : Authorization) (id : IdParam)
    (b : CommentBody) : Eff World Response :=
  authMiddleware env auth (fun user =>
    let errors := check (isLength 1 (cb_text b)) "Text required" in
    try (
      if negb (isEmpty errors) then ret (res 400 (ValidationFailed errors)) else
      found <- Paper_findById id ;;
      match found with
      | None => ret (res 404 (Message "Not found"))
      | Some paper =>
          let comments := p_comments paper ++
            [{| cm_author := c_name user; cm_avatar := ""; cm_text := cb_text b;
                cm_time := now env |}] in
          let paper :=
            {| p_id := p_id paper; p_title := p_title paper; p_desc := p_desc paper;
               p_category := p_category paper; p_author := p_author paper;
               p_authorAvatar := p_authorAvatar paper; p_pdfUrl := p_pdfUrl paper;
               p_cloudinary_public_id := p_cloudinary_public_id paper;
               p_collaboration := p_collaboration paper; p_likes := p_likes paper;
               p_comments := comments; p_date := p_date paper |} in
          Paper_update paper ;;;
          ret (json (OkComments (p_comments paper)))
      end)
    catch e => ret (res 500 (Message "Server error"))).

(** POST /api/users/avatar *)
Definition postAvatar (env : Env) (auth : Authorization) (file : option File)
    : Eff World Response :=
  authMiddleware env auth (fun claims =>
    file <- uploadImage file ;;
    try (
      match file with
      | None => ret (res 400 (Message "File required"))
      | Some f =>
          result <- uploadBufferToCloudinary env (buffer f) (originalname f) "image" ;;
          found <- User_findById (c_id claims) ;;
          match found with
          | None => ret (res 404 (Message "User not found"))
          | Some user =>
              let user :=
                {| u_id := u_id user; u_name := u_name user; u_email := u_email user;
                   u_passwordHash := u_passwordHash user;
                   u_institution := u_institution user;
                   u_avatar := secure_url result;
                   u_isAdmin := u_isAdmin user; u_bio := u_bio user;
                   u_createdAt := u_createdAt user |} in
              User_update user ;;;
              ret (json (OkAvatar (u_avatar user)))
          end
      end)
    catch e => ret (res 500 (MessageError "Avatar upload failed" e))).

(** *** News and events *)

Definition News_insert (n : News) : Eff World unit :=
  io ;;;
  w <- get_world ;;
  if existsb (fun x => Nat.eqb (n_id x) (n_id n)) (news w)
  then throw "E11000 duplicate key error: _id"
  else put_world (set_news w (news w ++ [n])).

Definition Event_insert (e : Event) : Eff World unit :=
  io ;;;
  w <- get_world ;;
  if existsb (fun x => Nat.eqb (e_id x) (e_id e)) (events w)
  then throw "E11000 duplicate key error: _id"
  else put_world (set_events w (events w ++ [e])).

(** A document takes the [_id] of the object it is built from, or a new one. *)
Definition id_or_new (given : option ObjectId) : Eff World ObjectId :=
  match given with
  | Some i => ret i
  | None => new_ObjectId
  end.

Definition or_now (env : Env) (given : option Z) : Z :=
  match given with
  | Some t => t
  | None => now env
  end.

(** GET /api/news *)
Definition getNews : Eff World Response :=
  try (
    io ;;;
    w <- get_world ;;
    ret (json (NewsList (sort_desc n_createdAt (news w)))))
  catch e => ret (res 500 (Message "Server error")).

(** POST /api/news *)
Definition postNews (env : Env) (auth : Authorization) (b : NewsBody)
    : Eff World Response :=
  authMiddleware env auth (fun user =>
    let errors := check (isLength 1 (nb_title b)) "Invalid value" in
    try (
      if negb (isEmpty errors) then ret (res 400 (ValidationFailed errors)) else
      id <- id_or_new (nb_id b) ;;
      let item :=
        {| n_id := id; n_title := nb_title b; n_desc := nb_desc b; n_tag := nb_tag b;
           n_img := nb_img b; n_date := toLocaleDateString (now env);
           n_author := c_name user; n_createdAt := or_now env (nb_createdAt b) |} in
      News_insert item ;;;
      ret (json (OneNews item)))
    catch e => ret (res 500 (Message "Server error"))).

(** DELETE /api/news/:id *)
Definition deleteNews (env : Env) (auth : Authorization) (id : IdParam)
    : Eff World Response :=
  authMiddleware env auth (fun user =>
    try (
      if negb (c_isAdmin user) then ret (res 403 (Message "Forbidden")) else
      i <- castObjectId "News" id ;;
      io ;;;
      modify (fun w => set_news w (delete_by_id n_id i (news w))) ;;;
      ret (json Ok))
    catch e => ret (res 500 (Message "Server error"))).

(** GET /api/events *)
Definition getEvents : Eff World Response :=
  try (
    io ;;;
    w <- get_world ;;
    ret (json (EventList (sort_desc e_createdAt (events w)))))
  catch e => ret (res 500 (Message "Server error")).

(** POST /api/events: the validation result is never read. *)
Definition postEvent (env : Env) (auth : Authorization) (b : EventBody)
    : Eff World Response :=
  authMiddleware env auth (fun user =>
    try (
      id <- id_or_new (eb_id b) ;;
      let item :=
        {| e_id := id; e_title := eb_title b; e_desc := eb_desc b; e_type := eb_type b;
           e_day := eb_day b; e_month := eb_month b; e_location := eb_location b;
           e_createdAt := or_now env (eb_createdAt b) |} in
      Event_insert item ;;;
      ret (json (OneEvent item)))
    catch e => ret (res 500 (Message "Server error"))).

(** DELETE /api/events/:id *)
Definition deleteEvent (env : Env) (auth : Authorization) (id : IdParam)
    : Eff World Response :=
  authMiddleware env auth (fun user =>
    try (
      if negb (c_isAdmin user) then ret (res 403 (Message "Forbidden")) else
      i <- castObjectId "Event" id ;;
      io ;;;
      modify (fun w => set_events w (delete_by_id e_id i (events w))) ;;;
      ret (json Ok))
    catch e => ret (res 500 (Message "Server error"))).

(** The global error handler, reached by errors the middleware passes to
    [next]. *)
Definition errorHandler (message : string) : Response :=
  if negb (String.eqb message "") && includes "Only PDF" message
  then res 400 (Message message)
  else res 500 (Message (if String.eqb message "" then "Server error" else message)).

Inductive Request :=
| GET_health
| POST_register (b : RegisterBody)
| POST_login (b : LoginBody)
| GET_papers
| POST_papers (auth : Authorization) (file : option File) (b : PaperBody)
| DELETE_paper (auth : Authorization) (id : IdParam)
| POST_comments (auth : Authorization) (id : IdParam) (b : CommentBody)
| POST_avatar (auth : Authorization) (file : option File)
| GET_news
| POST_news (auth : Authorization) (b : NewsBody)
| DELETE_news (auth : Authorization) (id : IdParam)
| GET_events
| POST_events (auth : Authorization) (b : EventBody)
| DELETE_event (auth : Authorization) (id : IdParam).

Definition route (env : Env) (r : Request) : Eff World Response :=
  match r with
  | GET_health => ret (json Ok)
  | POST_register b => register env b
  | POST_login b => login env b
  | GET_papers => getPapers
  | POST_papers auth file b => postPaper env auth file b
  | DELETE_paper auth id => deletePaper env auth id
  | POST_comments auth id b => postComment env auth id b
  | POST_avatar auth file => postAvatar env auth file
  | GET_news => getNews
  | POST_news auth b => postNews env auth b
  | DELETE_news auth id => deleteNews env auth id
  | GET_events => getEvents
  | POST_events auth b => postEvent env auth b
  | DELETE_event auth id => deleteEvent env auth id
  end.

(** One request served: the response and the state it leaves. *)
Definition serve (h : Eff World Response) (env : Env) (w : World) : Response * World :=
  match h w (faults env) with
  | (Return r, w', _) => (r, w')
  | (Throw e, w', _) => (errorHandler e, w')
  end.

Definition handle (env : Env) (r : Request) (w : World) : Response * World :=
  serve (route env r) env w.

(** The states the server can reach from an empty database. *)
Inductive reachable : World -> Prop :=
| reach_init : reachable empty_world
| reach_step w env r : reachable w -> reachable (snd (handle env r w)).

End Handlers.
End Rich.

(** ** [Mid]: src/unnamed/part_002 *)

Module Mid.
Section Handlers.
Context `{Platform}.

(** [multer({ storage: multer.memoryStorage(), limits: { fileSize } })]: no
    [fileFilter]. *)
Definition upload : option File -> Eff World (option File) :=
  multer_single (fun _ => None) (Some (50 * 1024 * 1024)%Z).

Definition uploadBufferToCloudinary (env : Env) (buffer filename : string)
    : Eff World UploadResult :=
  cloudinary_upload "raw"
    ("papers/" ++ path_parse_name filename ++ "-" ++ show_Z (now env) ++ "-" ++ uuid env)%string
    buffer.

(** POST /api/auth/register *)
Definition register (env : Env) (b : RegisterBody) : Eff World Response :=
  try (
    if negb (truthy (rb_email b)) || negb (truthy (rb_password b)) || negb (truthy (rb_name b))
    then ret (res 400 (Message "Missing fields")) else
    found <- User_findOne (rb_email b) ;;
    match found with
    | Some _ => ret (res 400 (Message "Email already registered"))
    | None =>
        passwordHash <- bcrypt_hash (rb_password b) (salt env) ;;
        let avatar := ("https://ui-avatars.com/api/?name=" ++
                       encodeURIComponent (js_string (rb_name b)) ++
                       "&background=76935C&color=fff")%string in
        user <- new_User (now env) (rb_name b) (rb_email b) passwordHash
                         (or_empty (rb_institution b)) avatar ;;
        User_insert user ;;;
        let token := generateToken (now env) user in
        ret (json (Session (public user) token))
    end)
  catch e => ret (res 500 (Message "Server error")).

(** POST /api/auth/login *)
Definition login (env : Env) (b : LoginBody) : Eff World Response :=
  try (
    if negb (truthy (lb_email b)) || negb (truthy (lb_password b))
    then ret (res 400 (Message "Missing fields")) else
    found <- User_findOne (lb_email b) ;;
    match found with
    | None => ret (res 400 (Message "Invalid credentials"))
    | Some user =>
        ok <- bcrypt_compare (lb_password b) (u_passwordHash user) ;;
        if negb ok then ret (res 400 (Message "Invalid credentials")) else
        let token := generateToken (now env) user in
        ret (json (Session (public user) token))
    end)
  catch e => ret (res 500 (Message "Server error")).

(** GET /api/papers *)
Definition getPapers : Eff World Response :=
  try (
    papers <- Paper_find_sorted ;;
    ret (json (PaperList papers)))
  catch e => ret (res 500 (Message "Server error")).

(** POST /api/papers *)
Definition postPaper (env : Env) (auth : Authorization) (file : option File)
    (b : PaperBody) : Eff World Response :=
  authMiddleware env auth (fun user =>
    file <- upload file ;;
    try (
      match file with
      | None => ret (res 400 (Message "File required"))
      | Some f =>
          result <- uploadBufferToCloudinary env (buffer f) (originalname f) ;;
          id <- new_ObjectId ;;
          let paper :=
            {| p_id := id;
               p_title := pb_title b;
               p_desc := pb_desc b;
               p_category := pb_category b;
               p_author := pb_author b;
               p_authorAvatar := pb_authorAvatar b;
               p_pdfUrl := Some (secure_url result);
               p_cloudinary_public_id := Some (public_id result);
               p_collaboration := opt_eqb (pb_collaboration b) (Some "true");
               p_likes := 0;
               p_comments := [];
               p_date := now env |} in
          Paper_insert paper ;;;
          ret (json (OnePaper paper))
      end)
    catch e => ret (res 500 (Message "Upload failed"))).

(** DELETE /api/papers/:id *)
Definition deletePaper (env : Env) (auth : Authorization) (id : IdParam)
    : Eff World Response :=
  authMiddleware env auth (fun user =>
    try (
      found <- Paper_findById id ;;
      match found with
      | None => ret (res 404 (Message "Not found"))
      | Some paper =>
          let isAuthor := same_name (c_name user) (p_author paper) in
          let isAdmin := c_isAdmin user in
          if negb isAuthor && negb isAdmin then ret (res 403 (Message "Forbidden")) else
          (if truthy (p_cloudinary_public_id paper) then
             try cloudinary_destroy (or_empty (p_cloudinary_public_id paper)) "raw"
             catch err => ret tt
           else ret tt) ;;;
          Paper_remove paper ;;;
          ret (json Ok)
      end)
    catch e => ret (res 500 (Message "Server error"))).

(** POST /api/papers/:id/comments *)
Definition postComment (env : Env) (auth : Authorization) (id : IdParam)
    (b : CommentBody) : Eff World Response :=
  authMiddleware env auth (fun user =>
    try (
      if negb (truthy (cb_text b)) then ret (res 400 (Message "Text required")) else
      found <- Paper_findById id ;;
      match found with
      | None => ret (res 404 (Message "Not found"))
      | Some paper =>
          let comments := p_comments paper ++
            [{| cm_author := c_name user; cm_avatar := ""; cm_text := cb_text b;
                cm_time := now env |}] in
          let paper :=
            {| p_id := p_id paper; p_title := p_title paper; p_desc := p_desc paper;
               p_category := p_category paper; p_author := p_author paper;
               p_authorAvatar := p_authorAvatar paper; p_pdfUrl := p_pdfUrl paper;
               p_cloudinary_public_id := p_cloudinary_public_id paper;
               p_collaboration := p_collaboration paper; p_likes := p_likes paper;
               p_comments := comments; p_date := p_date paper |} in
          Paper_update paper ;;;
          ret (json (OkComments (p_comments paper)))
      end)
    catch e => ret (res 500 (Message "Server error"))).

(** One request served; an error a middleware passes to [next] reaches
    Express's own error handler. *)
Definition serve (h : Eff World Response) (env : Env) (w : World) : Response * World :=
  match h w (faults env) with
  | (Return r, w', _) => (r, w')
  | (Throw e, w', _) => (res 500 (Text e), w')
  end.

End Handlers.
End Mid.

(** ** The servers without accounts *)

(** Their database holds one collection; the media store is the same
    Cloudinary. *)
Record Store (P : Type) := {
  docs : list P;
  media : list CloudObject;
  next_id : nat
}.
Arguments docs {P} s.
Arguments media {P} s.
Arguments next_id {P} s.

Definition set_docs {P} (s : Store P) (l : list P) : Store P :=
  {| docs := l; media := media s; next_id := next_id s |}.

Definition set_media {P} (s : Store P) (l : list CloudObject) : Store P :=
  {| docs := docs s; media := l; next_id := next_id s |}.

(** The [_id] a new document draws: one not handed out before. *)
Definition fresh_id {P} : Eff (Store P) ObjectId :=
  fun s fs => (Return (next_id s),
               {| docs := docs s; media := media s; next_id := S (next_id s) |}, fs).

(** What a handler can read of the caller. *)
Record Headers := {
  authorization : option string
}.

(** The [req.file] multer-storage-cloudinary leaves. *)
Record StoredFile := {
  path : string;
  filename : string
}.

Inductive PlainBody (P : Type) :=
| Error (e : string)                       (* { error } *)
| Success                                  (* { success: true } *)
| Failure (m : string)                     (* { success: false, message } *)
| FailureError (e : string)                (* { success: false, error } *)
| Html (s : string)                        (* Express's own error page *)
| Documents (l : list P)
| Document (d : P).
Arguments Error {P} e.
Arguments Success {P}.
Arguments Failure {P} m.
Arguments FailureError {P} e.
Arguments Html {P} s.
Arguments Documents {P} l.
Arguments Document {P} d.

Record PlainResponse (P : Type) := {
  code : nat;
  payload : PlainBody P
}.
Arguments code {P} p.
Arguments payload {P} p.

Definition reply {P} (c : nat) (b : PlainBody P) : PlainResponse P :=
  {| code := c; payload := b |}.

Section Storage.
Context `{Platform}.

(** [multer({ storage: new CloudinaryStorage(...) }).single('file')]: the
    attachment goes to Cloudinary while the request is parsed, before the
    handler runs.  Cloudinary refusing the file (a format it was told not to
    take, a network error) is a failure of that call. *)
Definition cloudinary_storage {P} (resource_type id : string) (file : option File)
    : Eff (Store P) (option StoredFile) :=
  match file with
  | None => ret None
  | Some f =>
      io ;;;
      modify (fun s => set_media s (media s ++
                [{| o_public_id := id; o_resource_type := resource_type;
                    o_bytes := buffer f |}])) ;;;
      ret (Some {| path := cloudinary_secure_url resource_type id; filename := id |})
  end.

End Storage.

(** ** [Basic]: src/unnamed/part_001 *)

Module Basic.

(** [paperSchema] *)
Record Paper := {
  _id : ObjectId;
  title : option string;
  desc : option string;
  category : option string;
  author : option string;
  authorAvatar : option string;
  pdfUrl : option string;
  collaboration : string;
  date : string;
  likes : Z;
  comments : list string
}.

Record Fields := {
  f_title : option string;
  f_desc : option string;
  f_category : option string;
  f_author : option string;
  f_authorAvatar : option string;
  f_collaboration : option string
}.

Section Handlers.
Context `{Platform}.

Definition upload (env : Env) : option File -> Eff (Store Paper) (option StoredFile) :=
  cloudinary_storage "auto" ("unida_papers/" ++ "file" ++ "-" ++ show_Z (now env))%string.

(** GET /api/papers *)
Definition getPapers : Eff (Store Paper) (PlainResponse Paper) :=
  try (
    io ;;;
    s <- get_world ;;
    ret (reply 200 (Documents (sort_desc (fun p => Z.of_nat (_id p)) (docs s)))))
  catch err => ret (reply 500 (Error "Ошибка при получении данных с сервера")).

(** POST /api/papers *)
Definition postPaper (env : Env) (file : option File) (b : Fields)
    : Eff (Store Paper) (PlainResponse Paper) :=
  file <- upload env file ;;
  try (
    match file with
    | None => ret (reply 400 (Error "Файл PDF не прикреплен"))
    | Some f =>
        id <- fresh_id ;;
        let newPaper :=
          {| _id := id;
             title := f_title b;
             desc := f_desc b;
             category := f_category b;
             author := f_author b;
             authorAvatar := f_authorAvatar b;
             pdfUrl := Some (path f);
             collaboration := match f_collaboration b with Some c => c | None => "false" end;
             date := toLocaleDateString (now env);
             likes := 0;
             comments := [] |} in
        io ;;;
        s <- get_world ;;
        (if existsb (fun x => Nat.eqb (_id x) id) (docs s)
         then throw "E11000 duplicate key error: _id"
         else put_world (set_docs s (docs s ++ [newPaper]))) ;;;
        ret (reply 201 (Document newPaper))
    end)
  catch err => ret (reply 500 (Error err)).

(** DELETE /api/papers/:id *)
Definition deletePaper (headers : Headers) (id : IdParam)
    : Eff (Store Paper) (PlainResponse Paper) :=
  try (
    i <- castObjectId "Paper" id ;;
    io ;;;
    s <- get_world ;;
    let result := find_by_id _id i (docs s) in
    put_world (set_docs s (delete_by_id _id i (docs s))) ;;;
    match result with
    | None => ret (reply 404 (Error "Работа не найдена"))
    | Some _ => ret (reply 200 Success)
    end)
  catch err => ret (reply 500 (Error err)).

Definition serve (h : Eff (Store Paper) (PlainResponse Paper)) (env : Env) (s : Store Paper)
    : PlainResponse Paper * Store Paper :=
  match h s (faults env) with
  | (Return r, s', _) => (r, s')
  | (Throw e, s', _) => (reply 500 (Html e), s')
  end.

End Handlers.
End Basic.

(** ** [Server1]: src/server.js, lines 1-59 *)

Module Server1.

Record Paper := {
  _id : ObjectId;
  title : option string;
  desc : option string;
  category : option string;
  author : option string;
  authorAvatar : option string;
  pdfUrl : string;
  date : string;
  likes : Z;
  comments : Z
}.

(** [req.body], spread into the document: every path of the schema can be
    given by the client, [_id] included. *)
Record Fields := {
  f_id : option ObjectId;
  f_title : option string;
  f_desc : option string;
  f_category : option string;
  f_author : option string;
  f_authorAvatar : option string;
  f_date : option string;
  f_likes : option Z;
  f_comments : option Z
}.

Section Handlers.
Context `{Platform}.

(** The storage is given a folder and a list of formats, no
    [resource_type] and no [public_id]: Cloudinary takes its default type,
    [image], and the storage draws an id. *)
Definition upload (env : Env) : option File -> Eff (Store Paper) (option StoredFile) :=
  cloudinary_storage "image" ("unida_papers/" ++ uuid env)%string.

(** An async handler without [try]: a rejection is never answered. *)
Definition unanswered {W A} (h : Eff W A) : Eff W (option A) :=
  try (r <- h ;; ret (Some r)) catch e => ret None.

(** GET /api/papers *)
Definition getPapers : Eff (Store Paper) (option (PlainResponse Paper)) :=
  unanswered (
    io ;;;
    s <- get_world ;;
    ret (reply 200 (Documents (sort_desc (fun p => Z.of_nat (_id p)) (docs s))))).

(** POST /api/papers *)
Definition postPaper (env : Env) (file : option File) (b : Fields)
    : Eff (Store Paper) (option (PlainResponse Paper)) :=
  file <- upload env file ;;
  unanswered (
    id <- match f_id b with Some i => ret i | None => fresh_id end ;;
    let paper :=
      {| _id := id;
         title := f_title b;
         desc := f_desc b;
         category := f_category b;
         author := f_author b;
         authorAvatar := f_authorAvatar b;
         pdfUrl := match file with Some f => path f | None => "" end;
         date := match f_date b with Some d => d | None => toLocaleDateString (now env) end;
         likes := match f_likes b with Some n => n | None => 0%Z end;
         comments := match f_comments b with Some n => n | None => 0%Z end |} in
    io ;;;
    s <- get_world ;;
    (if existsb (fun x => Nat.eqb (_id x) id) (docs s)
     then throw "E11000 duplicate key error: _id"
     else put_world (set_docs s (docs s ++ [paper]))) ;;;
    ret (reply 201 (Document paper))).

Definition serve (h : Eff (Store Paper) (option (PlainResponse Paper))) (env : Env)
    (s : Store Paper) : option (PlainResponse Paper) * Store Paper :=
  match h s (faults env) with
  | (Return r, s', _) => (r, s')
  | (Throw e, s', _) => (Some (reply 500 (Html e)), s')
  end.

End Handlers.
End Server1.

(** ** [Server2]: src/server.js, lines 60-158 *)

Module Server2.

Record Paper := {
  _id : ObjectId;
  title : option string;
  desc : option string;
  category : option string;
  author : option string;
  authorAvatar : option string;
  pdfUrl : string;
  date : string
}.

Record Fields := {
  f_id : option ObjectId;
  f_title : option string;
  f_desc : option string;
  f_category : option string;
  f_author : option string;
  f_authorAvatar : option string;
  f_date : option string
}.

Section Handlers.
Context `{Platform}.

Definition upload (env : Env) : option File -> Eff (Store Paper) (option StoredFile) :=
  cloudinary_storage "auto" ("unida_papers/" ++ "file" ++ "-" ++ show_Z (now env))%string.

(** GET /api/papers *)
Definition getPapers : Eff (Store Paper) (PlainResponse Paper) :=
  try (
    io ;;;
    s <- get_world ;;
    ret (reply 200 (Documents (sort_desc (fun p => Z.of_nat (_id p)) (docs s)))))
  catch err => ret (reply 500 (Error err)).

(** POST /api/papers *)
Definition postPaper (env : Env) (file : option File) (b : Fields)
    : Eff (Store Paper) (PlainResponse Paper) :=
  file <- upload env file ;;
  try (
    match file with
    | None => throw "Cannot read properties of undefined (reading 'path')"
    | Some f =>
        id <- match f_id b with Some i => ret i | None => fresh_id end ;;
        let newPaper :=
          {| _id := id;
             title := f_title b;
             desc := f_desc b;
             category := f_category b;
             author := f_author b;
             authorAvatar := f_authorAvatar b;
             pdfUrl := path f;
             date := match f_date b with Some d => d | None => toLocaleDateString (now env) end
          |} in
        io ;;;
        s <- get_world ;;
        (if existsb (fun x => Nat.eqb (_id x) id) (docs s)
         then throw "E11000 duplicate key error: _id"
         else put_world (set_docs s (docs s ++ [newPaper]))) ;;;
        ret (reply 201 (Document newPaper))
    end)
  catch err => ret (reply 500 (Error err)).

(** DELETE /api/papers/:id *)
Definition deletePaper (headers : Headers) (id : IdParam)
    : Eff (Store Paper) (PlainResponse Paper) :=
  try (
    i <- castObjectId "Paper" id ;;
    io ;;;
    s <- get_world ;;
    let result := find_by_id _id i (docs s) in
    put_world (set_docs s (delete_by_id _id i (docs s))) ;;;
    match result with
    | None => ret (reply 404 (Failure "Работа не найдена в базе"))
    | Some _ => ret (reply 200 Success)
    end)
  catch err => ret (reply 500 (FailureError err)).

Definition serve (h : Eff (Store Paper) (PlainResponse Paper)) (env : Env) (s : Store Paper)
    : PlainResponse Paper * Store Paper :=
  match h s (faults env) with
  | (Return r, s', _) => (r, s')
  | (Throw e, s', _) => (reply 500 (Html e), s')
  end.

End Handlers.
End Server2.

(** ** A platform to run the servers on concrete requests *)

Definition demo_platform : Platform :=
  {| env_JWT_SECRET := None;
     hs256 := fun secret c =>
       (secret ++ "." ++ show_Z (Z.of_nat (c_id c)) ++ "." ++ js_string (c_email c) ++ "." ++
        js_string (c_name c) ++ "." ++ (if c_isAdmin c then "admin" else "user") ++ "." ++
        show_Z (c_iat c) ++ "." ++ show_Z (c_exp c))%string;
     bcrypt_kdf := fun s p => (s ++ "$" ++ p)%string;
     isEmail := fun s => includes "@" s;
     encodeURIComponent := fun s => s;
     path_parse_name := fun s => s;
     toLocaleDateString := fun t => show_Z t;
     castErrorMessage := fun v m =>
       ("Cast to ObjectId failed for value " ++ v ++ " for model " ++ m)%string;
     cloudinary_secure_url := fun rt id => ("https://res.cloudinary.com/" ++ rt ++ "/" ++ id)%string |}.

Definition quiet (t : Z) : Env :=
  {| now := t; limited := false; salt := "s"; uuid := "u"; faults := [] |}.

(** An environment whose external calls follow the given script. *)
Definition flaky (t : Z) (script : list (option string)) : Env :=
  {| now := t; limited := false; salt := "s"; uuid := "u"; faults := script |}.

Definition alice : RegisterBody :=
  {| rb_name := Some "Alice"; rb_email := Some "a@x.com"; rb_password := Some "secret1";
     rb_institution := None |}.

Definition alice_login : LoginBody :=
  {| lb_email := Some "a@x.com"; lb_password := Some "secret1" |}.

Definition demo_user (id : ObjectId) (name email : string) : User :=
  {| u_id := id; u_name := Some name; u_email := Some email; u_passwordHash := None;
     u_institution := ""; u_avatar := ""; u_isAdmin := false; u_bio := None;
     u_createdAt := 0 |}.

(** Tokens signed with [demo_platform]'s secret at clock 5000. *)
Definition alice_token : Token :=
  @generateToken demo_platform 5000 (demo_user 0 "Alice" "a@x.com").

Definition bob_token : Token :=
  @generateToken demo_platform 5000 (demo_user 9 "Bob" "b@x.com").

(** A second account that also calls itself Alice. *)
Definition namesake_token : Token :=
  @generateToken demo_platform 5000 (demo_user 5 "Alice" "other@x.com").

Definition note_txt : File :=
  {| originalname := "note.txt"; mimetype := "text/plain"; buffer := "hello" |}.

Definition thesis_pdf : File :=
  {| originalname := "thesis.pdf"; mimetype := "application/pdf"; buffer := "%PDF-1.7" |}.

Definition thesis : PaperBody :=
  {| pb_title := Some "Thesis"; pb_desc := None; pb_category := None;
     pb_author := Some "Alice"; pb_authorAvatar := None; pb_collaboration := None |}.

(** The paper Alice's upload of [thesis_pdf] at clock 6000 creates as the
    second document the server ever made. *)
Definition thesis_paper : Paper :=
  {| p_id := 1; p_title := Some "Thesis"; p_desc := None; p_category := None;
     p_author := Some "Alice"; p_authorAvatar := None;
     p_pdfUrl := Some "https://res.cloudinary.com/raw/unida/thesis.pdf-6000-u";
     p_cloudinary_public_id := Some "unida/thesis.pdf-6000-u";
     p_collaboration := false; p_likes := 0; p_comments := []; p_date := 6000 |}.

(** Alice registered at clock 1000, then uploaded her thesis. *)
Definition registered : World :=
  snd (@Rich.handle demo_platform (quiet 1000) (Rich.POST_register alice) empty_world).

Definition library : World :=
  snd (@Rich.handle demo_platform (quiet 6000)
         (Rich.POST_papers (Bearer (Some alice_token)) (Some thesis_pdf) thesis)
         registered).

Definition plain_paper : Basic.Paper :=
  {| Basic._id := 3; Basic.title := Some "Thesis"; Basic.desc := None;
     Basic.category := None; Basic.author := Some "Alice";
     Basic.authorAvatar := None; Basic.pdfUrl := Some "https://res.cloudinary.com/auto/x";
     Basic.collaboration := "false"; Basic.date := "01.01.2024"; Basic.likes := 0;
     Basic.comments := [] |}.

Definition plain_store : Store Basic.Paper :=
  {| docs := [plain_paper];
     media := [{| o_public_id := "unida_papers/file-1"; o_resource_type := "auto";
                  o_bytes := "%PDF-1.7" |}];
     next_id := 4 |}.

(** An upload to [Server1] that names its own [_id], or leaves it to the
    server. *)
Definition plain_fields (id : option ObjectId) : Server1.Fields :=
  {| Server1.f_id := id; Server1.f_title := Some "Thesis"; Server1.f_desc := None;
     Server1.f_category := None; Server1.f_author := Some "Alice";
     Server1.f_authorAvatar := None; Server1.f_date := None;
     Server1.f_likes := None; Server1.f_comments := None |}.

Definition empty_store : Store Server1.Paper :=
  {| docs := []; media := []; next_id := 0 |}.

Definition flat_paper : Server2.Paper :=
  {| Server2._id := 3; Server2.title := Some "Thesis"; Server2.desc := None;
     Server2.category := None; Server2.author := Some "Alice";
     Server2.authorAvatar := None; Server2.pdfUrl := "https://res.cloudinary.com/auto/x";
     Server2.date := "01.01.2024" |}.

Definition flat_store : Store Server2.Paper :=
  {| docs := [flat_paper];
     media := [{| o_public_id := "unida_papers/file-1"; o_resource_type := "auto";
                  o_bytes := "%PDF-1.7" |}];
     next_id := 4 |}.

(** ** Sequences of uploads *)

(** One POST /api/papers: its environment and what the client sends. *)
Record Upload := {
  up_env : Env;
  up_auth : Authorization;
  up_file : option File;
  up_body : PaperBody
}.

(** The paper a response reports as created. *)
Definition created (r : Response) : list Paper :=
  match body r with
  | OnePaper p => if Nat.eqb (status r) 200 then [p] else []
  | _ => []
  end.

Definition successes (rs : list Response) : nat :=
  length (filter (fun r => Nat.eqb (status r) 200) rs).

(** Serving uploads one after the other: the responses, oldest first, and
    the final state. *)
Fixpoint rich_uploads `{Platform} (trace : list Upload) (w : World)
    : list Response * World :=
  match trace with
  | [] => ([], w)
  | u :: rest =>
      let (r, w') :=
        Rich.handle (up_env u) (Rich.POST_papers (up_auth u) (up_file u) (up_body u)) w in
      let (rs, w'') := rich_uploads rest w' in
      (r :: rs, w'')
  end.

Fixpoint mid_uploads `{Platform} (trace : list Upload) (w : World)
    : list Response * World :=
  match trace with
  | [] => ([], w)
  | u :: rest =>
      let (r, w') :=
        Mid.serve (Mid.postPaper (up_env u) (up_auth u) (up_file u) (up_body u))
                  (up_env u) w in
      let (rs, w'') := mid_uploads rest w' in
      (r :: rs, w'')
  end.

Record PlainUpload := {
  s1_env : Env;
  s1_file : option File;
  s1_fields : Server1.Fields
}.

Definition plain_created (r : option (PlainResponse Server1.Paper)) : list Server1.Paper :=
  match r with
  | Some r =>
      match payload r with
      | Document p => if Nat.eqb (code r) 201 then [p] else []
      | _ => []
      end
  | None => []
  end.

Definition plain_successes (rs : list (option (PlainResponse Server1.Paper))) : nat :=
  length (filter (fun r => match r with
                           | Some r => Nat.eqb (code r) 201
                           | None => false
                           end) rs).

Fixpoint server1_uploads `{Platform} (trace : list PlainUpload) (s : Store Server1.Paper)
    : list (option (PlainResponse Server1.Paper)) * Store Server1.Paper :=
  match trace with
  | [] => ([], s)
  | u :: rest =>
      let (r, s') :=
        Server1.serve (Server1.postPaper (s1_env u) (s1_file u) (s1_fields u))
                      (s1_env u) s in
      let (rs, s'') := server1_uploads rest s' in
      (r :: rs, s'')
  end.

(** ** What one request may do to the collections of [Rich] *)

(** The user collection after a request: untouched, or one more user who is
    not an admin, whose email no stored user had and whose id is the next
    the generator issues, or one stored user rewritten with the same id,
    email and admin flag. *)
Definition users_grow (w w' : World) : Prop :=
  users w' = users w \/
  (exists u, users w' = users w ++ [u] /\ u_isAdmin u = false /\
             find (fun x => opt_eqb (u_email x) (u_email u)) (users w) = None /\
             u_id u = oid w /\ (oid w < oid w')%nat) \/
  (exists old u, find_by_id u_id (u_id u) (users w) = Some old /\
                 users w' = replace_by_id u_id u (users w) /\
                 u_email u = u_email old /\ u_isAdmin u = u_isAdmin old).

(** The paper collection after a request: untouched, or one more paper
    whose id is the next the generator issues, or one id deleted, or one
    stored paper rewritten under its own id.  The generator never steps
    back. *)
Definition papers_grow (w w' : World) : Prop :=
  (oid w <= oid w')%nat /\
  (papers w' = papers w \/
   (exists p, papers w' = papers w ++ [p] /\ p_id p = oid w /\ (oid w < oid w')%nat) \/
   (exists i, papers w' = delete_by_id p_id i (papers w)) \/
   (exists old p, find_by_id p_id (p_id p) (papers w) = Some old /\
                  papers w' = replace_by_id p_id p (papers w))).

(** Every id in the two collections whose documents are always given a
    generated id was issued by the generator, and no id occurs twice. *)
Definition ids_issued (w : World) : Prop :=
  (forall u, In u (users w) -> (u_id u < oid w)%nat) /\
  (forall p, In p (papers w) -> (p_id p < oid w)%nat) /\
  unique_ids u_id (users w) /\
  unique_ids p_id (papers w).

(** The addresses the collection holds. *)
Definition emails (l : list User) : list string :=
  flat_map (fun u => match u_email u with Some e => [e] | None => [] end) l.

(** No two stored users share an email. *)
Definition unique_emails (l : list User) : Prop := NoDup (emails l).

Definition no_admin (l : list User) : Prop :=
  forall u, In u l -> u_isAdmin u = false.

(** Serving a sequence of requests, each in its own environment. *)
Definition run `{Platform} (trace : list (Env * Rich.Request)) (w : World) : World :=
  fold_left (fun w er => snd (Rich.handle (fst er) (snd er) w)) trace w.

(** A token some response of the server carried, starting from an empty
    database. *)
Definition issued `{Platform} (t : Token) : Prop :=
  exists w env r u,
    Rich.reachable w /\ body (fst (Rich.handle env r w)) = Session u t.

(** ** Vocabulary of the further properties *)

(** The [:id] of the request names no stored paper: it is an ObjectId no
    paper has, or no ObjectId at all. *)
Definition no_paper_under (id : IdParam) (w : World) : Prop :=
  match id with
  | IdOf i => find_by_id p_id i (papers w) = None
  | NotAnId _ => True
  end.

(** The [Authorization] header a route behind [authMiddleware] reads; the
    routes without one are public. *)
Definition credentials (r : Rich.Request) : option Authorization :=
  match r with
  | Rich.POST_papers auth _ _ => Some auth
  | Rich.DELETE_paper auth _ => Some auth
  | Rich.POST_comments auth _ _ => Some auth
  | Rich.POST_avatar auth _ => Some auth
  | Rich.POST_news auth _ => Some auth
  | Rich.DELETE_news auth _ => Some auth
  | Rich.POST_events auth _ => Some auth
  | Rich.DELETE_event auth _ => Some auth
  | Rich.GET_health | Rich.POST_register _ | Rich.POST_login _
  | Rich.GET_papers | Rich.GET_news | Rich.GET_events => None
  end.

(** The routes whose handlers call nothing that writes. *)
Definition read_only (r : Rich.Request) : bool :=
  match r with
  | Rich.GET_health | Rich.POST_login _ | Rich.GET_papers
  | Rich.GET_news | Rich.GET_events => true
  | _ => false
  end.

(** What [bcrypt.compare(password, user.passwordHash || '')] answers. *)
Definition password_matches `{Platform} (u : User) (password : string) : bool :=
  match u_passwordHash u with
  | Some h => String.eqb (bcrypt_kdf (bh_salt h) password) (bh_digest h)
  | None => false
  end.

(** The public id [uploadBufferToCloudinary] of [Rich] asks Cloudinary for. *)
Definition rich_public_id `{Platform} (env : Env) (f : File) : string :=
  ("unida/" ++ path_parse_name (originalname f) ++ "-" ++ show_Z (now env) ++ "-" ++
   uuid env)%string.

(** The object an upload of [f] leaves in Cloudinary. *)
Definition raw_object `{Platform} (env : Env) (f : File) : CloudObject :=
  {| o_public_id := rich_public_id env f; o_resource_type := "raw"; o_bytes := buffer f |}.

(** The comment [postComment] pushes. *)
Definition new_comment (env : Env) (user : Claims) (b : CommentBody) : Comment :=
  {| cm_author := c_name user; cm_avatar := ""; cm_text := cb_text b; cm_time := now env |}.

(** [p'] is [p] with comments added at the end and nothing else changed. *)
Definition more_comments (p p' : Paper) : Prop :=
  p_id p' = p_id p /\ p_title p' = p_title p /\ p_desc p' = p_desc p /\
  p_category p' = p_category p /\ p_author p' = p_author p /\
  p_authorAvatar p' = p_authorAvatar p /\ p_pdfUrl p' = p_pdfUrl p /\
  p_cloudinary_public_id p' = p_cloudinary_public_id p /\
  p_collaboration p' = p_collaboration p /\ p_likes p' = p_likes p /\
  p_date p' = p_date p /\
  exists added, p_comments p' = p_comments p ++ added.

(** The request passes every gate in front of the upload handler of
    [Rich]: a token that verifies, the rate limit, the PDF filter and size
    limit, and the two field checks. *)
Definition admitted `{Platform} (env : Env) (wire : option Token) (user : Claims)
    (f : File) (b : PaperBody) : Prop :=
  jwt_verify wire JWT_SECRET (now env) = Some user /\
  limited env = false /\
  mimetype f = "application/pdf" /\
  (Z.of_nat (String.length (buffer f)) < 50 * 1024 * 1024)%Z /\
  isLength 1 (pb_title b) = true /\
  isLength 1 (pb_author b) = true.

(** What a login depends on, and what identifies the account. *)
Definition login_data (u : User)
    : ObjectId * option string * option string * option BcryptHash * bool :=
  (u_id u, u_name u, u_email u, u_passwordHash u, u_isAdmin u).

(** A user as [register] of [Rich] makes them: a password hash, no admin
    flag. *)
Definition sound_user (u : User) : Prop :=
  u_passwordHash u <> None /\
  u_isAdmin u = false.

(** A paper as the routes of [Rich] make and keep it: zero likes, a
    storage handle and a URL. *)
Definition sound_paper (p : Paper) : Prop :=
  p_likes p = 0%Z /\
  truthy (p_cloudinary_public_id p) = true /\
  p_pdfUrl p <> None.

(** [paper.comments.push(c)] *)
Definition add_comment (p : Paper) (c : Comment) : Paper :=
  {| p_id := p_id p; p_title := p_title p; p_desc := p_desc p;
     p_category := p_category p; p_author := p_author p;
     p_authorAvatar := p_authorAvatar p; p_pdfUrl := p_pdfUrl p;
     p_cloudinary_public_id := p_cloudinary_public_id p;
     p_collaboration := p_collaboration p; p_likes := p_likes p;
     p_comments := p_comments p ++ [c]; p_date := p_date p |}.

(** The user collection after one request of [Rich], in detail. *)
Definition users_shape (w w' : World) : Prop :=
  users w' = users w \/
  (exists u, users w' = users w ++ [u] /\ sound_user u) \/
  (exists old u, find_by_id u_id (u_id u) (users w) = Some old /\
                 users w' = replace_by_id u_id u (users w) /\
                 login_data u = login_data old).

(** The paper collection after one request of [Rich], in detail. *)
Definition papers_shape (w w' : World) : Prop :=
  papers w' = papers w \/
  (exists p, papers w' = papers w ++ [p] /\ sound_paper p /\ p_id p = oid w) \/
  (exists i, papers w' = delete_by_id p_id i (papers w)) \/
  (exists old c, find_by_id p_id (p_id old) (papers w) = Some old /\
                 papers w' = replace_by_id p_id (add_comment old c) (papers w)).

(** The object an avatar upload of [f] leaves in Cloudinary. *)
Definition image_object `{Platform} (env : Env) (f : File) : CloudObject :=
  {| o_public_id := rich_public_id env f; o_resource_type := "image"; o_bytes := buffer f |}.

(** [user.avatar = url] *)
Definition with_avatar (u : User) (url : string) : User :=
  {| u_id := u_id u; u_name := u_name u; u_email := u_email u;
     u_passwordHash := u_passwordHash u; u_institution := u_institution u;
     u_avatar := url; u_isAdmin := u_isAdmin u; u_bio := u_bio u;
     u_createdAt := u_createdAt u |}.

(** ** [MidNews]: src/unnamed/part_002, lines 252-268 *)

(** News and events of [Mid] live in two arrays of the process, not in the
    database.  An item is the JSON object the client sent, as its
    key/value pairs in order, with the keys the server sets. *)
Module MidNews.

Definition Item := list (string * string).

(** [{ ...o, k: v }]: an own key keeps its place and takes the new value, a
    new key goes last. *)
Fixpoint set_key (k v : string) (o : Item) : Item :=
  match o with
  | [] => [(k, v)]
  | (k', v') :: rest =>
      if String.eqb k' k then (k, v) :: rest else (k', v') :: set_key k v rest
  end.

(** [o[k]] *)
Fixpoint get_key (k : string) (o : Item) : option string :=
  match o with
  | [] => None
  | (k', v') :: rest => if String.eqb k' k then Some v' else get_key k rest
  end.

Record Memory := {
  newsStore : list Item;
  eventsStore : list Item
}.

Inductive Reply :=
| Refused (r : Response)     (* what [authMiddleware] answered *)
| Listing (l : list Item)
| Posted (i : Item).

Section Handlers.
Context `{Platform}.

(** [authMiddleware], for handlers over the process memory: the response it
    sends itself, or the payload it passes on. *)
Definition guard (env : Env) (auth : Authorization) : Response + Claims :=
  match auth with
  | Absent => inl (res 401 (Message "Unauthorized"))
  | Bearer wire =>
      match jwt_verify wire JWT_SECRET (now env) with
      | Some payload => inr payload
      | None => inl (res 401 (Message "Invalid token"))
      end
  end.

(** GET /api/news *)
Definition getNews (m : Memory) : Reply * Memory := (Listing (newsStore m), m).

(** POST /api/news *)
Definition postNews (env : Env) (auth : Authorization) (body : Item) (m : Memory)
    : Reply * Memory :=
  match guard env auth with
  | inl r => (Refused r, m)
  | inr _ =>
      let item := set_key "date" (toLocaleDateString (now env))
                    (set_key "id" (show_Z (now env)) body) in
      (Posted item, {| newsStore := item :: newsStore m; eventsStore := eventsStore m |})
  end.

(** GET /api/events *)
Definition getEvents (m : Memory) : Reply * Memory := (Listing (eventsStore m), m).

(** POST /api/events *)
Definition postEvent (env : Env) (auth : Authorization) (body : Item) (m : Memory)
    : Reply * Memory :=
  match guard env auth with
  | inl r => (Refused r, m)
  | inr _ =>
      let item := set_key "id" (show_Z (now env)) body in
      (Posted item, {| newsStore := newsStore m; eventsStore := item :: eventsStore m |})
  end.

(** Posting news one after the other: the replies, oldest first, and the
    memory left. *)
Fixpoint post_all (trace : list (Env * Authorization * Item)) (m : Memory)
    : list Reply * Memory :=
  match trace with
  | [] => ([], m)
  | (env, auth, body) :: rest =>
      let (r, m') := postNews env auth body m in
      let (rs, m'') := post_all rest m' in
      (r :: rs, m'')
  end.

(** The items the replies report as posted, oldest first. *)
Definition posted (rs : list Reply) : list Item :=
  flat_map (fun r => match r with Posted i => [i] | _ => [] end) rs.

End Handlers.
End MidNews.

(** The request passes the two gates in front of the upload handler of
    [Mid]: a token that verifies and the size limit. *)
Definition mid_admitted `{Platform} (env : Env) (wire : option Token) (user : Claims)
    (f : File) : Prop :=
  jwt_verify wire JWT_SECRET (now env) = Some user /\
  (Z.of_nat (String.length (buffer f)) < 50 * 1024 * 1024)%Z.

(** The object an upload to [Mid] leaves in Cloudinary. *)
Definition mid_object `{Platform} (env : Env) (f : File) : CloudObject :=
  {| o_public_id := ("papers/" ++ path_parse_name (originalname f) ++ "-" ++
                     show_Z (now env) ++ "-" ++ uuid env)%string;
     o_resource_type := "raw"; o_bytes := buffer f |}.

(** ** [Early]: src/unnamed/part_000, lines 1-99 *)

Module Early.

(** [paperSchema] *)
Record Paper := {
  _id : ObjectId;
  title : option string;
  desc : option string;
  category : option string;
  author : option string;
  authorAvatar : option string;
  pdfUrl : option string;
  date : string;
  likes : Z;
  comments : Z
}.

Record Fields := {
  f_title : option string;
  f_desc : option string;
  f_category : option string;
  f_author : option string;
  f_authorAvatar : option string
}.

Section Handlers.
Context `{Platform}.

(** No [public_id] is configured: the storage draws one. *)
Definition upload (env : Env) : option File -> Eff (Store Paper) (option StoredFile) :=
  cloudinary_storage "auto" ("unida_papers/" ++ uuid env)%string.

(** GET /api/papers *)
Definition getPapers : Eff (Store Paper) (PlainResponse Paper) :=
  try (
    io ;;;
    s <- get_world ;;
    ret (reply 200 (Documents (sort_desc (fun p => Z.of_nat (_id p)) (docs s)))))
  catch err => ret (reply 500 (Error "Ошибка при получении данных")).

(** POST /api/papers *)
Definition postPaper (env : Env) (file : option File) (b : Fields)
    : Eff (Store Paper) (PlainResponse Paper) :=
  file <- upload env file ;;
  try (
    match file with
    | None => ret (reply 400 (Error "Файл не был загружен"))
    | Some f =>
        id <- fresh_id ;;
        let newPaper :=
          {| _id := id;
             title := f_title b;
             desc := f_desc b;
             category := f_category b;
             author := f_author b;
             authorAvatar := f_authorAvatar b;
             pdfUrl := Some (path f);
             date := toLocaleDateString (now env);
             likes := 0;
             comments := 0 |} in
        io ;;;
        s <- get_world ;;
        (if existsb (fun x => Nat.eqb (_id x) id) (docs s)
         then throw "E11000 duplicate key error: _id"
         else put_world (set_docs s (docs s ++ [newPaper]))) ;;;
        ret (reply 201 (Document newPaper))
    end)
  catch err => ret (reply 500 (Error err)).

Definition serve (h : Eff (Store Paper) (PlainResponse Paper)) (env : Env) (s : Store Paper)
    : PlainResponse Paper * Store Paper :=
  match h s (faults env) with
  | (Return r, s', _) => (r, s')
  | (Throw e, s', _) => (reply 500 (Html e), s')
  end.

End Handlers.
End Early.

(** The object the Cloudinary storage of [Early], [Basic] and [Server2]
    leaves for a file: their storage asks for resource type [auto]. *)
Definition auto_object (id : string) (f : File) : CloudObject :=
  {| o_public_id := id; o_resource_type := "auto"; o_bytes := buffer f |}.

(** The object [Server1]'s storage leaves: no resource type is configured,
    so Cloudinary files it under its default, [image]. *)
Definition default_object (id : string) (f : File) : CloudObject :=
  {| o_public_id := id; o_resource_type := "image"; o_bytes := buffer f |}.

(** The ids of a collection were all issued by the store's generator. *)
Definition issued_below {P} (id_of : P -> ObjectId) (s : Store P) : Prop :=
  forall p, In p (docs s) -> (id_of p < next_id s)%nat.

(** ** Further requests to run the servers on *)

(** A token the server never issued: signed by hand with the default
    secret, for an identity no user has, and claiming to be an admin. *)
Definition forged_admin_token : Token :=
  @jwt_sign demo_platform 42 (Some "eve@x.com") (Some "Eve") true "dev_secret" 3600 5000.

Definition photo_png : File :=
  {| originalname := "me.png"; mimetype := "image/png"; buffer := "PNG" |}.

(** [n] bytes. *)
Fixpoint blob (n : nat) : string :=
  match n with
  | O => EmptyString
  | S k => String "a"%char (blob k)
  end.

(** Exactly the 50 MB of [uploadPDF], and exactly the 5 MB of
    [uploadImage]: the smallest files the two refuse. *)
Definition huge_pdf : File :=
  {| originalname := "huge.pdf"; mimetype := "application/pdf";
     buffer := blob (N.to_nat 52428800) |}.

Definition huge_png : File :=
  {| originalname := "huge.png"; mimetype := "image/png";
     buffer := blob (N.to_nat 5242880) |}.

Definition nice : CommentBody := {| cb_text := Some "nice" |}.

Definition headline : NewsBody :=
  {| nb_id := None; nb_title := Some "Open day"; nb_desc := None; nb_tag := None;
     nb_img := None; nb_createdAt := None |}.

Definition untitled_event : EventBody :=
  {| eb_id := None; eb_title := None; eb_desc := None; eb_type := None; eb_day := None;
     eb_month := None; eb_location := None; eb_createdAt := None |}.

(** A multipart body with no field at all. *)
Definition bare : PaperBody :=
  {| pb_title := None; pb_desc := None; pb_category := None; pb_author := None;
     pb_authorAvatar := None; pb_collaboration := None |}.

(** A registration no check of [Rich] would let through. *)
Definition sloppy : RegisterBody :=
  {| rb_name := Some "A"; rb_email := Some "not-an-email"; rb_password := Some "pw";
     rb_institution := None |}.

Definition basic_fields : Basic.Fields :=
  {| Basic.f_title := Some "Second"; Basic.f_desc := None; Basic.f_category := None;
     Basic.f_author := Some "Bob"; Basic.f_authorAvatar := None;
     Basic.f_collaboration := None |}.

(** The routes with a rate limiter in front. *)
Definition rate_limited (r : Rich.Request) : bool :=
  match r with
  | Rich.POST_register _ | Rich.POST_login _ | Rich.POST_papers _ _ _ => true
  | _ => false
  end.

(** The same request on a client the limiters let through. *)
Definition unlimited (env : Env) : Env :=
  {| now := now env; limited := false; salt := salt env; uuid := uuid env;
     faults := faults env |}.

(** A client past the limit of the window. *)
Definition throttled (t : Z) : Env :=
  {| now := t; limited := true; salt := "s"; uuid := "u"; faults := [] |}.

(** * Verification *)

(** ** Sorting *)

Section SortFacts.
Context {A : Type} (key : A -> Z).

Lemma insert_desc_perm (x : A) (l : list A) :
  Permutation (x :: l) (insert_desc key x l).
Proof.
  induction l as [|y ys IH]; simpl.
  - apply Permutation_refl.
  - destruct (key y <? key x)%Z.
    + apply Permutation_refl.
    + eapply perm_trans; [apply perm_swap|].
      apply perm_skip, IH.
Qed.

Lemma sort_desc_perm (l : list A) : Permutation l (sort_desc key l).
Proof.
  induction l as [|x xs IH]; simpl.
  - constructor.
  - eapply perm_trans; [apply perm_skip, IH|].
    apply insert_desc_perm.
Qed.

Lemma sort_desc_length (l : list A) : length (sort_desc key l) = length l.
Proof. symmetry. apply Permutation_length, sort_desc_perm. Qed.

Lemma insert_desc_descending (x : A) (l : list A) :
  descending key l -> descending key (insert_desc key x l).
Proof.
  unfold descending.
  induction l as [|y ys IH]; simpl; intros Hs.
  - repeat constructor.
  - inversion Hs as [|? ? Hys Hall]; subst.
    destruct (key y <? key x)%Z eqn:E.
    + apply Z.ltb_lt in E.
      constructor; [assumption|].
      constructor; [lia|].
      eapply Forall_impl; [|exact Hall]. simpl. intros; lia.
    + apply Z.ltb_ge in E.
      constructor; [apply IH, Hys|].
      eapply Permutation_Forall; [apply insert_desc_perm|].
      constructor; assumption.
Qed.

Lemma sort_desc_descending (l : list A) : descending key (sort_desc key l).
Proof.
  induction l as [|x xs IH]; simpl.
  - constructor.
  - apply insert_desc_descending, IH.
Qed.

End SortFacts.

(** ** Collections *)

Section CollectionFacts.
Context {A : Type} (id_of : A -> ObjectId).

Lemma find_by_id_some (i : ObjectId) (l : list A) (x : A) :
  find_by_id id_of i l = Some x -> In x l /\ id_of x = i.
Proof.
  unfold find_by_id. intros Hf.
  apply find_some in Hf. destruct Hf as [Hin Hid].
  apply Nat.eqb_eq in Hid. split; assumption.
Qed.

Lemma find_by_id_none (i : ObjectId) (l : list A) :
  find_by_id id_of i l = None -> forall x, In x l -> id_of x <> i.
Proof.
  unfold find_by_id. intros Hf x Hin Heq.
  pose proof (find_none _ _ Hf x Hin) as Hx. simpl in Hx.
  apply Nat.eqb_neq in Hx. contradiction.
Qed.

Lemma find_by_id_absent (i : ObjectId) (l : list A) :
  ~ In i (map id_of l) -> find_by_id id_of i l = None.
Proof.
  unfold find_by_id.
  induction l as [|x xs IH]; simpl; intros Hno; [reflexivity|].
  destruct (Nat.eqb_spec (id_of x) i) as [E|E].
  - exfalso. apply Hno. left. exact E.
  - apply IH. intros Hin. apply Hno. right. exact Hin.
Qed.

Lemma delete_by_id_subset (i : ObjectId) (l : list A) (x : A) :
  In x (delete_by_id id_of i l) -> In x l.
Proof.
  induction l as [|y ys IH]; simpl; [tauto|].
  destruct (Nat.eqb (id_of y) i); simpl; [tauto|].
  intros [E|Hin]; [left; exact E|right; apply IH, Hin].
Qed.

Lemma find_by_id_delete (i : ObjectId) (l : list A) :
  unique_ids id_of l -> find_by_id id_of i (delete_by_id id_of i l) = None.
Proof.
  unfold unique_ids.
  induction l as [|x xs IH]; simpl; intros Hu; [reflexivity|].
  inversion Hu as [|? ? Hx Hxs]; subst.
  destruct (Nat.eqb_spec (id_of x) i) as [E|E].
  - apply find_by_id_absent. rewrite <- E. exact Hx.
  - unfold find_by_id in *. simpl.
    destruct (Nat.eqb_spec (id_of x) i); [contradiction|].
    apply IH, Hxs.
Qed.

Lemma delete_by_id_absent (i : ObjectId) (l : list A) :
  find_by_id id_of i l = None -> delete_by_id id_of i l = l.
Proof.
  unfold find_by_id.
  induction l as [|x xs IH]; simpl; [reflexivity|].
  destruct (Nat.eqb (id_of x) i) eqn:E; simpl; [discriminate|].
  intros Hf. f_equal. apply IH, Hf.
Qed.

Lemma delete_by_id_keeps (i : ObjectId) (l : list A) (x : A) :
  In x l -> id_of x <> i -> In x (delete_by_id id_of i l).
Proof.
  induction l as [|y ys IH]; simpl; [tauto|].
  intros [E|Hin] Hne.
  - subst y. apply Nat.eqb_neq in Hne. rewrite Hne. left. reflexivity.
  - destruct (Nat.eqb (id_of y) i); [exact Hin|].
    right. apply IH; assumption.
Qed.

Lemma find_by_id_delete_other (i j : ObjectId) (l : list A) :
  find_by_id id_of i l = None ->
  find_by_id id_of i (delete_by_id id_of j l) = None.
Proof.
  intros Hf. apply find_by_id_absent. intros Hin.
  apply in_map_iff in Hin. destruct Hin as [x [Hid Hin]].
  apply delete_by_id_subset in Hin.
  exact (find_by_id_none i l Hf x Hin Hid).
Qed.

Lemma find_by_id_app_fresh (i : ObjectId) (l : list A) (x : A) :
  find_by_id id_of i l = None -> id_of x <> i ->
  find_by_id id_of i (l ++ [x]) = None.
Proof.
  unfold find_by_id.
  induction l as [|y ys IH]; simpl; intros Hf Hne.
  - apply Nat.eqb_neq in Hne. rewrite Hne. reflexivity.
  - destruct (Nat.eqb (id_of y) i); [discriminate|].
    apply IH; assumption.
Qed.

Lemma find_by_id_replace (i : ObjectId) (l : list A) (d : A) :
  find_by_id id_of i l = None ->
  find_by_id id_of i (replace_by_id id_of d l) = None.
Proof.
  unfold find_by_id.
  induction l as [|y ys IH]; simpl; intros Hf; [reflexivity|].
  destruct (Nat.eqb (id_of y) i) eqn:E; [discriminate|].
  destruct (Nat.eqb (id_of y) (id_of d)) eqn:E'; simpl.
  - apply Nat.eqb_eq in E'.
    assert (Hd : Nat.eqb (id_of d) i = false) by (rewrite <- E'; exact E).
    rewrite Hd. exact Hf.
  - rewrite E. apply IH, Hf.
Qed.

Lemma map_replace_by_id (d : A) (l : list A) :
  map id_of (replace_by_id id_of d l) = map id_of l.
Proof.
  induction l as [|x xs IH]; simpl; [reflexivity|].
  destruct (Nat.eqb_spec (id_of x) (id_of d)) as [E|E]; simpl.
  - rewrite E. reflexivity.
  - rewrite IH. reflexivity.
Qed.

Lemma unique_ids_delete (i : ObjectId) (l : list A) :
  unique_ids id_of l -> unique_ids id_of (delete_by_id id_of i l).
Proof.
  unfold unique_ids.
  induction l as [|x xs IH]; simpl; intros Hu; [constructor|].
  inversion Hu as [|? ? Hx Hxs]; subst.
  destruct (Nat.eqb (id_of x) i); [exact Hxs|].
  simpl. constructor; [|apply IH, Hxs].
  intros Hin. apply Hx.
  apply in_map_iff in Hin. destruct Hin as [y [Hy Hin]].
  apply in_map_iff. exists y. split; [exact Hy|].
  apply delete_by_id_subset in Hin. exact Hin.
Qed.

Lemma unique_ids_app_fresh (n : nat) (l : list A) (x : A) :
  (forall y, In y l -> (id_of y < n)%nat) -> id_of x = n ->
  unique_ids id_of l -> unique_ids id_of (l ++ [x]).
Proof.
  unfold unique_ids. intros Hlt Hx Hu.
  rewrite map_app. simpl.
  apply (Permutation_NoDup (l := id_of x :: map id_of l)).
  - apply Permutation_cons_append.
  - constructor; [|exact Hu].
    intros Hin. apply in_map_iff in Hin. destruct Hin as [y [Hy Hin]].
    specialize (Hlt y Hin). lia.
Qed.

Lemma ids_below_replace (n : nat) (d : A) (l : list A) :
  (forall y, In y l -> (id_of y < n)%nat) ->
  forall y, In y (replace_by_id id_of d l) -> (id_of y < n)%nat.
Proof.
  intros Hlt y Hin.
  assert (Hid : In (id_of y) (map id_of l)).
  { rewrite <- (map_replace_by_id d l). apply in_map, Hin. }
  apply in_map_iff in Hid. destruct Hid as [z [Hz Hzin]].
  rewrite <- Hz. apply Hlt, Hzin.
Qed.

End CollectionFacts.

(** ** External calls that do not fail *)

Section EffFacts.
Context {W : Type}.

Lemma io_healthy (w : W) (fs : Faults) :
  Forall (fun f => f = None) fs -> io w fs = (Return tt, w, tl fs).
Proof.
  intros Hh. unfold io.
  destruct fs as [|[e|] fs']; simpl; try reflexivity.
  inversion Hh; discriminate.
Qed.

Lemma healthy_tl (fs : Faults) :
  Forall (fun f => f = None) fs -> Forall (fun f => f = None) (tl fs).
Proof.
  intros Hh. destruct fs as [|f fs']; simpl; [constructor|].
  inversion Hh; assumption.
Qed.

End EffFacts.

(** ** Tokens *)

Section TokenFacts.
Context `{Platform}.

Lemma jwt_verify_sign (id : ObjectId) (email name : option string) (isAdmin : bool)
    (secret : string) (life issued clock : Z) :
  (clock / 1000 < issued / 1000 + life)%Z ->
  jwt_verify (Some (jwt_sign id email name isAdmin secret life issued)) secret clock =
  Some (t_claims (jwt_sign id email name isAdmin secret life issued)).
Proof.
  intros Hfresh. unfold jwt_verify, jwt_sign. simpl.
  rewrite String.eqb_refl.
  destruct (Z.leb_spec (issued / 1000 + life) (clock / 1000)); [lia|reflexivity].
Qed.

(** C7 (as amended).  [generateToken] is a function of the user's id,
    email, name and admin flag and of the clock reading alone, the same in
    [Rich] and [Mid]; it is no computation on the state.  Two calls on the
    same user return the same token exactly when they are made in the same
    clock second: every token carries its issue second.  The expiry instant
    lies 30 days (2 592 000 seconds) after the issue instant. *)
Theorem generateToken_deterministic :
  forall (user : User) (clock1 clock2 : Z),
    (generateToken clock1 user = generateToken clock2 user <->
     (clock1 / 1000 = clock2 / 1000)%Z) /\
    (forall user' : User,
        u_id user' = u_id user -> u_email user' = u_email user ->
        u_name user' = u_name user -> u_isAdmin user' = u_isAdmin user ->
        generateToken clock1 user' = generateToken clock1 user) /\
    (c_exp (t_claims (generateToken clock1 user)) =
     c_iat (t_claims (generateToken clock1 user)) + 2592000)%Z.
Proof.
  intros user clock1 clock2.
  split; [split|split].
  - intros E. apply (f_equal (fun t => c_iat (t_claims t))) in E. exact E.
  - intros E. unfold generateToken, jwt_sign. rewrite E. reflexivity.
  - intros user' Hi He Hn Ha. unfold generateToken. rewrite Hi, He, Hn, Ha. reflexivity.
  - unfold generateToken, jwt_sign, thirty_days. simpl. lia.
Qed.

End TokenFacts.

(** ** Rejections that touch nothing *)

Ltac unfold_eff :=
  unfold bind, try_catch, ret, throw, io, get_world, put_world, modify in *.

Section RejectionFacts.
Context `{Platform}.

(** C2 (as amended).  In [Rich], a paper upload whose attachment is not
    declared [application/pdf] is refused with 400, 401 or 429, and the
    state after the request is the state before it: nothing was sent to
    Cloudinary and no Paper was saved.  An authenticated caller within the
    rate limit gets the filter's own message. *)
Theorem rich_rejects_non_pdf :
  forall (env : Env) (w : World) (auth : Authorization) (f : File) (b : PaperBody),
    mimetype f <> "application/pdf" ->
    let out := Rich.handle env (Rich.POST_papers auth (Some f) b) w in
    snd out = w /\
    In (status (fst out)) [400; 401; 429] /\
    (forall wire claims,
        auth = Bearer wire ->
        jwt_verify wire JWT_SECRET (now env) = Some claims ->
        limited env = false ->
        fst out = res 400 (Message "Only PDF files are allowed")).
Proof.
  intros env w auth f b Hmime.
  apply String.eqb_neq in Hmime.
  unfold Rich.handle, Rich.serve, Rich.route, Rich.postPaper, authMiddleware,
    Rich.uploadLimiter, Rich.rateLimit, Rich.uploadPDF, multer_single,
    Rich.uploadPDF_fileFilter.
  rewrite Hmime. unfold_eff.
  destruct auth as [|wire]; simpl.
  - split; [reflexivity|]. split; [tauto|]. intros; discriminate.
  - destruct (jwt_verify wire JWT_SECRET (now env)) as [claims|] eqn:Hv; simpl.
    + destruct (limited env) eqn:Hl; simpl.
      * split; [reflexivity|]. split; [tauto|]. intros; discriminate.
      * split; [reflexivity|]. split; [tauto|]. intros; reflexivity.
    + split; [reflexivity|]. split; [tauto|]. intros ? ? Hw Hv' _.
      inversion Hw; subst. rewrite Hv in Hv'. discriminate.
Qed.

(** C3.  In the servers with accounts ([Rich] and [Mid]), a DELETE on an
    existing paper by an authenticated identity whose name is not the
    paper's author and who is not an admin leaves the whole state (the Paper
    record and the media store) as it was, and is answered 403 Forbidden as
    soon as the lookup of the paper succeeds. *)
Theorem delete_by_stranger_forbidden :
  forall (env : Env) (w : World) (wire : option Token) (user : Claims)
         (id : ObjectId) (paper : Paper),
    jwt_verify wire JWT_SECRET (now env) = Some user ->
    find_by_id p_id id (papers w) = Some paper ->
    same_name (c_name user) (p_author paper) = false ->
    c_isAdmin user = false ->
    let rich := Rich.handle env (Rich.DELETE_paper (Bearer wire) (IdOf id)) w in
    let mid := Mid.serve (Mid.deletePaper env (Bearer wire) (IdOf id)) env w in
    (snd rich = w /\ (healthy env -> fst rich = res 403 (Message "Forbidden"))) /\
    (snd mid = w /\ (healthy env -> fst mid = res 403 (Message "Forbidden"))).
Proof.
  intros env w wire user id paper Hv Hfind Hname Hadmin.
  unfold Rich.handle, Rich.serve, Rich.route, Rich.deletePaper, Mid.serve,
    Mid.deletePaper, authMiddleware, Paper_findById, castObjectId.
  rewrite Hv.
  unfold bind, try_catch, ret, get_world.
  unfold healthy.
  destruct (faults env) as [|[e|] fs]; simpl;
    rewrite ?Hfind, ?Hname, ?Hadmin; simpl.
  - split; (split; [reflexivity|]); intros _; reflexivity.
  - split; (split; [reflexivity|]); intros Hh; inversion Hh; discriminate.
  - split; (split; [reflexivity|]); intros _; reflexivity.
Qed.

(** C6 (as amended).  In [Rich] and [Mid], a comment posted under an
    [:id] that names no stored paper never changes the state, whoever sends
    it and whatever fails.  An authenticated request with a non-empty text
    is answered 404 Not found when the id is an ObjectId and the lookup
    does not fail, and 500 Server error when the id is no ObjectId:
    mongoose rejects the query before it reaches the database. *)
Theorem comment_on_missing_paper :
  forall (env : Env) (w : World) (auth : Authorization) (id : IdParam)
         (b : CommentBody),
    no_paper_under id w ->
    let rich := Rich.handle env (Rich.POST_comments auth id b) w in
    let mid := Mid.serve (Mid.postComment env auth id b) env w in
    snd rich = w /\ snd mid = w /\
    (forall wire user text,
        auth = Bearer wire ->
        jwt_verify wire JWT_SECRET (now env) = Some user ->
        cb_text b = Some text -> text <> "" ->
        (forall i, id = IdOf i -> healthy env ->
                   fst rich = res 404 (Message "Not found") /\
                   fst mid = res 404 (Message "Not found")) /\
        (forall raw, id = NotAnId raw ->
                     fst rich = res 500 (Message "Server error") /\
                     fst mid = res 500 (Message "Server error"))).
Proof.
  intros env w auth id b Hfind.
  unfold Rich.handle, Rich.serve, Rich.route, Rich.postComment, Mid.serve,
    Mid.postComment, authMiddleware, Paper_findById, castObjectId, check, isLength,
    isEmpty, healthy.
  unfold bind, try_catch, ret, throw, get_world.
  destruct auth as [|wire]; simpl.
  - repeat (split; [reflexivity|]). intros; discriminate.
  - destruct (jwt_verify wire JWT_SECRET (now env)) as [user|] eqn:Hv; simpl.
    2:{ repeat (split; [reflexivity|]). intros ? ? ? Hw Hv'.
        inversion Hw; subst. rewrite Hv in Hv'. discriminate. }
    destruct (cb_text b) as [text|] eqn:Ht; simpl.
    2:{ repeat (split; [reflexivity|]). intros; discriminate. }
    destruct text as [|c text]; simpl.
    { repeat (split; [reflexivity|]). intros ? ? ? _ _ Heq Hne.
      inversion Heq; subst. contradiction. }
    destruct id as [i|raw]; simpl in Hfind |- *.
    + destruct (faults env) as [|[e|] fs]; simpl; rewrite ?Hfind; simpl.
      * repeat (split; [reflexivity|]). intros.
        split; [intros; split; reflexivity|intros; discriminate].
      * repeat (split; [reflexivity|]). intros.
        split; [intros ? _ Hh; inversion Hh; discriminate|intros; discriminate].
      * repeat (split; [reflexivity|]). intros.
        split; [intros; split; reflexivity|intros; discriminate].
    + repeat (split; [reflexivity|]). intros.
      split; [intros; discriminate|intros; split; reflexivity].
Qed.

End RejectionFacts.

(** ** Accounts *)

Section AccountFacts.
Context `{Platform}.

Lemma opt_eqb_eq (a b : option string) : opt_eqb a b = true <-> a = b.
Proof.
  destruct a as [x|], b as [y|]; simpl; split; intros E;
    try discriminate; try reflexivity.
  - apply String.eqb_eq in E. subst. reflexivity.
  - inversion E. apply String.eqb_refl.
Qed.

Lemma opt_eqb_refl (a : option string) : opt_eqb a a = true.
Proof. apply opt_eqb_eq. reflexivity. Qed.

Lemma find_email_none (email : option string) (l : list User) :
  (forall u, In u l -> u_email u <> email) ->
  find (fun u => opt_eqb (u_email u) email) l = None.
Proof.
  induction l as [|x xs IH]; simpl; intros Hno; [reflexivity|].
  destruct (opt_eqb (u_email x) email) eqn:E.
  - apply opt_eqb_eq in E. exfalso. apply (Hno x); [left; reflexivity|exact E].
  - apply IH. intros u Hin. apply Hno. right. exact Hin.
Qed.

Lemma find_email_last (email : option string) (l : list User) (u : User) :
  (forall x, In x l -> u_email x <> email) ->
  u_email u = email ->
  find (fun x => opt_eqb (u_email x) email) (l ++ [u]) = Some u.
Proof.
  induction l as [|x xs IH]; simpl; intros Hno Hu.
  - rewrite Hu, opt_eqb_refl. reflexivity.
  - destruct (opt_eqb (u_email x) email) eqn:E.
    + apply opt_eqb_eq in E. exfalso. apply (Hno x); [left; reflexivity|exact E].
    + apply IH; [|exact Hu]. intros y Hin. apply Hno. right. exact Hin.
Qed.

Lemma existsb_email_none (email : option string) (l : list User) :
  (forall u, In u l -> u_email u <> email) ->
  existsb (fun u => opt_eqb (u_email u) email) l = false.
Proof.
  induction l as [|x xs IH]; simpl; intros Hno; [reflexivity|].
  rewrite IH by (intros u Hin; apply Hno; right; exact Hin).
  destruct (opt_eqb (u_email x) email) eqn:E; [|reflexivity].
  apply opt_eqb_eq in E. exfalso. apply (Hno x); [left; reflexivity|exact E].
Qed.

Lemma existsb_id_fresh {A} (id_of : A -> ObjectId) (n : nat) (l : list A) :
  (forall x, In x l -> (id_of x < n)%nat) ->
  existsb (fun x => Nat.eqb (id_of x) n) l = false.
Proof.
  induction l as [|x xs IH]; simpl; intros Hlt; [reflexivity|].
  rewrite IH by (intros y Hin; apply Hlt; right; exact Hin).
  assert (Hx : (id_of x < n)%nat) by (apply Hlt; left; reflexivity).
  destruct (Nat.eqb_spec (id_of x) n); [lia|reflexivity].
Qed.

Lemma User_findOne_healthy (email : option string) (w : World) (fs : Faults) :
  Forall (fun f => f = None) fs ->
  User_findOne email w fs =
  (Return (find (fun u => opt_eqb (u_email u) email) (users w)), w, tl fs).
Proof.
  intros Hh. unfold User_findOne, bind.
  rewrite (io_healthy w fs Hh). reflexivity.
Qed.

Lemma User_insert_healthy (u : User) (w : World) (fs : Faults) :
  Forall (fun f => f = None) fs ->
  existsb (fun x => Nat.eqb (u_id x) (u_id u)) (users w) = false ->
  email_taken (u_email u) (users w) = false ->
  User_insert u w fs = (Return tt, set_users w (users w ++ [u]), tl fs).
Proof.
  intros Hh Hid Hmail. unfold User_insert, bind.
  rewrite (io_healthy w fs Hh). unfold get_world.
  rewrite Hid, Hmail. reflexivity.
Qed.

(** C1.  In [Rich], registering a name of at least two characters, an
    address [isEmail] accepts and that no stored user has, and a password of
    at least six characters succeeds and stores a user with these fields and
    [isAdmin = false]; logging in with the same address and password then
    succeeds, and [authMiddleware], given the login's token before it
    expires, passes on the stored user's id, email, name and admin flag.
    Both requests are within the rate limit and meet no failing database
    call; ObjectIds already in the collection were drawn from the
    generator. *)
Theorem register_login_verify :
  forall (w : World) (env1 env2 env3 : Env) (name email password : string)
         (institution : option string),
    (2 <= String.length name)%nat ->
    isEmail email = true ->
    (6 <= String.length password)%nat ->
    (forall u, In u (users w) -> u_email u <> Some email) ->
    (forall u, In u (users w) -> (u_id u < oid w)%nat) ->
    limited env1 = false -> healthy env1 ->
    limited env2 = false -> healthy env2 ->
    (now env3 / 1000 < now env2 / 1000 + thirty_days)%Z ->
    let b := {| rb_name := Some name; rb_email := Some email;
                rb_password := Some password; rb_institution := institution |} in
    let c := {| lb_email := Some email; lb_password := Some password |} in
    let registered := Rich.handle env1 (Rich.POST_register b) w in
    let logged := Rich.handle env2 (Rich.POST_login c) (snd registered) in
    exists (user : User) (t1 t2 : Token),
      fst registered = json (Session (public user) t1) /\
      users (snd registered) = users w ++ [user] /\
      u_name user = Some name /\ u_email user = Some email /\
      u_isAdmin user = false /\
      fst logged = json (Session (public user) t2) /\
      (forall next,
          authMiddleware env3 (Bearer (Some t2)) next = next (t_claims t2)) /\
      c_id (t_claims t2) = u_id user /\
      c_email (t_claims t2) = u_email user /\
      c_name (t_claims t2) = u_name user /\
      c_isAdmin (t_claims t2) = u_isAdmin user.
Proof.
  intros w env1 env2 env3 name email password institution
    Hname Hmail Hpass Hnew Hids Hl1 Hh1 Hl2 Hh2 Hlive b c.
  unfold healthy in Hh1, Hh2.
  assert (Hreg : Rich.handle env1 (Rich.POST_register b) w =
                 (json (Session
                    (public {| u_id := oid w; u_name := Some name; u_email := Some email;
                               u_passwordHash := Some {| bh_salt := salt env1;
                                 bh_digest := bcrypt_kdf (salt env1) password |};
                               u_institution := or_empty institution;
                               u_avatar := ("https://ui-avatars.com/api/?name=" ++
                                 encodeURIComponent name ++
                                 "&background=76935C&color=fff")%string;
                               u_isAdmin := false; u_bio := None;
                               u_createdAt := now env1 |})
                    (generateToken (now env1)
                       {| u_id := oid w; u_name := Some name; u_email := Some email;
                          u_passwordHash := Some {| bh_salt := salt env1;
                            bh_digest := bcrypt_kdf (salt env1) password |};
                          u_institution := or_empty institution;
                          u_avatar := ("https://ui-avatars.com/api/?name=" ++
                            encodeURIComponent name ++
                            "&background=76935C&color=fff")%string;
                          u_isAdmin := false; u_bio := None;
                          u_createdAt := now env1 |})),
                  set_users (set_oid w (S (oid w)))
                    (users w ++
                     [{| u_id := oid w; u_name := Some name; u_email := Some email;
                         u_passwordHash := Some {| bh_salt := salt env1;
                           bh_digest := bcrypt_kdf (salt env1) password |};
                         u_institution := or_empty institution;
                         u_avatar := ("https://ui-avatars.com/api/?name=" ++
                           encodeURIComponent name ++
                           "&background=76935C&color=fff")%string;
                         u_isAdmin := false; u_bio := None;
                         u_createdAt := now env1 |}]))).
  { unfold Rich.handle, Rich.serve, Rich.route, Rich.register, Rich.authLimiter,
      Rich.rateLimit, check, isLength, b.
    rewrite Hl1. cbn [rb_name rb_email rb_password rb_institution or_empty].
    apply Nat.leb_le in Hname, Hpass. rewrite Hmail, Hname, Hpass. simpl.
    unfold try_catch, bind.
    rewrite (User_findOne_healthy _ _ _ Hh1).
    rewrite (find_email_none _ _ Hnew).
    unfold bcrypt_hash, new_User, new_ObjectId, ret, bind.
    rewrite User_insert_healthy; simpl.
    - reflexivity.
    - apply healthy_tl, Hh1.
    - apply existsb_id_fresh, Hids.
    - apply existsb_email_none, Hnew. }
  subst b. fold c in Hreg.
  set (user := {| u_id := oid w; u_name := Some name; u_email := Some email;
                  u_passwordHash := Some {| bh_salt := salt env1;
                    bh_digest := bcrypt_kdf (salt env1) password |};
                  u_institution := or_empty institution;
                  u_avatar := ("https://ui-avatars.com/api/?name=" ++
                    encodeURIComponent name ++
                    "&background=76935C&color=fff")%string;
                  u_isAdmin := false; u_bio := None;
                  u_createdAt := now env1 |}) in *.
  exists user, (generateToken (now env1) user), (generateToken (now env2) user).
  cbv zeta. rewrite Hreg. cbn [fst snd].
  split; [reflexivity|]. split; [reflexivity|].
  split; [reflexivity|]. split; [reflexivity|]. split; [reflexivity|].
  split.
  - unfold Rich.handle, Rich.serve, Rich.route, Rich.login, Rich.authLimiter,
      Rich.rateLimit, check, exists_, c.
    rewrite Hl2. simpl. rewrite Hmail. simpl.
    unfold try_catch, bind.
    rewrite (User_findOne_healthy _ _ _ Hh2). simpl.
    rewrite (find_email_last (Some email) (users w) user Hnew eq_refl).
    simpl. rewrite String.eqb_refl. reflexivity.
  - split; [|repeat split].
    intros next. unfold authMiddleware, generateToken.
    rewrite jwt_verify_sign by exact Hlive. reflexivity.
Qed.

End AccountFacts.

(** ** One step of [Rich] *)

Ltac reduce_world :=
  cbn beta iota zeta delta
    [fst snd users papers news events cloud oid
     set_users set_papers set_news set_events set_cloud set_oid].

Ltac run_handler :=
  repeat (reduce_world;
          match goal with
          | |- context [match ?x with _ => _ end] =>
              lazymatch x with
              | context [match _ with _ => _ end] => fail
              | _ => destruct x eqn:?
              end
          end);
  reduce_world.

Section StepFacts.
Context `{Platform}.

Lemma handle_grow (env : Env) (r : Rich.Request) (w : World) :
  users_grow w (snd (Rich.handle env r w)) /\
  papers_grow w (snd (Rich.handle env r w)).
Proof.
  unfold users_grow, papers_grow.
  destruct r;
    unfold Rich.handle, Rich.serve, Rich.route,
      Rich.register, Rich.login, Rich.getPapers, Rich.postPaper, Rich.deletePaper,
      Rich.postComment, Rich.postAvatar, Rich.getNews, Rich.postNews,
      Rich.deleteNews, Rich.getEvents, Rich.postEvent, Rich.deleteEvent,
      Rich.authLimiter, Rich.uploadLimiter, Rich.rateLimit, authMiddleware,
      Rich.uploadPDF, Rich.uploadImage, multer_single,
      Rich.uploadBufferToCloudinary, cloudinary_upload, cloudinary_destroy,
      Rich.News_insert, Rich.Event_insert, Rich.id_or_new,
      User_findOne, User_findById, User_insert, User_update, new_User, new_ObjectId,
      Paper_find_sorted, Paper_findById, castObjectId, Paper_insert, Paper_update, Paper_remove,
      bcrypt_hash, bcrypt_compare,
      bind, try_catch, ret, throw, io, get_world, put_world, modify.
  all: run_handler.
  all: split;
    [ first
        [ left; reflexivity
        | right; left; eexists; split; [reflexivity|];
          split; [reflexivity|];
          split; [cbn [u_email]; assumption|];
          split; [reflexivity|cbn [oid]; lia]
        | right; right;
          match goal with
          | Hf : find_by_id u_id _ (users _) = Some ?old
            |- context [replace_by_id u_id ?new _ = _] =>
              destruct (find_by_id_some u_id _ _ _ Hf) as [_ Hid];
              exists old, new; cbn [u_id u_email u_isAdmin];
              rewrite Hid;
              split; [exact Hf|];
              split; [reflexivity|];
              split; reflexivity
          end ]
    | split;
      [ cbn [oid]; lia
      | first
          [ left; reflexivity
          | right; left; eexists; split; [reflexivity|];
            split; [reflexivity|cbn [oid]; lia]
          | right; right; left; eexists; reflexivity
          | right; right; right;
            match goal with
            | Hf : find_by_id p_id _ (papers _) = Some ?old
              |- context [replace_by_id p_id ?new _ = _] =>
                destruct (find_by_id_some p_id _ _ _ Hf) as [_ Hid];
                exists old, new; cbn [p_id];
                rewrite Hid;
                split; [exact Hf|reflexivity]
            end ] ] ].
Qed.

Lemma no_admin_step (env : Env) (r : Rich.Request) (w : World) :
  no_admin (users w) -> no_admin (users (snd (Rich.handle env r w))).
Proof.
  intros Hinv.
  destruct (handle_grow env r w)
    as [[Hsame|[[u [Hnew [Hu _]]]|[old [u [Hf [Hrep [_ Hadm]]]]]]] _].
  - rewrite Hsame. exact Hinv.
  - rewrite Hnew. intros x Hin. apply in_app_or in Hin.
    destruct Hin as [Hin|[Hx|[]]]; [apply Hinv, Hin|subst x; exact Hu].
  - rewrite Hrep. intros x Hin.
    destruct (find_by_id_some u_id _ _ _ Hf) as [Hold _].
    assert (Hu : u_isAdmin u = false) by (rewrite Hadm; apply Hinv, Hold).
    clear Hf Hrep Hold Hadm.
    induction (users w) as [|y ys IH]; simpl in Hin; [contradiction|].
    destruct (Nat.eqb (u_id y) (u_id u)).
    + destruct Hin as [Hx|Hin]; [subst x; exact Hu|].
      apply Hinv. right. exact Hin.
    + destruct Hin as [Hx|Hin]; [subst x; apply Hinv; left; reflexivity|].
      apply IH; [|exact Hin]. intros z Hz. apply Hinv. right. exact Hz.
Qed.

Lemma reachable_no_admin (w : World) : Rich.reachable w -> no_admin (users w).
Proof.
  induction 1 as [|w env r Hr IH].
  - intros u [].
  - apply no_admin_step, IH.
Qed.

Lemma emails_app (l l' : list User) : emails (l ++ l') = emails l ++ emails l'.
Proof. unfold emails. apply flat_map_app. Qed.

Lemma emails_none (e : string) (l : list User) :
  find (fun x => opt_eqb (u_email x) (Some e)) l = None -> ~ In e (emails l).
Proof.
  intros Hf Hin. unfold emails in Hin.
  apply in_flat_map in Hin. destruct Hin as [x [Hx He]].
  pose proof (find_none _ _ Hf x Hx) as Hne. simpl in Hne.
  destruct (u_email x) as [e'|]; simpl in He; [|contradiction].
  destruct He as [He|[]]. subst e'.
  simpl in Hne. rewrite String.eqb_refl in Hne. discriminate.
Qed.

Lemma emails_replace (old u : User) (l : list User) :
  find_by_id u_id (u_id u) l = Some old -> u_email u = u_email old ->
  emails (replace_by_id u_id u l) = emails l.
Proof.
  unfold find_by_id.
  induction l as [|y ys IH]; simpl; intros Hf He; [reflexivity|].
  destruct (Nat.eqb (u_id y) (u_id u)).
  - inversion Hf; subst y. unfold emails. simpl. rewrite He. reflexivity.
  - unfold emails in *. simpl. rewrite IH by assumption. reflexivity.
Qed.

Lemma unique_emails_step (env : Env) (r : Rich.Request) (w : World) :
  unique_emails (users w) -> unique_emails (users (snd (Rich.handle env r w))).
Proof.
  unfold unique_emails. intros Hinv.
  destruct (handle_grow env r w)
    as [[Hsame|[[u [Hnew [_ [Hf _]]]]|[old [u [Hf [Hrep [He _]]]]]]] _].
  - rewrite Hsame. exact Hinv.
  - rewrite Hnew, emails_app.
    unfold emails at 2. simpl.
    destruct (u_email u) as [e|] eqn:Hu; simpl.
    + apply (Permutation_NoDup (l := e :: emails (users w))).
      * apply Permutation_cons_append.
      * constructor; [|exact Hinv].
        apply emails_none, Hf.
    + rewrite app_nil_r. exact Hinv.
  - rewrite Hrep, (emails_replace old u) by assumption. exact Hinv.
Qed.

Lemma reachable_unique_emails (w : World) :
  Rich.reachable w -> unique_emails (users w).
Proof.
  induction 1 as [|w env r Hr IH].
  - constructor.
  - apply unique_emails_step, IH.
Qed.

Lemma ids_issued_step (env : Env) (r : Rich.Request) (w : World) :
  ids_issued w -> ids_issued (snd (Rich.handle env r w)).
Proof.
  intros [Hu [Hp [Hnu Hnp]]].
  destruct (handle_grow env r w) as [Husers [Hoid Hpapers]].
  set (w' := snd (Rich.handle env r w)) in *.
  assert (Husers' : (forall u, In u (users w') -> (u_id u < oid w')%nat) /\
                    unique_ids u_id (users w')).
  { destruct Husers as [Hsame|[[u [Hnew [_ [_ [Hid Hlt]]]]]|[old [u [_ [Hrep _]]]]]].
    - rewrite Hsame. split; [|exact Hnu].
      intros u Hin. specialize (Hu u Hin). lia.
    - rewrite Hnew. split.
      + intros x Hin. apply in_app_or in Hin.
        destruct Hin as [Hin|[Hx|[]]]; [specialize (Hu x Hin); lia|subst x; lia].
      + apply (unique_ids_app_fresh u_id (oid w)); assumption.
    - rewrite Hrep. split.
      + intros x Hin.
        pose proof (ids_below_replace u_id (oid w) u (users w) Hu x Hin). lia.
      + unfold unique_ids. rewrite map_replace_by_id. exact Hnu. }
  assert (Hpapers' : (forall p, In p (papers w') -> (p_id p < oid w')%nat) /\
                     unique_ids p_id (papers w')).
  { destruct Hpapers as [Hsame|[[p [Hnew [Hid Hlt]]]|[[i Hdel]|[old [p [_ Hrep]]]]]].
    - rewrite Hsame. split; [|exact Hnp].
      intros p Hin. specialize (Hp p Hin). lia.
    - rewrite Hnew. split.
      + intros x Hin. apply in_app_or in Hin.
        destruct Hin as [Hin|[Hx|[]]]; [specialize (Hp x Hin); lia|subst x; lia].
      + apply (unique_ids_app_fresh p_id (oid w)); assumption.
    - rewrite Hdel. split.
      + intros x Hin. apply delete_by_id_subset in Hin. specialize (Hp x Hin). lia.
      + apply unique_ids_delete, Hnp.
    - rewrite Hrep. split.
      + intros x Hin.
        pose proof (ids_below_replace p_id (oid w) p (papers w) Hp x Hin). lia.
      + unfold unique_ids. rewrite map_replace_by_id. exact Hnp. }
  destruct Husers' as [Hu' Hnu']. destruct Hpapers' as [Hp' Hnp'].
  repeat split; assumption.
Qed.

(** What the theorems on registration and deletion assume of the ids in a
    state holds in every state the server reaches. *)
Lemma reachable_ids_issued (w : World) : Rich.reachable w -> ids_issued w.
Proof.
  induction 1 as [|w env r Hr IH].
  - repeat split; try constructor; intros x [].
  - apply ids_issued_step, IH.
Qed.

End StepFacts.

(** ** Invariants of the user collection *)

Ltac unfold_rich :=
  unfold Rich.handle, Rich.serve, Rich.route,
    Rich.register, Rich.login, Rich.getPapers, Rich.postPaper, Rich.deletePaper,
    Rich.postComment, Rich.postAvatar, Rich.getNews, Rich.postNews,
    Rich.deleteNews, Rich.getEvents, Rich.postEvent, Rich.deleteEvent,
    Rich.authLimiter, Rich.uploadLimiter, Rich.rateLimit, authMiddleware,
    Rich.uploadPDF, Rich.uploadImage, multer_single,
    Rich.uploadBufferToCloudinary, cloudinary_upload, cloudinary_destroy,
    Rich.News_insert, Rich.Event_insert, Rich.id_or_new,
    User_findOne, User_findById, User_insert, User_update, new_User, new_ObjectId,
    Paper_find_sorted, Paper_findById, castObjectId, Paper_insert, Paper_update, Paper_remove,
    bcrypt_hash, bcrypt_compare,
    bind, try_catch, ret, throw, io, get_world, put_world, modify.

Section UserInvariants.
Context `{Platform}.

Lemma find_email_some (email : option string) (l : list User) (u : User) :
  In u l -> u_email u = email ->
  exists x, find (fun x => opt_eqb (u_email x) email) l = Some x.
Proof.
  intros Hin He.
  destruct (find (fun x => opt_eqb (u_email x) email) l) as [x|] eqn:Hf.
  - exists x. reflexivity.
  - pose proof (find_none _ _ Hf u Hin) as Hne. simpl in Hne.
    rewrite He, opt_eqb_refl in Hne. discriminate.
Qed.

Lemma register_taken (env : Env) (b : RegisterBody) (w : World) (u : User) :
  In u (users w) -> u_email u = rb_email b ->
  let out := Rich.handle env (Rich.POST_register b) w in
  snd out = w /\ (limited env = false -> healthy env -> status (fst out) = 400).
Proof.
  intros Hin He.
  destruct (find_email_some (rb_email b) (users w) u Hin He) as [x Hx].
  unfold Rich.handle, Rich.serve, Rich.route, Rich.register, Rich.authLimiter,
    Rich.rateLimit, User_findOne, healthy.
  unfold bind, try_catch, ret, get_world, io.
  destruct (limited env); simpl.
  { split; [reflexivity|]. intros; discriminate. }
  destruct (negb _); simpl.
  { split; [reflexivity|]. intros; reflexivity. }
  destruct (faults env) as [|[e|] fs]; simpl; rewrite ?Hx; simpl.
  - split; [reflexivity|]. intros; reflexivity.
  - split; [reflexivity|]. intros _ Hh. inversion Hh; discriminate.
  - split; [reflexivity|]. intros; reflexivity.
Qed.

Lemma emails_not_taken (e : string) (l : list User) :
  email_taken (Some e) l = false -> ~ In e (emails l).
Proof.
  unfold email_taken. intros Hno. apply emails_none.
  induction l as [|x xs IH]; simpl in *; [reflexivity|].
  apply Bool.orb_false_iff in Hno. destruct Hno as [Hx Hxs].
  rewrite Hx. apply IH, Hxs.
Qed.

(** The unique index alone keeps emails distinct, whatever document is
    saved. *)
Lemma User_insert_unique (u : User) (w : World) (fs : Faults) :
  unique_emails (users w) ->
  unique_emails (users (snd (fst (User_insert u w fs)))).
Proof.
  unfold unique_emails, User_insert, bind, io, get_world, put_world, throw.
  intros Hinv.
  destruct fs as [|[e|] fs']; cbn [fst snd]; try exact Hinv.
  all: destruct (existsb _ (users w)); cbn [fst snd]; try exact Hinv.
  all: destruct (email_taken (u_email u) (users w)) eqn:Ht; cbn [fst snd users set_users];
    try exact Hinv.
  all: rewrite emails_app; unfold emails at 2; simpl;
    destruct (u_email u) as [e|]; simpl; rewrite ?app_nil_r; try exact Hinv.
  all: apply (Permutation_NoDup (l := e :: emails (users w)));
    [apply Permutation_cons_append|constructor; [apply emails_not_taken, Ht|exact Hinv]].
Qed.

(** C8.  In [Rich], no request makes two stored users share an email: the
    property is kept by every request from any state, hence holds in every
    state reached from an empty database, and the collection's unique index
    keeps it for any document saved.  A registration whose email a stored
    user already has leaves the state as it was, and is answered 400 when
    it is within the rate limit and the lookup does not fail. *)
Theorem email_uniqueness_invariant :
  (forall (env : Env) (r : Rich.Request) (w : World),
      unique_emails (users w) ->
      unique_emails (users (snd (Rich.handle env r w)))) /\
  (forall w : World, Rich.reachable w -> unique_emails (users w)) /\
  (forall (u : User) (w : World) (fs : Faults),
      unique_emails (users w) ->
      unique_emails (users (snd (fst (User_insert u w fs))))) /\
  (forall (env : Env) (b : RegisterBody) (w : World) (u : User) (e : string),
      In u (users w) -> u_email u = Some e -> rb_email b = Some e ->
      let out := Rich.handle env (Rich.POST_register b) w in
      snd out = w /\
      (limited env = false -> healthy env -> status (fst out) = 400)).
Proof.
  split; [exact unique_emails_step|].
  split; [exact reachable_unique_emails|].
  split; [exact User_insert_unique|].
  intros env b w u e Hin Hu Hb.
  apply (register_taken env b w u Hin). congruence.
Qed.

Lemma session_not_admin (env : Env) (r : Rich.Request) (w : World)
    (u : PublicUser) (t : Token) :
  no_admin (users w) ->
  body (fst (Rich.handle env r w)) = Session u t ->
  c_isAdmin (t_claims t) = false.
Proof.
  intros Hinv.
  destruct r; unfold_rich; run_handler;
    cbn [body res json]; intros Hb; try discriminate;
    unfold Rich.errorHandler in Hb;
    try (destruct (_ && _) in Hb; discriminate).
  all: inversion Hb; subst; cbn [generateToken jwt_sign t_claims c_isAdmin u_isAdmin];
    first
      [ reflexivity
      | match goal with
        | Hf : find _ (users _) = Some ?x |- _ =>
            apply find_some in Hf; destruct Hf as [Hin _]; exact (Hinv x Hin)
        end ].
Qed.

Lemma issued_not_admin (t : Token) : issued t -> c_isAdmin (t_claims t) = false.
Proof.
  intros [w [env [r [u [Hr Hb]]]]].
  apply (session_not_admin env r w u t); [|exact Hb].
  apply reachable_no_admin, Hr.
Qed.

Lemma admin_gate_closed (env : Env) (w : World) (t : Token) (id : IdParam) :
  c_isAdmin (t_claims t) = false ->
  let gone_news := Rich.handle env (Rich.DELETE_news (Bearer (Some t)) id) w in
  let gone_event := Rich.handle env (Rich.DELETE_event (Bearer (Some t)) id) w in
  (snd gone_news = w /\ In (status (fst gone_news)) [401; 403]) /\
  (snd gone_event = w /\ In (status (fst gone_event)) [401; 403]).
Proof.
  intros Hadm.
  unfold Rich.handle, Rich.serve, Rich.route, Rich.deleteNews, Rich.deleteEvent,
    authMiddleware, jwt_verify.
  unfold bind, try_catch, ret.
  destruct (String.eqb _ _); [|simpl; tauto].
  destruct (Z.leb _ _); [simpl; tauto|].
  rewrite Hadm. simpl. tauto.
Qed.

(** C10.  In [Rich], no request turns a collection without admins into one
    with an admin, so every state reached from an empty database holds only
    users with [isAdmin = false]; every token a response ever carried says
    [isAdmin = false]; and with such a token DELETE /api/news/:id and
    DELETE /api/events/:id are refused (403, or 401 once it has expired)
    without touching the state, so their deleting branch is never taken. *)
Theorem no_admin_reachable :
  (forall (env : Env) (r : Rich.Request) (w : World),
      no_admin (users w) -> no_admin (users (snd (Rich.handle env r w)))) /\
  (forall w : World, Rich.reachable w -> no_admin (users w)) /\
  (forall t : Token, issued t -> c_isAdmin (t_claims t) = false) /\
  (forall (t : Token) (env : Env) (w : World) (id : IdParam),
      issued t ->
      let gone_news := Rich.handle env (Rich.DELETE_news (Bearer (Some t)) id) w in
      let gone_event := Rich.handle env (Rich.DELETE_event (Bearer (Some t)) id) w in
      (snd gone_news = w /\ In (status (fst gone_news)) [401; 403]) /\
      (snd gone_event = w /\ In (status (fst gone_event)) [401; 403])).
Proof.
  split; [exact no_admin_step|].
  split; [exact reachable_no_admin|].
  split; [exact issued_not_admin|].
  intros t env w id Ht.
  apply admin_gate_closed, issued_not_admin, Ht.
Qed.

End UserInvariants.

(** ** Deleting a paper *)

Ltac step_io Hh :=
  rewrite io_healthy by (repeat apply healthy_tl; exact Hh);
  cbn beta iota zeta.

Section DeleteFacts.
Context `{Platform}.

Lemma absent_step (env : Env) (r : Rich.Request) (w : World) (id : ObjectId) :
  find_by_id p_id id (papers w) = None -> (id < oid w)%nat ->
  find_by_id p_id id (papers (snd (Rich.handle env r w))) = None /\
  (id < oid (snd (Rich.handle env r w)))%nat.
Proof.
  intros Habs Hlt.
  destruct (handle_grow env r w) as [_ [Hoid Hp]].
  split; [|lia].
  destruct Hp as [Hsame|[[p [Hnew [Hfresh _]]]|[[i Hdel]|[old [p [_ Hrep]]]]]].
  - rewrite Hsame. exact Habs.
  - rewrite Hnew. apply find_by_id_app_fresh; [exact Habs|lia].
  - rewrite Hdel. apply find_by_id_delete_other, Habs.
  - rewrite Hrep. apply find_by_id_replace, Habs.
Qed.

Lemma absent_run (trace : list (Env * Rich.Request)) (w : World) (id : ObjectId) :
  find_by_id p_id id (papers w) = None -> (id < oid w)%nat ->
  find_by_id p_id id (papers (run trace w)) = None.
Proof.
  revert w. unfold run.
  induction trace as [|[env r] rest IH]; simpl; intros w Habs Hlt; [exact Habs|].
  destruct (absent_step env r w id Habs Hlt) as [Habs' Hlt'].
  apply IH; assumption.
Qed.

Lemma deletePaper_missing (env : Env) (w : World) (wire : option Token)
    (user : Claims) (id : ObjectId) :
  jwt_verify wire JWT_SECRET (now env) = Some user ->
  find_by_id p_id id (papers w) = None ->
  healthy env ->
  Rich.handle env (Rich.DELETE_paper (Bearer wire) (IdOf id)) w =
  (res 404 (Message "Not found"), w).
Proof.
  intros Hv Habs Hh. unfold healthy in Hh.
  unfold Rich.handle, Rich.serve, Rich.route, Rich.deletePaper, authMiddleware,
    Paper_findById, castObjectId.
  rewrite Hv. unfold bind, try_catch, ret, get_world.
  step_io Hh. rewrite Habs. reflexivity.
Qed.

Lemma destroyed_gone (handle : string) (l : list CloudObject) (o : CloudObject) :
  In o (filter (fun o => negb (String.eqb (o_public_id o) handle &&
                               String.eqb (o_resource_type o) "raw")) l) ->
  ~ (o_public_id o = handle /\ o_resource_type o = "raw").
Proof.
  intros Hin [Hid Hrt].
  apply filter_In in Hin. destruct Hin as [_ Hb].
  rewrite Hid, Hrt, !String.eqb_refl in Hb. discriminate.
Qed.

(** C4.  In [Rich] and [Mid], when an authenticated identity whose name is
    the paper's author deletes an existing paper and neither Cloudinary nor
    MongoDB fails, the answer is [{ ok: true }], the record is removed from
    the collection, no raw object is left under the paper's storage handle,
    and the id is never found again: not in the state after the request,
    not after any further requests to [Rich], where a later DELETE of the
    same id is answered 404.  Ids in the collection are pairwise distinct
    and were drawn from the generator. *)
Theorem delete_by_author :
  forall (env : Env) (w : World) (wire : option Token) (user : Claims)
         (id : ObjectId) (paper : Paper),
    jwt_verify wire JWT_SECRET (now env) = Some user ->
    find_by_id p_id id (papers w) = Some paper ->
    same_name (c_name user) (p_author paper) = true ->
    unique_ids p_id (papers w) ->
    (forall p, In p (papers w) -> (p_id p < oid w)%nat) ->
    healthy env ->
    let rich := Rich.handle env (Rich.DELETE_paper (Bearer wire) (IdOf id)) w in
    let mid := Mid.serve (Mid.deletePaper env (Bearer wire) (IdOf id)) env w in
    fst rich = json Ok /\ mid = rich /\
    papers (snd rich) = delete_by_id p_id id (papers w) /\
    (forall handle o,
        p_cloudinary_public_id paper = Some handle -> handle <> "" ->
        In o (cloud (snd rich)) ->
        ~ (o_public_id o = handle /\ o_resource_type o = "raw")) /\
    (forall trace, find_by_id p_id id (papers (run trace (snd rich))) = None) /\
    (forall trace env' wire' user',
        jwt_verify wire' JWT_SECRET (now env') = Some user' ->
        healthy env' ->
        fst (Rich.handle env' (Rich.DELETE_paper (Bearer wire') (IdOf id))
                         (run trace (snd rich))) =
        res 404 (Message "Not found")).
Proof.
  intros env w wire user id paper Hv Hfind Hname Huniq Hids Hh rich mid.
  destruct (find_by_id_some p_id _ _ _ Hfind) as [Hin Hid].
  assert (Hlt : (id < oid w)%nat) by (rewrite <- Hid; apply Hids, Hin).
  unfold healthy in Hh.
  assert (Hrich :
    rich = (json Ok,
            set_papers
              (if truthy (p_cloudinary_public_id paper)
               then set_cloud w
                      (filter (fun o =>
                         negb (String.eqb (o_public_id o)
                                 (or_empty (p_cloudinary_public_id paper)) &&
                               String.eqb (o_resource_type o) "raw")) (cloud w))
               else w)
              (delete_by_id p_id id (papers w))) /\ mid = rich).
  { subst rich mid.
    unfold Rich.handle, Rich.serve, Rich.route, Rich.deletePaper, Mid.serve,
      Mid.deletePaper, authMiddleware, Paper_findById, castObjectId, Paper_remove,
      cloudinary_destroy.
    rewrite Hv. unfold bind, try_catch, ret, get_world, modify.
    step_io Hh. rewrite Hfind. cbn beta iota zeta. rewrite Hname.
    cbn beta iota zeta delta [negb andb].
    destruct (truthy (p_cloudinary_public_id paper)).
    - step_io Hh. step_io Hh. rewrite Hid. split; reflexivity.
    - step_io Hh. rewrite Hid. split; reflexivity. }
  destruct Hrich as [Hrich Hmid].
  assert (Hp : papers (snd rich) = delete_by_id p_id id (papers w)).
  { rewrite Hrich. cbn [snd]. destruct (truthy _); reflexivity. }
  assert (Hoid : oid (snd rich) = oid w).
  { rewrite Hrich. cbn [snd]. destruct (truthy _); reflexivity. }
  assert (Habs : find_by_id p_id id (papers (snd rich)) = None).
  { rewrite Hp. apply find_by_id_delete, Huniq. }
  split; [rewrite Hrich; reflexivity|].
  split; [exact Hmid|].
  split; [exact Hp|].
  split.
  { intros handle o Hh' Hne. rewrite Hrich. cbn [snd].
    rewrite Hh'. cbn [truthy or_empty].
    apply String.eqb_neq in Hne. rewrite Hne. cbn [negb set_papers set_cloud cloud].
    apply destroyed_gone. }
  split.
  { intros trace. apply absent_run; [exact Habs|]. rewrite Hoid. exact Hlt. }
  intros trace env' wire' user' Hv' Hh'.
  rewrite (deletePaper_missing env' _ wire' user' id Hv'); [reflexivity| |exact Hh'].
  apply absent_run; [exact Habs|]. rewrite Hoid. exact Hlt.
Qed.

End DeleteFacts.

(** ** Listing after uploads *)

Section ListFacts.
Context `{Platform}.

Lemma rich_upload_papers (u : Upload) (w : World) :
  let out := Rich.handle (up_env u) (Rich.POST_papers (up_auth u) (up_file u) (up_body u)) w in
  papers (snd out) = papers w ++ created (fst out) /\
  (status (fst out) = 200 -> exists p, created (fst out) = [p]).
Proof.
  destruct u as [env auth file b]. cbn [up_env up_auth up_file up_body].
  unfold_rich. unfold Rich.uploadPDF_fileFilter.
  run_handler.
  all: unfold created, Rich.errorHandler; cbn [body status res json Nat.eqb];
    try (destruct (_ && _); cbn [body status res Nat.eqb]);
    rewrite ?app_nil_r;
    (split; [reflexivity|intros Hs; try discriminate Hs; eexists; reflexivity]).
Qed.

Lemma mid_upload_papers (u : Upload) (w : World) :
  let out := Mid.serve (Mid.postPaper (up_env u) (up_auth u) (up_file u) (up_body u))
                       (up_env u) w in
  papers (snd out) = papers w ++ created (fst out) /\
  (status (fst out) = 200 -> exists p, created (fst out) = [p]).
Proof.
  destruct u as [env auth file b]. cbn [up_env up_auth up_file up_body].
  unfold Mid.serve, Mid.postPaper, Mid.upload, Mid.uploadBufferToCloudinary,
    authMiddleware, multer_single, cloudinary_upload, new_ObjectId, Paper_insert,
    bind, try_catch, ret, throw, io, get_world, put_world, modify.
  run_handler.
  all: unfold created; cbn [body status res json Nat.eqb];
    rewrite ?app_nil_r;
    (split; [reflexivity|intros Hs; try discriminate Hs; eexists; reflexivity]).
Qed.

Lemma server1_upload_docs (u : PlainUpload) (s : Store Server1.Paper) :
  let out := Server1.serve (Server1.postPaper (s1_env u) (s1_file u) (s1_fields u))
                           (s1_env u) s in
  docs (snd out) = docs s ++ plain_created (fst out) /\
  (forall r, fst out = Some r -> code r = 201 -> exists p, plain_created (fst out) = [p]).
Proof.
  destruct u as [env file b]. cbn [s1_env s1_file s1_fields].
  unfold Server1.serve, Server1.postPaper, Server1.upload, Server1.unanswered,
    cloudinary_storage, fresh_id,
    bind, try_catch, ret, throw, io, get_world, put_world, modify.
  repeat (cbn beta iota zeta delta [fst snd docs media next_id set_docs set_media];
          match goal with
          | |- context [match ?x with _ => _ end] =>
              lazymatch x with
              | context [match _ with _ => _ end] => fail
              | _ => destruct x eqn:?
              end
          end).
  all: cbn beta iota zeta delta [fst snd docs media next_id set_docs set_media].
  all: unfold plain_created; cbn [payload code reply Nat.eqb];
    rewrite ?app_nil_r;
    (split; [reflexivity
            |intros r Hr Hc; try discriminate Hr;
             try (inversion Hr; subst r; discriminate Hc);
             eexists; reflexivity]).
Qed.

Lemma created_length (r : Response) :
  (status r = 200 -> exists p, created r = [p]) ->
  length (created r) = if Nat.eqb (status r) 200 then 1 else 0.
Proof.
  intros Hok. destruct (Nat.eqb_spec (status r) 200) as [E|E].
  - destruct (Hok E) as [p Hp]. rewrite Hp. reflexivity.
  - unfold created. apply Nat.eqb_neq in E. rewrite E.
    destruct (body r); reflexivity.
Qed.

Lemma plain_created_length (r : option (PlainResponse Server1.Paper)) :
  (forall r', r = Some r' -> code r' = 201 -> exists p, plain_created r = [p]) ->
  length (plain_created r) =
  match r with
  | Some r' => if Nat.eqb (code r') 201 then 1 else 0
  | None => 0
  end.
Proof.
  intros Hok. destruct r as [r'|]; [|reflexivity].
  destruct (Nat.eqb_spec (code r') 201) as [E|E].
  - destruct (Hok r' eq_refl E) as [p Hp]. rewrite Hp. reflexivity.
  - unfold plain_created. apply Nat.eqb_neq in E. rewrite E.
    destruct (payload r'); reflexivity.
Qed.

Lemma rich_uploads_papers (trace : list Upload) (w : World) :
  papers (snd (rich_uploads trace w)) =
    papers w ++ flat_map created (fst (rich_uploads trace w)) /\
  length (flat_map created (fst (rich_uploads trace w))) =
    successes (fst (rich_uploads trace w)).
Proof.
  revert w. induction trace as [|u rest IH]; intros w; simpl.
  - rewrite app_nil_r. split; reflexivity.
  - pose proof (rich_upload_papers u w) as Hu. cbv zeta in Hu.
    destruct (Rich.handle (up_env u) _ w) as [r w'].
    specialize (IH w'). destruct (rich_uploads rest w') as [rs w''].
    cbn [fst snd] in *. destruct Hu as [Hp Hok]. destruct IH as [IHp IHn].
    split.
    + rewrite IHp, Hp, <- app_assoc. reflexivity.
    + unfold successes in *. simpl. rewrite length_app, IHn, (created_length r Hok).
      destruct (Nat.eqb (status r) 200); reflexivity.
Qed.

Lemma mid_uploads_papers (trace : list Upload) (w : World) :
  papers (snd (mid_uploads trace w)) =
    papers w ++ flat_map created (fst (mid_uploads trace w)) /\
  length (flat_map created (fst (mid_uploads trace w))) =
    successes (fst (mid_uploads trace w)).
Proof.
  revert w. induction trace as [|u rest IH]; intros w; simpl.
  - rewrite app_nil_r. split; reflexivity.
  - pose proof (mid_upload_papers u w) as Hu. cbv zeta in Hu.
    destruct (Mid.serve _ (up_env u) w) as [r w'].
    specialize (IH w'). destruct (mid_uploads rest w') as [rs w''].
    cbn [fst snd] in *. destruct Hu as [Hp Hok]. destruct IH as [IHp IHn].
    split.
    + rewrite IHp, Hp, <- app_assoc. reflexivity.
    + unfold successes in *. simpl. rewrite length_app, IHn, (created_length r Hok).
      destruct (Nat.eqb (status r) 200); reflexivity.
Qed.

Lemma server1_uploads_docs (trace : list PlainUpload) (s : Store Server1.Paper) :
  docs (snd (server1_uploads trace s)) =
    docs s ++ flat_map plain_created (fst (server1_uploads trace s)) /\
  length (flat_map plain_created (fst (server1_uploads trace s))) =
    plain_successes (fst (server1_uploads trace s)).
Proof.
  revert s. induction trace as [|u rest IH]; intros s; simpl.
  - rewrite app_nil_r. split; reflexivity.
  - pose proof (server1_upload_docs u s) as Hu. cbv zeta in Hu.
    destruct (Server1.serve _ (s1_env u) s) as [r s'].
    specialize (IH s'). destruct (server1_uploads rest s') as [rs s''].
    cbn [fst snd] in *. destruct Hu as [Hp Hok]. destruct IH as [IHp IHn].
    split.
    + rewrite IHp, Hp, <- app_assoc. reflexivity.
    + unfold plain_successes in *. simpl.
      rewrite length_app, IHn, (plain_created_length r Hok).
      destruct r as [r'|]; [|reflexivity].
      destruct (Nat.eqb (code r') 201); reflexivity.
Qed.

(** C5.  Starting from an empty paper collection, after any sequence of
    uploads of which N were answered with success (200 in [Rich] and [Mid],
    201 in [Server1]), GET /api/papers returns exactly N records: the
    created ones, each once, in descending order of the creation marker the
    server sorts by ([date] in [Rich] and [Mid], [_id] in [Server1]).  The
    listing itself meets no failing database call. *)
Theorem list_after_creations :
  (forall (trace : list Upload) (w : World) (env : Env),
      papers w = [] -> healthy env ->
      let done := rich_uploads trace w in
      exists l,
        Rich.handle env Rich.GET_papers (snd done) = (json (PaperList l), snd done) /\
        length l = successes (fst done) /\
        Permutation l (flat_map created (fst done)) /\
        descending p_date l) /\
  (forall (trace : list Upload) (w : World) (env : Env),
      papers w = [] -> healthy env ->
      let done := mid_uploads trace w in
      exists l,
        Mid.serve Mid.getPapers env (snd done) = (json (PaperList l), snd done) /\
        length l = successes (fst done) /\
        Permutation l (flat_map created (fst done)) /\
        descending p_date l) /\
  (forall (trace : list PlainUpload) (s : Store Server1.Paper) (env : Env),
      docs s = [] -> healthy env ->
      let done := server1_uploads trace s in
      exists l,
        Server1.serve Server1.getPapers env (snd done) =
          (Some (reply 200 (Documents l)), snd done) /\
        length l = plain_successes (fst done) /\
        Permutation l (flat_map plain_created (fst done)) /\
        descending (fun p => Z.of_nat (Server1._id p)) l).
Proof.
  split; [|split].
  - intros trace w env Hempty Hh done.
    destruct (rich_uploads_papers trace w) as [Hp Hn]. fold done in Hp, Hn.
    rewrite Hempty in Hp. simpl in Hp.
    exists (sort_desc p_date (papers (snd done))).
    split.
    { unfold Rich.handle, Rich.serve, Rich.route, Rich.getPapers, Paper_find_sorted,
        bind, try_catch, ret, get_world.
      unfold healthy in Hh. step_io Hh. reflexivity. }
    split; [rewrite sort_desc_length, Hp; exact Hn|].
    split; [|apply sort_desc_descending].
    rewrite <- Hp. apply Permutation_sym, sort_desc_perm.
  - intros trace w env Hempty Hh done.
    destruct (mid_uploads_papers trace w) as [Hp Hn]. fold done in Hp, Hn.
    rewrite Hempty in Hp. simpl in Hp.
    exists (sort_desc p_date (papers (snd done))).
    split.
    { unfold Mid.serve, Mid.getPapers, Paper_find_sorted,
        bind, try_catch, ret, get_world.
      unfold healthy in Hh. step_io Hh. reflexivity. }
    split; [rewrite sort_desc_length, Hp; exact Hn|].
    split; [|apply sort_desc_descending].
    rewrite <- Hp. apply Permutation_sym, sort_desc_perm.
  - intros trace s env Hempty Hh done.
    destruct (server1_uploads_docs trace s) as [Hp Hn]. fold done in Hp, Hn.
    rewrite Hempty in Hp. simpl in Hp.
    exists (sort_desc (fun p => Z.of_nat (Server1._id p)) (docs (snd done))).
    split.
    { unfold Server1.serve, Server1.getPapers, Server1.unanswered,
        bind, try_catch, ret, get_world.
      unfold healthy in Hh. step_io Hh. reflexivity. }
    split; [rewrite sort_desc_length, Hp; exact Hn|].
    split; [|apply sort_desc_descending].
    rewrite <- Hp. apply Permutation_sym, sort_desc_perm.
Qed.

End ListFacts.

(** ** The servers without accounts *)

Section PlainFacts.
Context `{Platform}.

(** C9.  In [Basic] and [Server2], whose handlers never look at the
    caller's headers and whose Paper documents have no field for a storage
    handle, DELETE /api/papers/:id on an existing id succeeds for any
    caller: the document with that id leaves the collection, every other
    document stays, and the media store is exactly as before. *)
Theorem delete_without_auth :
  forall (env : Env) (headers headers' : Headers) (id : ObjectId),
    (forall (s : Store Basic.Paper) (p : Basic.Paper),
        find_by_id Basic._id id (docs s) = Some p ->
        unique_ids Basic._id (docs s) ->
        healthy env ->
        let out := Basic.serve (Basic.deletePaper headers (IdOf id)) env s in
        Basic.serve (Basic.deletePaper headers' (IdOf id)) env s = out /\
        fst out = reply 200 Success /\
        docs (snd out) = delete_by_id Basic._id id (docs s) /\
        find_by_id Basic._id id (docs (snd out)) = None /\
        (forall q, In q (docs s) -> Basic._id q <> id -> In q (docs (snd out))) /\
        media (snd out) = media s) /\
    (forall (s : Store Server2.Paper) (p : Server2.Paper),
        find_by_id Server2._id id (docs s) = Some p ->
        unique_ids Server2._id (docs s) ->
        healthy env ->
        let out := Server2.serve (Server2.deletePaper headers (IdOf id)) env s in
        Server2.serve (Server2.deletePaper headers' (IdOf id)) env s = out /\
        fst out = reply 200 Success /\
        docs (snd out) = delete_by_id Server2._id id (docs s) /\
        find_by_id Server2._id id (docs (snd out)) = None /\
        (forall q, In q (docs s) -> Server2._id q <> id -> In q (docs (snd out))) /\
        media (snd out) = media s).
Proof.
  intros env headers headers' id. split.
  - intros s p Hfind Huniq Hh out. subst out. unfold healthy in Hh.
    unfold Basic.serve, Basic.deletePaper, castObjectId, bind, try_catch, ret,
      get_world, put_world.
    step_io Hh. rewrite Hfind. cbn [fst snd docs media set_docs].
    split; [reflexivity|]. split; [reflexivity|]. split; [reflexivity|].
    split; [apply find_by_id_delete, Huniq|].
    split; [|reflexivity].
    intros q Hin Hne. apply delete_by_id_keeps; assumption.
  - intros s p Hfind Huniq Hh out. subst out. unfold healthy in Hh.
    unfold Server2.serve, Server2.deletePaper, castObjectId, bind, try_catch, ret,
      get_world, put_world.
    step_io Hh. rewrite Hfind. cbn [fst snd docs media set_docs].
    split; [reflexivity|]. split; [reflexivity|]. split; [reflexivity|].
    split; [apply find_by_id_delete, Huniq|].
    split; [|reflexivity].
    intros q Hin Hne. apply delete_by_id_keeps; assumption.
Qed.

End PlainFacts.

(** * Further properties of the servers *)

(** ** Who gets in *)

Section AccessFacts.
Context `{Platform}.

(** X1.  In [Rich], each of the eight routes behind [authMiddleware]
    answers 401 and leaves the state as it was when the header is missing
    ("Unauthorized") or its token does not verify ("Invalid token"); the six
    public routes never answer 401. *)
Theorem protected_routes_need_token :
  forall (env : Env) (r : Rich.Request) (w : World),
    (forall auth, credentials r = Some auth ->
        (auth = Absent ->
         Rich.handle env r w = (res 401 (Message "Unauthorized"), w)) /\
        (forall wire, auth = Bearer wire ->
           jwt_verify wire JWT_SECRET (now env) = None ->
           Rich.handle env r w = (res 401 (Message "Invalid token"), w))) /\
    (credentials r = None -> status (fst (Rich.handle env r w)) <> 401).
Proof.
  intros env r w. split.
  - intros auth Hc.
    destruct r; cbn [credentials] in Hc; try discriminate Hc;
      inversion Hc; subst auth; clear Hc;
      (split; [intros Ha|intros wire Ha Hv]; subst;
       unfold Rich.handle, Rich.serve, Rich.route, Rich.postPaper, Rich.deletePaper,
         Rich.postComment, Rich.postAvatar, Rich.postNews, Rich.deleteNews,
         Rich.postEvent, Rich.deleteEvent, authMiddleware, ret;
       rewrite ?Hv; reflexivity).
  - intros Hc.
    destruct r; cbn [credentials] in Hc; try discriminate Hc;
      unfold_rich; run_handler; unfold Rich.errorHandler;
      cbn [status fst res json];
      try (destruct (_ && _); cbn [status res]); discriminate.
Qed.

(** X2.  A token from [generateToken] gets through [authMiddleware]
    exactly while the clock, in whole seconds, is below the issue second
    plus 2 592 000; from that second on the answer is 401. *)
Theorem token_lifetime :
  forall (env : Env) (clock : Z) (user : User) (next : Claims -> Eff World Response),
    authMiddleware env (Bearer (Some (generateToken clock user))) next =
    if (now env / 1000 <? clock / 1000 + 30 * 86400)%Z
    then next (t_claims (generateToken clock user))
    else ret (res 401 (Message "Invalid token")).
Proof.
  intros env clock user next.
  unfold authMiddleware, generateToken, jwt_verify, jwt_sign, thirty_days.
  cbn [t_signature t_claims c_exp]. rewrite String.eqb_refl.
  change (30 * 24 * 60 * 60)%Z with (30 * 86400)%Z.
  destruct (Z.leb_spec (clock / 1000 + 30 * 86400) (now env / 1000));
    destruct (Z.ltb_spec (now env / 1000) (clock / 1000 + 30 * 86400));
    try reflexivity; lia.
Qed.

(** X3.  When the process has no (or an empty) JWT_SECRET, the signing key
    is the literal ['dev_secret']: a token anybody signs with it, whatever
    identity and admin flag it states, is passed on by [authMiddleware]
    until it expires. *)
Theorem default_secret_is_public :
  forall (env : Env) (id : ObjectId) (email name : option string) (isAdmin : bool)
         (life clock : Z) (next : Claims -> Eff World Response),
    truthy env_JWT_SECRET = false ->
    (now env / 1000 < clock / 1000 + life)%Z ->
    authMiddleware env
      (Bearer (Some (jwt_sign id email name isAdmin "dev_secret" life clock))) next =
    next {| c_id := id; c_email := email; c_name := name; c_isAdmin := isAdmin;
            c_iat := clock / 1000; c_exp := clock / 1000 + life |}.
Proof.
  intros env id email name isAdmin life clock next Hunset Hlive.
  unfold authMiddleware, JWT_SECRET. rewrite Hunset.
  rewrite jwt_verify_sign by exact Hlive. reflexivity.
Qed.

(** X4.  In [Rich] and [Mid], a login with a well-formed address that no
    stored user has, and a login with a stored address and a password that
    does not match its hash, get the same answer, 400 "Invalid credentials",
    and change nothing. *)
Theorem login_bad_credentials :
  forall (env : Env) (b : LoginBody) (w : World) (email password : string),
    lb_email b = Some email -> lb_password b = Some password ->
    isEmail email = true -> email <> "" -> password <> "" ->
    limited env = false -> healthy env ->
    match find (fun u => opt_eqb (u_email u) (Some email)) (users w) with
    | Some u => password_matches u password = false
    | None => True
    end ->
    Rich.handle env (Rich.POST_login b) w =
      (res 400 (Message "Invalid credentials"), w) /\
    Mid.serve (Mid.login env b) env w =
      (res 400 (Message "Invalid credentials"), w).
Proof.
  intros env b w email password He Hp Hmail Hne Hpne Hl Hh Hbad.
  unfold healthy in Hh.
  apply String.eqb_neq in Hne, Hpne.
  unfold Rich.handle, Rich.serve, Rich.route, Rich.login, Rich.authLimiter,
    Rich.rateLimit, Mid.serve, Mid.login, check, exists_, truthy, bcrypt_compare.
  rewrite Hl, He, Hp. cbn [or_empty]. rewrite Hmail, Hne, Hpne.
  cbn [negb orb app isEmpty].
  unfold try_catch, bind.
  rewrite (User_findOne_healthy _ _ _ Hh).
  destruct (find _ (users w)) as [u|]; [|split; reflexivity].
  unfold password_matches in Hbad.
  destruct (u_passwordHash u) as [h|]; [rewrite Hbad|]; split; reflexivity.
Qed.

(** X5.  In [Rich], the health check, the login and the three listing
    routes leave the whole state as it was, whatever they are sent and
    whatever fails. *)
Theorem read_only_routes :
  forall (env : Env) (r : Rich.Request) (w : World),
    read_only r = true -> snd (Rich.handle env r w) = w.
Proof.
  intros env r w Hr.
  destruct r; cbn [read_only] in Hr; try discriminate Hr;
    unfold_rich; run_handler; reflexivity.
Qed.


End AccessFacts.

(** ** Papers in [Rich] *)

Section PaperFacts.
Context `{Platform}.

Lemma find_by_id_app_last {A} (id_of : A -> ObjectId) (l : list A) (x : A) :
  (forall y, In y l -> (id_of y < id_of x)%nat) ->
  find_by_id id_of (id_of x) (l ++ [x]) = Some x.
Proof.
  unfold find_by_id.
  induction l as [|y ys IH]; simpl; intros Hlt.
  - rewrite Nat.eqb_refl. reflexivity.
  - assert (Hy : (id_of y < id_of x)%nat) by (apply Hlt; left; reflexivity).
    destruct (Nat.eqb_spec (id_of y) (id_of x)); [lia|].
    apply IH. intros z Hz. apply Hlt. right. exact Hz.
Qed.

Lemma delete_by_id_app_last {A} (id_of : A -> ObjectId) (l : list A) (x : A) :
  (forall y, In y l -> (id_of y < id_of x)%nat) ->
  delete_by_id id_of (id_of x) (l ++ [x]) = l.
Proof.
  induction l as [|y ys IH]; simpl; intros Hlt.
  - rewrite Nat.eqb_refl. reflexivity.
  - assert (Hy : (id_of y < id_of x)%nat) by (apply Hlt; left; reflexivity).
    destruct (Nat.eqb_spec (id_of y) (id_of x)); [lia|].
    f_equal. apply IH. intros z Hz. apply Hlt. right. exact Hz.
Qed.

Lemma find_by_id_replace_same {A} (id_of : A -> ObjectId) (l : list A) (x d : A) :
  find_by_id id_of (id_of d) l = Some x ->
  find_by_id id_of (id_of d) (replace_by_id id_of d l) = Some d.
Proof.
  unfold find_by_id.
  induction l as [|y ys IH]; simpl; [discriminate|].
  destruct (Nat.eqb (id_of y) (id_of d)) eqn:E; simpl.
  - intros _. rewrite Nat.eqb_refl. reflexivity.
  - intros Hf. rewrite E. apply IH, Hf.
Qed.

Lemma replace_by_id_length {A} (id_of : A -> ObjectId) (l : list A) (d : A) :
  length (replace_by_id id_of d l) = length l.
Proof.
  induction l as [|y ys IH]; simpl; [reflexivity|].
  destruct (Nat.eqb (id_of y) (id_of d)); simpl; [reflexivity|].
  rewrite IH. reflexivity.
Qed.

Lemma replace_by_id_others {A} (id_of : A -> ObjectId) (l : list A) (d y : A) :
  In y l -> id_of y <> id_of d -> In y (replace_by_id id_of d l).
Proof.
  induction l as [|z zs IH]; simpl; [tauto|].
  intros [E|Hin] Hne.
  - subst z. apply Nat.eqb_neq in Hne. rewrite Hne. left. reflexivity.
  - destruct (Nat.eqb (id_of z) (id_of d)); right; [exact Hin|].
    apply IH; assumption.
Qed.

Lemma filter_app_absent (id : string) (l : list CloudObject) (o : CloudObject) :
  (forall x, In x l -> o_public_id x <> id) ->
  o_public_id o = id -> o_resource_type o = "raw" ->
  filter (fun x => negb (String.eqb (o_public_id x) id &&
                         String.eqb (o_resource_type x) "raw")) (l ++ [o]) = l.
Proof.
  intros Hno Hid Hrt.
  rewrite filter_app. simpl. rewrite Hid, Hrt, !String.eqb_refl. simpl.
  rewrite app_nil_r.
  induction l as [|x xs IH]; simpl; [reflexivity|].
  assert (Hx : o_public_id x <> id) by (apply Hno; left; reflexivity).
  apply String.eqb_neq in Hx. rewrite Hx. simpl.
  f_equal. apply IH. intros y Hy. apply Hno. right. exact Hy.
Qed.

(** The paper a successful upload saves. *)
Let saved (env : Env) (w : World) (f : File) (b : PaperBody) : Paper :=
  {| p_id := oid w;
     p_title := pb_title b;
     p_desc := pb_desc b;
     p_category := pb_category b;
     p_author := pb_author b;
     p_authorAvatar := pb_authorAvatar b;
     p_pdfUrl := Some (cloudinary_secure_url "raw" (rich_public_id env f));
     p_cloudinary_public_id := Some (rich_public_id env f);
     p_collaboration := opt_eqb (pb_collaboration b) (Some "true");
     p_likes := 0;
     p_comments := [];
     p_date := now env |}.

Lemma postPaper_healthy (env : Env) (w : World) (wire : option Token) (user : Claims)
    (f : File) (b : PaperBody) :
  admitted env wire user f b ->
  healthy env ->
  (forall p, In p (papers w) -> (p_id p < oid w)%nat) ->
  Rich.handle env (Rich.POST_papers (Bearer wire) (Some f) b) w =
  (json (OnePaper (saved env w f b)),
   {| users := users w; papers := papers w ++ [saved env w f b]; news := news w;
      events := events w; cloud := cloud w ++ [raw_object env f];
      oid := S (oid w) |}).
Proof.
  intros [Hv [Hl [Hm [Hsize [Ht Ha]]]]] Hh Hids. unfold healthy in Hh.
  unfold Rich.handle, Rich.serve, Rich.route, Rich.postPaper, authMiddleware,
    Rich.uploadLimiter, Rich.rateLimit, Rich.uploadPDF, multer_single,
    Rich.uploadPDF_fileFilter, check.
  rewrite Hv, Hl, Hm, Ht, Ha. cbn [String.eqb Ascii.eqb Bool.eqb app isEmpty negb].
  destruct (Z.leb_spec (50 * 1024 * 1024) (Z.of_nat (String.length (buffer f))));
    [lia|].
  unfold Rich.uploadBufferToCloudinary, cloudinary_upload, new_ObjectId, Paper_insert,
    bind, try_catch, ret, get_world, put_world, modify.
  step_io Hh. step_io Hh.
  cbn [papers set_cloud set_oid oid p_id].
  rewrite (existsb_id_fresh p_id (oid w) (papers w) Hids).
  reflexivity.
Qed.

(** X7.  In [Rich], an upload that passes the gates (valid token, rate
    limit, PDF of less than 50 MB, non-empty title and author) and meets no
    failing call is answered 200 with the new paper; the collection gains
    exactly that paper, with the body's fields, zero likes, no comments,
    the request's clock as date and the next generated id; Cloudinary gains
    exactly one raw object holding the file's bytes, under the id the paper
    keeps as its storage handle; users, news and events are untouched; and
    the paper is found under its id afterwards. *)
Theorem upload_creates_paper :
  forall (env : Env) (w : World) (wire : option Token) (user : Claims)
         (f : File) (b : PaperBody),
    admitted env wire user f b ->
    healthy env ->
    (forall p, In p (papers w) -> (p_id p < oid w)%nat) ->
    let out := Rich.handle env (Rich.POST_papers (Bearer wire) (Some f) b) w in
    exists paper,
      fst out = json (OnePaper paper) /\
      papers (snd out) = papers w ++ [paper] /\
      cloud (snd out) = cloud w ++ [raw_object env f] /\
      users (snd out) = users w /\ news (snd out) = news w /\
      events (snd out) = events w /\
      find_by_id p_id (p_id paper) (papers (snd out)) = Some paper /\
      p_id paper = oid w /\
      p_title paper = pb_title b /\ p_author paper = pb_author b /\
      p_desc paper = pb_desc b /\ p_category paper = pb_category b /\
      p_authorAvatar paper = pb_authorAvatar b /\
      (p_collaboration paper = true <-> pb_collaboration b = Some "true") /\
      p_likes paper = 0%Z /\ p_comments paper = [] /\ p_date paper = now env /\
      p_cloudinary_public_id paper = Some (rich_public_id env f) /\
      p_pdfUrl paper = Some (cloudinary_secure_url "raw" (rich_public_id env f)).
Proof.
  intros env w wire user f b Hgate Hh Hids out. subst out.
  rewrite (postPaper_healthy env w wire user f b Hgate Hh Hids).
  exists (saved env w f b). cbn [fst snd papers cloud users news events].
  split; [reflexivity|]. split; [reflexivity|]. split; [reflexivity|].
  split; [reflexivity|]. split; [reflexivity|]. split; [reflexivity|].
  split; [apply find_by_id_app_last; exact Hids|].
  unfold saved. cbn.
  repeat (split; [reflexivity|]).
  split; [apply opt_eqb_eq|].
  repeat (split; [reflexivity|]). reflexivity.
Qed.

(** X8.  In [Rich], uploading a paper under one's own name and then
    deleting it brings the paper collection and the media store back to
    what they were, when no call fails and Cloudinary held nothing under the
    id the upload takes. *)
Theorem upload_then_delete_restores :
  forall (env env' : Env) (w : World) (wire wire' : option Token) (user user' : Claims)
         (f : File) (b : PaperBody),
    admitted env wire user f b ->
    healthy env ->
    (forall p, In p (papers w) -> (p_id p < oid w)%nat) ->
    (forall o, In o (cloud w) -> o_public_id o <> rich_public_id env f) ->
    jwt_verify wire' JWT_SECRET (now env') = Some user' ->
    same_name (c_name user') (pb_author b) = true ->
    healthy env' ->
    let uploaded := Rich.handle env (Rich.POST_papers (Bearer wire) (Some f) b) w in
    let deleted := Rich.handle env' (Rich.DELETE_paper (Bearer wire') (IdOf (oid w)))
                     (snd uploaded) in
    fst deleted = json Ok /\
    papers (snd deleted) = papers w /\
    cloud (snd deleted) = cloud w /\
    users (snd deleted) = users w.
Proof.
  intros env env' w wire wire' user user' f b Hgate Hh Hids Hfree Hv' Hname Hh'
    uploaded deleted.
  subst deleted uploaded.
  rewrite (postPaper_healthy env w wire user f b Hgate Hh Hids). cbn [snd].
  assert (Hdel :
    Rich.handle env' (Rich.DELETE_paper (Bearer wire') (IdOf (oid w)))
      {| users := users w; papers := papers w ++ [saved env w f b]; news := news w;
         events := events w; cloud := cloud w ++ [raw_object env f];
         oid := S (oid w) |} =
    (json Ok,
     {| users := users w; papers := papers w; news := news w; events := events w;
        cloud := cloud w; oid := S (oid w) |})).
  { unfold healthy in Hh'.
    unfold Rich.handle, Rich.serve, Rich.route, Rich.deletePaper, authMiddleware,
      Paper_findById, castObjectId, Paper_remove, cloudinary_destroy.
    rewrite Hv'. unfold bind, try_catch, ret, get_world, modify.
    step_io Hh'. cbn [papers].
    change (oid w) with (p_id (saved env w f b)).
    rewrite find_by_id_app_last by exact Hids.
    cbn [saved p_author p_cloudinary_public_id truthy or_empty]. rewrite Hname.
    cbn [negb andb].
    assert (Hne : String.eqb (rich_public_id env f) "" = false) by reflexivity.
    rewrite Hne. cbn [negb].
    step_io Hh'. step_io Hh'.
    cbn [fst snd papers cloud users news events oid set_cloud set_papers p_id].
    rewrite delete_by_id_app_last by exact Hids.
    rewrite filter_app_absent by (try exact Hfree; reflexivity).
    reflexivity. }
  rewrite Hdel. cbn [fst snd papers cloud users].
  repeat split.
Qed.

(** X9.  In [Rich], an upload that passes the gates and whose Cloudinary
    call fails is answered 500 "Upload failed" with the error's message and
    changes nothing; when the upload succeeds and saving the Paper fails,
    the answer is the same 500, no Paper is saved, and the uploaded object
    stays in Cloudinary. *)
Theorem upload_failure_modes :
  forall (env : Env) (w : World) (wire : option Token) (user : Claims)
         (f : File) (b : PaperBody) (e : string) (rest : Faults),
    admitted env wire user f b ->
    let out := Rich.handle env (Rich.POST_papers (Bearer wire) (Some f) b) w in
    (faults env = Some e :: rest ->
     out = (res 500 (MessageError "Upload failed" e), w)) /\
    (faults env = None :: Some e :: rest ->
     fst out = res 500 (MessageError "Upload failed" e) /\
     papers (snd out) = papers w /\
     cloud (snd out) = cloud w ++ [raw_object env f]).
Proof.
  intros env w wire user f b e rest [Hv [Hl [Hm [Hsize [Ht Ha]]]]] out. subst out.
  unfold Rich.handle, Rich.serve, Rich.route, Rich.postPaper, authMiddleware,
    Rich.uploadLimiter, Rich.rateLimit, Rich.uploadPDF, multer_single,
    Rich.uploadPDF_fileFilter, check.
  rewrite Hv, Hl, Hm, Ht, Ha. cbn [String.eqb Ascii.eqb Bool.eqb app isEmpty negb].
  destruct (Z.leb_spec (50 * 1024 * 1024) (Z.of_nat (String.length (buffer f))));
    [lia|].
  unfold Rich.uploadBufferToCloudinary, cloudinary_upload, new_ObjectId, Paper_insert,
    bind, try_catch, ret, get_world, put_world, modify, io.
  split; intros Hf; rewrite Hf; cbn [fst snd papers cloud set_cloud set_oid].
  - reflexivity.
  - split; [reflexivity|]. split; reflexivity.
Qed.

(** X10.  In [Rich], a comment with a non-empty text from an authenticated
    caller on an existing paper, with no failing call, is answered with the
    paper's comments followed by the new one (author: the token's name,
    empty avatar, the request's clock); afterwards the paper found under the
    id is the old one with that comment added and nothing else changed,
    every other paper is still there, and nothing else in the state
    moved. *)
Theorem comment_appended :
  forall (env : Env) (w : World) (wire : option Token) (user : Claims)
         (id : ObjectId) (b : CommentBody) (paper : Paper),
    jwt_verify wire JWT_SECRET (now env) = Some user ->
    isLength 1 (cb_text b) = true ->
    find_by_id p_id id (papers w) = Some paper ->
    healthy env ->
    let out := Rich.handle env (Rich.POST_comments (Bearer wire) (IdOf id) b) w in
    fst out = json (OkComments (p_comments paper ++ [new_comment env user b])) /\
    (exists paper',
        find_by_id p_id id (papers (snd out)) = Some paper' /\
        more_comments paper paper' /\
        p_comments paper' = p_comments paper ++ [new_comment env user b]) /\
    length (papers (snd out)) = length (papers w) /\
    (forall q, In q (papers w) -> p_id q <> id -> In q (papers (snd out))) /\
    users (snd out) = users w /\ cloud (snd out) = cloud w /\
    oid (snd out) = oid w.
Proof.
  intros env w wire user id b paper Hv Htext Hfind Hh out. subst out.
  unfold healthy in Hh.
  destruct (find_by_id_some p_id _ _ _ Hfind) as [Hin Hid].
  unfold Rich.handle, Rich.serve, Rich.route, Rich.postComment, authMiddleware,
    Paper_findById, castObjectId, Paper_update, check.
  rewrite Hv, Htext. cbn [isEmpty negb].
  unfold bind, try_catch, ret, get_world, modify.
  step_io Hh. rewrite Hfind. cbn beta iota zeta.
  step_io Hh. cbn [fst snd papers users cloud oid set_papers p_comments].
  fold (new_comment env user b).
  set (paper' := {| p_id := p_id paper; p_title := p_title paper;
                    p_desc := p_desc paper; p_category := p_category paper;
                    p_author := p_author paper; p_authorAvatar := p_authorAvatar paper;
                    p_pdfUrl := p_pdfUrl paper;
                    p_cloudinary_public_id := p_cloudinary_public_id paper;
                    p_collaboration := p_collaboration paper; p_likes := p_likes paper;
                    p_comments := p_comments paper ++ [new_comment env user b];
                    p_date := p_date paper |}).
  assert (Hid' : p_id paper' = id) by exact Hid.
  split; [reflexivity|].
  split.
  { exists paper'. split.
    - rewrite <- Hid'. apply (find_by_id_replace_same p_id _ paper).
      rewrite Hid'. exact Hfind.
    - split; [|reflexivity].
      unfold more_comments, paper'. cbn.
      repeat (split; [reflexivity|]). eexists. reflexivity. }
  split; [apply replace_by_id_length|].
  split; [|repeat split].
  intros q Hq Hne. apply replace_by_id_others; [exact Hq|].
  rewrite Hid'. exact Hne.
Qed.

End PaperFacts.

(** ** What the routes of [Rich] keep *)

Section ShapeFacts.
Context `{Platform}.

Lemma handle_shape (env : Env) (r : Rich.Request) (w : World) :
  users_shape w (snd (Rich.handle env r w)) /\
  papers_shape w (snd (Rich.handle env r w)).
Proof.
  unfold users_shape, papers_shape.
  destruct r; unfold_rich; run_handler.
  all: split;
    [ first
        [ left; reflexivity
        | right; left; eexists; split; [reflexivity|];
          unfold sound_user; cbn [u_passwordHash u_isAdmin];
          split; [discriminate|reflexivity]
        | right; right;
          match goal with
          | Hf : find_by_id u_id _ (users _) = Some ?old
            |- context [replace_by_id u_id ?new _ = _] =>
              destruct (find_by_id_some u_id _ _ _ Hf) as [_ Hid];
              exists old, new;
              split; [cbn [u_id]; rewrite Hid; exact Hf|];
              split; [reflexivity|];
              unfold login_data; cbn [u_id u_name u_email u_passwordHash u_isAdmin];
              reflexivity
          end ]
    | first
        [ left; reflexivity
        | right; left; eexists; split; [reflexivity|];
          split; [|reflexivity];
          unfold sound_paper;
          cbn [p_likes p_cloudinary_public_id p_pdfUrl public_id secure_url];
          split; [reflexivity|]; split; [reflexivity|discriminate]
        | right; right; left; eexists; reflexivity
        | right; right; right;
          match goal with
          | Hf : find_by_id p_id _ (papers _) = Some ?old
            |- context [replace_by_id p_id
                          (Build_Paper _ _ _ _ _ _ _ _ _ _ (_ ++ [?c]) _) _ = _] =>
              destruct (find_by_id_some p_id _ _ _ Hf) as [_ Hid];
              exists old, c;
              split; [rewrite Hid; exact Hf|reflexivity]
          end ] ].
Qed.

End ShapeFacts.

Section KeepFacts.
Context `{Platform}.

Lemma replace_by_id_in {A} (id_of : A -> ObjectId) (d x : A) (l : list A) :
  In x (replace_by_id id_of d l) -> x = d \/ In x l.
Proof.
  induction l as [|y ys IH]; simpl; [tauto|].
  destruct (Nat.eqb (id_of y) (id_of d)); simpl.
  - intros [E|Hin]; [left; symmetry; exact E|right; right; exact Hin].
  - intros [E|Hin]; [right; left; exact E|].
    destruct (IH Hin) as [E|Hin']; [left; exact E|right; right; exact Hin'].
Qed.

Lemma find_by_id_app_found {A} (id_of : A -> ObjectId) (i : ObjectId) (l : list A)
    (x y : A) :
  find_by_id id_of i l = Some x -> find_by_id id_of i (l ++ [y]) = Some x.
Proof.
  unfold find_by_id.
  induction l as [|z zs IH]; simpl; [discriminate|].
  destruct (Nat.eqb (id_of z) i); [intros E; exact E|exact IH].
Qed.

Lemma find_by_id_delete_ne {A} (id_of : A -> ObjectId) (i j : ObjectId) (l : list A) :
  i <> j -> find_by_id id_of i (delete_by_id id_of j l) = find_by_id id_of i l.
Proof.
  unfold find_by_id. intros Hne.
  induction l as [|z zs IH]; simpl; [reflexivity|].
  destruct (Nat.eqb_spec (id_of z) j) as [Ej|Ej]; simpl.
  - destruct (Nat.eqb_spec (id_of z) i); [congruence|reflexivity].
  - destruct (Nat.eqb (id_of z) i); [reflexivity|exact IH].
Qed.

Lemma find_by_id_replace_ne {A} (id_of : A -> ObjectId) (i : ObjectId) (d : A)
    (l : list A) :
  id_of d <> i ->
  find_by_id id_of i (replace_by_id id_of d l) = find_by_id id_of i l.
Proof.
  unfold find_by_id. intros Hne.
  induction l as [|z zs IH]; simpl; [reflexivity|].
  destruct (Nat.eqb_spec (id_of z) (id_of d)) as [Ed|Ed]; simpl.
  - pose proof Hne as Hb. apply Nat.eqb_neq in Hb. rewrite Hb.
    destruct (Nat.eqb_spec (id_of z) i); [congruence|reflexivity].
  - destruct (Nat.eqb (id_of z) i); [reflexivity|exact IH].
Qed.

Lemma more_comments_refl (p : Paper) : more_comments p p.
Proof.
  unfold more_comments. repeat (split; [reflexivity|]).
  exists []. rewrite app_nil_r. reflexivity.
Qed.

Lemma more_comments_trans (p q r : Paper) :
  more_comments p q -> more_comments q r -> more_comments p r.
Proof.
  unfold more_comments.
  intros [A1 [A2 [A3 [A4 [A5 [A6 [A7 [A8 [A9 [A10 [A11 [a Ha]]]]]]]]]]]]
         [B1 [B2 [B3 [B4 [B5 [B6 [B7 [B8 [B9 [B10 [B11 [b Hb]]]]]]]]]]]].
  repeat (split; [congruence|]).
  exists (a ++ b). rewrite Hb, Ha, app_assoc. reflexivity.
Qed.

Lemma more_comments_add (p : Paper) (c : Comment) : more_comments p (add_comment p c).
Proof.
  unfold more_comments, add_comment. cbn.
  repeat (split; [reflexivity|]). exists [c]. reflexivity.
Qed.

Lemma sound_user_login_data (u u' : User) :
  login_data u' = login_data u -> sound_user u -> sound_user u'.
Proof.
  unfold login_data, sound_user. intros E [Hp Ha].
  inversion E as [[E1 E2 E3 E4 E5]].
  rewrite E4, E5. split; assumption.
Qed.

Lemma sound_paper_add (p : Paper) (c : Comment) :
  sound_paper p -> sound_paper (add_comment p c).
Proof.
  unfold sound_paper, add_comment. cbn. intros S. exact S.
Qed.

Lemma sound_step (env : Env) (r : Rich.Request) (w : World) :
  (forall u, In u (users w) -> sound_user u) /\
  (forall p, In p (papers w) -> sound_paper p) ->
  (forall u, In u (users (snd (Rich.handle env r w))) -> sound_user u) /\
  (forall p, In p (papers (snd (Rich.handle env r w))) -> sound_paper p).
Proof.
  intros [Hu Hp].
  destruct (handle_shape env r w) as [Hus Hps]. split.
  - destruct Hus as [Hsame|[[u [Hnew Hsound]]|[old [u [Hf [Hrep Hd]]]]]].
    + rewrite Hsame. exact Hu.
    + rewrite Hnew. intros x Hin. apply in_app_or in Hin.
      destruct Hin as [Hin|[Hx|[]]]; [apply Hu, Hin|subst x; exact Hsound].
    + rewrite Hrep. intros x Hin.
      destruct (replace_by_id_in u_id u x (users w) Hin) as [E|Hin'];
        [|apply Hu, Hin'].
      subst x. apply (sound_user_login_data old u Hd).
      apply Hu. apply (find_by_id_some u_id _ _ _ Hf).
  - destruct Hps as [Hsame|[[p [Hnew [Hsound _]]]|[[i Hdel]|[old [c [Hf Hrep]]]]]].
    + rewrite Hsame. exact Hp.
    + rewrite Hnew. intros x Hin. apply in_app_or in Hin.
      destruct Hin as [Hin|[Hx|[]]]; [apply Hp, Hin|subst x; exact Hsound].
    + rewrite Hdel. intros x Hin. apply Hp.
      apply (delete_by_id_subset p_id i _ _ Hin).
    + rewrite Hrep. intros x Hin.
      destruct (replace_by_id_in p_id _ x (papers w) Hin) as [E|Hin'];
        [|apply Hp, Hin'].
      subst x. apply sound_paper_add.
      apply Hp. apply (find_by_id_some p_id _ _ _ Hf).
Qed.

(** X11.  In [Rich], every request keeps, and so every state reached from
    an empty database has, only users with a password hash and no admin
    flag, and only papers with zero likes, a non-empty storage handle and a
    URL: no route changes a paper's likes, and none stores a user without a
    hash or a paper without its file. *)
Theorem reachable_states_sound :
  (forall (env : Env) (r : Rich.Request) (w : World),
      (forall u, In u (users w) -> sound_user u) /\
      (forall p, In p (papers w) -> sound_paper p) ->
      (forall u, In u (users (snd (Rich.handle env r w))) -> sound_user u) /\
      (forall p, In p (papers (snd (Rich.handle env r w))) -> sound_paper p)) /\
  (forall w : World,
      Rich.reachable w ->
      (forall u, In u (users w) -> sound_user u) /\
      (forall p, In p (papers w) -> sound_paper p)).
Proof.
  split; [exact sound_step|].
  induction 1 as [|w env r Hr IH].
  - split; intros x [].
  - apply sound_step, IH.
Qed.

Lemma login_data_replace (old u : User) (l : list User) :
  find_by_id u_id (u_id u) l = Some old -> login_data u = login_data old ->
  map login_data (replace_by_id u_id u l) = map login_data l.
Proof.
  unfold find_by_id.
  induction l as [|y ys IH]; simpl; intros Hf He; [reflexivity|].
  destruct (Nat.eqb (u_id y) (u_id u)); simpl.
  - inversion Hf; subst y. rewrite He. reflexivity.
  - rewrite IH by assumption. reflexivity.
Qed.

Lemma users_kept_step (env : Env) (r : Rich.Request) (w : World) :
  exists more,
    map login_data (users (snd (Rich.handle env r w))) =
    map login_data (users w) ++ more.
Proof.
  destruct (handle_shape env r w) as [[Hsame|[[u [Hnew _]]|[old [u [Hf [Hrep Hd]]]]]] _].
  - exists []. rewrite Hsame, app_nil_r. reflexivity.
  - exists [login_data u]. rewrite Hnew, map_app. reflexivity.
  - exists []. rewrite Hrep, (login_data_replace old u) by assumption.
    rewrite app_nil_r. reflexivity.
Qed.

(** X12.  In [Rich], no sequence of requests deletes a user or changes the
    id, name, email, password hash or admin flag of a stored user: the
    login data of the users after it start with the login data of the users
    before it, in the same order. *)
Theorem users_are_kept :
  forall (trace : list (Env * Rich.Request)) (w : World),
    exists more,
      map login_data (users (run trace w)) = map login_data (users w) ++ more.
Proof.
  unfold run.
  induction trace as [|[env r] rest IH]; intros w; simpl.
  - exists []. rewrite app_nil_r. reflexivity.
  - destruct (users_kept_step env r w) as [m1 H1].
    destruct (IH (snd (Rich.handle env r w))) as [m2 H2].
    exists (m1 ++ m2). rewrite H2, H1, app_assoc. reflexivity.
Qed.

Lemma paper_step (env : Env) (r : Rich.Request) (w : World) (id : ObjectId)
    (p p' : Paper) :
  ids_issued w ->
  find_by_id p_id id (papers w) = Some p ->
  find_by_id p_id id (papers (snd (Rich.handle env r w))) = Some p' ->
  more_comments p p'.
Proof.
  intros [_ [Hlt [_ Huniq]]] Hf Hf'.
  destruct (find_by_id_some p_id _ _ _ Hf) as [Hin Hid].
  destruct (handle_shape env r w)
    as [_ [Hsame|[[q [Hnew _]]|[[i Hdel]|[old [c [Hfo Hrep]]]]]]].
  - rewrite Hsame, Hf in Hf'. inversion Hf'. apply more_comments_refl.
  - rewrite Hnew, (find_by_id_app_found p_id id _ p q Hf) in Hf'.
    inversion Hf'. apply more_comments_refl.
  - rewrite Hdel in Hf'.
    destruct (Nat.eq_dec id i) as [E|E].
    + subst i. rewrite (find_by_id_delete p_id id _ Huniq) in Hf'. discriminate.
    + rewrite (find_by_id_delete_ne p_id id i _ E), Hf in Hf'.
      inversion Hf'. apply more_comments_refl.
  - rewrite Hrep in Hf'.
    destruct (Nat.eq_dec (p_id old) id) as [E|E].
    + rewrite E, Hf in Hfo. inversion Hfo; subst old.
      assert (Hd : p_id (add_comment p c) = id) by exact Hid.
      rewrite <- Hd in Hf'.
      rewrite (find_by_id_replace_same p_id _ p) in Hf'
        by (rewrite Hd; exact Hf).
      inversion Hf'. apply more_comments_add.
    + rewrite (find_by_id_replace_ne p_id id (add_comment old c) _ E), Hf in Hf'.
      inversion Hf'. apply more_comments_refl.
Qed.

(** X13.  In [Rich], whatever requests are served, a stored paper that is
    still found under its id afterwards is the paper it was with comments
    added at the end: no route edits a paper's fields, removes or rewrites
    a comment, or gives the id of a deleted paper to a new one.  The ids in
    the starting state are distinct and were issued by the generator. *)
Theorem paper_only_gains_comments :
  forall (trace : list (Env * Rich.Request)) (w : World) (id : ObjectId)
         (p p' : Paper),
    ids_issued w ->
    find_by_id p_id id (papers w) = Some p ->
    find_by_id p_id id (papers (run trace w)) = Some p' ->
    more_comments p p'.
Proof.
  induction trace as [|[env r] rest IH]; intros w id p p' Hw Hf Hf'.
  - unfold run in Hf'. simpl in Hf'. rewrite Hf in Hf'. inversion Hf'.
    apply more_comments_refl.
  - change (run ((env, r) :: rest) w)
      with (run rest (snd (Rich.handle env r w))) in Hf'.
    pose proof (ids_issued_step env r w Hw) as Hw1.
    destruct (find_by_id p_id id (papers (snd (Rich.handle env r w))))
      as [p1|] eqn:Hf1.
    + apply (more_comments_trans p p1 p').
      * apply (paper_step env r w id p p1 Hw Hf Hf1).
      * apply (IH _ id p1 p' Hw1 Hf1 Hf').
    + exfalso.
      destruct Hw as [_ [Hlt _]].
      destruct (find_by_id_some p_id _ _ _ Hf) as [Hin Hid].
      assert (Hold : (id < oid w)%nat) by (rewrite <- Hid; apply Hlt, Hin).
      destruct (handle_grow env r w) as [_ [Hoid _]].
      rewrite (absent_run rest _ id Hf1) in Hf' by lia.
      discriminate.
Qed.

End KeepFacts.

(** ** Avatars, news and events in [Rich] *)

Section AnnouncementFacts.
Context `{Platform}.

(** X14.  In [Rich], an avatar upload of an image of less than 5 MB by an
    authenticated caller, with no failing call, always leaves the image in
    Cloudinary and never touches the papers.  If the token's user is
    stored, the answer is the image's URL and that user (the first with the
    id) gets it as avatar, keeping id, name, email, password hash and admin
    flag; if not, the answer is 404 "User not found" and the users are
    unchanged, the image staying behind. *)
Theorem avatar_upload :
  forall (env : Env) (w : World) (wire : option Token) (claims : Claims) (f : File),
    jwt_verify wire JWT_SECRET (now env) = Some claims ->
    String.prefix "image/" (mimetype f) = true ->
    (Z.of_nat (String.length (buffer f)) < 5 * 1024 * 1024)%Z ->
    healthy env ->
    let out := Rich.handle env (Rich.POST_avatar (Bearer wire) (Some f)) w in
    let url := cloudinary_secure_url "image" (rich_public_id env f) in
    cloud (snd out) = cloud w ++ [image_object env f] /\
    papers (snd out) = papers w /\
    match find_by_id u_id (c_id claims) (users w) with
    | Some u =>
        fst out = json (OkAvatar url) /\
        users (snd out) = replace_by_id u_id (with_avatar u url) (users w) /\
        find_by_id u_id (c_id claims) (users (snd out)) = Some (with_avatar u url) /\
        login_data (with_avatar u url) = login_data u
    | None =>
        fst out = res 404 (Message "User not found") /\
        users (snd out) = users w
    end.
Proof.
  intros env w wire claims f Hv Himg Hsize Hh out url. subst out url.
  unfold healthy in Hh.
  unfold Rich.handle, Rich.serve, Rich.route, Rich.postAvatar, authMiddleware,
    Rich.uploadImage, multer_single, Rich.uploadImage_fileFilter.
  rewrite Hv, Himg.
  destruct (Z.leb_spec (5 * 1024 * 1024) (Z.of_nat (String.length (buffer f))));
    [lia|].
  unfold Rich.uploadBufferToCloudinary, cloudinary_upload, User_findById, User_update,
    bind, try_catch, ret, get_world, modify.
  step_io Hh. step_io Hh. cbn [users set_cloud].
  destruct (find_by_id u_id (c_id claims) (users w)) as [u|] eqn:Hf.
  - step_io Hh. cbn [fst snd users papers cloud set_cloud set_users secure_url].
    destruct (find_by_id_some u_id _ _ _ Hf) as [_ Hid].
    split; [reflexivity|]. split; [reflexivity|]. split; [reflexivity|].
    split; [reflexivity|]. split; [|reflexivity].
    assert (Hid' : u_id (with_avatar u (cloudinary_secure_url "image"
                                          ("unida/" ++ path_parse_name (originalname f) ++
                                           "-" ++ show_Z (now env) ++ "-" ++ uuid env)%string))
                   = c_id claims) by exact Hid.
    rewrite <- Hid'.
    apply (find_by_id_replace_same u_id _ u).
    cbn [u_id with_avatar]. rewrite Hid. exact Hf.
  - cbn [fst snd users papers cloud set_cloud].
    split; [reflexivity|]. split; [reflexivity|]. split; reflexivity.
Qed.

(** X15.  In [Rich], DELETE /api/news/:id and DELETE /api/events/:id from a
    caller whose token says admin.  When the id is an ObjectId and no call
    fails, the answer is [{ ok: true }] whether or not a document has the
    id: the first document with the id leaves its collection, or nothing is
    removed, and users, papers and media are untouched.  When the id is no
    ObjectId, mongoose rejects the query and the answer is 500 Server
    error, with nothing changed, whatever else would fail. *)
Theorem admin_delete_answers :
  forall (env : Env) (w : World) (wire : option Token) (user : Claims),
    jwt_verify wire JWT_SECRET (now env) = Some user ->
    c_isAdmin user = true ->
    (forall id : ObjectId,
        healthy env ->
        let gone_news := Rich.handle env (Rich.DELETE_news (Bearer wire) (IdOf id)) w in
        let gone_event := Rich.handle env (Rich.DELETE_event (Bearer wire) (IdOf id)) w in
        (fst gone_news = json Ok /\
         news (snd gone_news) = delete_by_id n_id id (news w) /\
         (find_by_id n_id id (news w) = None -> news (snd gone_news) = news w) /\
         events (snd gone_news) = events w /\ users (snd gone_news) = users w /\
         papers (snd gone_news) = papers w /\ cloud (snd gone_news) = cloud w) /\
        (fst gone_event = json Ok /\
         events (snd gone_event) = delete_by_id e_id id (events w) /\
         (find_by_id e_id id (events w) = None -> events (snd gone_event) = events w) /\
         news (snd gone_event) = news w /\ users (snd gone_event) = users w /\
         papers (snd gone_event) = papers w /\ cloud (snd gone_event) = cloud w)) /\
    (forall raw : string,
        Rich.handle env (Rich.DELETE_news (Bearer wire) (NotAnId raw)) w =
          (res 500 (Message "Server error"), w) /\
        Rich.handle env (Rich.DELETE_event (Bearer wire) (NotAnId raw)) w =
          (res 500 (Message "Server error"), w)).
Proof.
  intros env w wire user Hv Hadm.
  unfold Rich.handle, Rich.serve, Rich.route, Rich.deleteNews, Rich.deleteEvent,
    authMiddleware, castObjectId.
  rewrite Hv, Hadm. cbn [negb].
  unfold bind, try_catch, ret, throw, modify.
  split.
  - intros id Hh. cbv zeta. unfold healthy in Hh.
    step_io Hh.
    cbn [fst snd news events users papers cloud set_news set_events].
    split.
    + split; [reflexivity|]. split; [reflexivity|].
      split; [apply delete_by_id_absent|repeat split].
    + split; [reflexivity|]. split; [reflexivity|].
      split; [apply delete_by_id_absent|repeat split].
  - intros raw. split; reflexivity.
Qed.

(** X16.  In [Rich], any authenticated caller, admin or not, may post news
    and events.  News without a title is answered 400 and changes nothing;
    news with one is saved with the token's name as author and the server's
    date, whatever the body says, and with the body's [createdAt] when it
    gives one.  An event is saved whatever its title, even without one: the
    route's title check is never consulted.  No call fails, the bodies give
    no [_id], and the ids in the collections were issued by the
    generator. *)
Theorem posting_news_and_events :
  forall (env : Env) (w : World) (wire : option Token) (user : Claims)
         (nb : NewsBody) (eb : EventBody),
    jwt_verify wire JWT_SECRET (now env) = Some user ->
    healthy env ->
    nb_id nb = None -> eb_id eb = None ->
    (forall n, In n (news w) -> (n_id n < oid w)%nat) ->
    (forall e, In e (events w) -> (e_id e < oid w)%nat) ->
    let posted_news := Rich.handle env (Rich.POST_news (Bearer wire) nb) w in
    let posted_event := Rich.handle env (Rich.POST_events (Bearer wire) eb) w in
    (isLength 1 (nb_title nb) = false ->
     posted_news = (res 400 (ValidationFailed ["Invalid value"]), w)) /\
    (isLength 1 (nb_title nb) = true ->
     exists item,
       fst posted_news = json (OneNews item) /\
       news (snd posted_news) = news w ++ [item] /\
       n_author item = c_name user /\
       n_date item = toLocaleDateString (now env) /\
       n_title item = nb_title nb /\
       n_createdAt item = match nb_createdAt nb with
                          | Some t => t
                          | None => now env
                          end) /\
    (exists item,
        fst posted_event = json (OneEvent item) /\
        events (snd posted_event) = events w ++ [item] /\
        e_title item = eb_title eb /\
        e_createdAt item = match eb_createdAt eb with
                           | Some t => t
                           | None => now env
                           end).
Proof.
  intros env w wire user nb eb Hv Hh Hnid Heid Hnews Hevents posted_news posted_event.
  subst posted_news posted_event. unfold healthy in Hh.
  unfold Rich.handle, Rich.serve, Rich.route, Rich.postNews, Rich.postEvent,
    authMiddleware, Rich.News_insert, Rich.Event_insert, Rich.id_or_new, check.
  rewrite Hv, Hnid, Heid.
  unfold new_ObjectId, bind, try_catch, ret, get_world, put_world.
  split; [|split].
  - intros Ht. rewrite Ht. reflexivity.
  - intros Ht. rewrite Ht. cbn [isEmpty negb].
    step_io Hh. cbn [news set_oid n_id].
    rewrite (existsb_id_fresh n_id (oid w) (news w) Hnews).
    eexists. cbn [fst snd news set_news].
    split; [reflexivity|]. split; [reflexivity|].
    cbn [n_author n_date n_title n_createdAt]. unfold Rich.or_now.
    repeat split.
  - step_io Hh. cbn [events set_oid e_id].
    rewrite (existsb_id_fresh e_id (oid w) (events w) Hevents).
    eexists. cbn [fst snd events set_events].
    split; [reflexivity|]. split; [reflexivity|].
    cbn [e_title e_createdAt]. unfold Rich.or_now.
    repeat split.
Qed.

(** X17.  In [Rich], GET /api/news and GET /api/events with no failing
    call return every stored document exactly once, in descending order of
    [createdAt], and change nothing. *)
Theorem announcements_listed :
  forall (env : Env) (w : World),
    healthy env ->
    (exists l,
        Rich.handle env Rich.GET_news w = (json (NewsList l), w) /\
        Permutation l (news w) /\ descending n_createdAt l) /\
    (exists l,
        Rich.handle env Rich.GET_events w = (json (EventList l), w) /\
        Permutation l (events w) /\ descending e_createdAt l).
Proof.
  intros env w Hh. unfold healthy in Hh.
  split.
  - exists (sort_desc n_createdAt (news w)).
    split; [|split; [apply Permutation_sym, sort_desc_perm|apply sort_desc_descending]].
    unfold Rich.handle, Rich.serve, Rich.route, Rich.getNews,
      bind, try_catch, ret, get_world.
    step_io Hh. reflexivity.
  - exists (sort_desc e_createdAt (events w)).
    split; [|split; [apply Permutation_sym, sort_desc_perm|apply sort_desc_descending]].
    unfold Rich.handle, Rich.serve, Rich.route, Rich.getEvents,
      bind, try_catch, ret, get_world.
    step_io Hh. reflexivity.
Qed.

(** X18.  In [Rich], the global error handler answers 400 only to the PDF
    filter's error: for an authenticated caller, a PDF of 50 MB or more,
    an avatar that is not an image and an image of 5 MB or more are each
    answered 500 with the middleware's message, and change nothing. *)
Theorem middleware_errors_are_500 :
  forall (env : Env) (w : World) (wire : option Token) (user : Claims)
         (f : File) (b : PaperBody),
    jwt_verify wire JWT_SECRET (now env) = Some user ->
    (limited env = false ->
     mimetype f = "application/pdf" ->
     (50 * 1024 * 1024 <= Z.of_nat (String.length (buffer f)))%Z ->
     Rich.handle env (Rich.POST_papers (Bearer wire) (Some f) b) w =
       (res 500 (Message "File too large"), w)) /\
    (String.prefix "image/" (mimetype f) = false ->
     Rich.handle env (Rich.POST_avatar (Bearer wire) (Some f)) w =
       (res 500 (Message "Only image files are allowed for avatar"), w)) /\
    (String.prefix "image/" (mimetype f) = true ->
     (5 * 1024 * 1024 <= Z.of_nat (String.length (buffer f)))%Z ->
     Rich.handle env (Rich.POST_avatar (Bearer wire) (Some f)) w =
       (res 500 (Message "File too large"), w)).
Proof.
  intros env w wire user f b Hv.
  unfold Rich.handle, Rich.serve, Rich.route, Rich.postPaper, Rich.postAvatar,
    authMiddleware, Rich.uploadLimiter, Rich.rateLimit, Rich.uploadPDF,
    Rich.uploadImage, multer_single, Rich.uploadPDF_fileFilter,
    Rich.uploadImage_fileFilter.
  rewrite Hv. unfold bind, throw.
  split; [|split].
  - intros Hl Hm Hsize. rewrite Hl, Hm. cbn [String.eqb Ascii.eqb Bool.eqb].
    destruct (Z.leb_spec (50 * 1024 * 1024) (Z.of_nat (String.length (buffer f))));
      [reflexivity|lia].
  - intros Himg. rewrite Himg. reflexivity.
  - intros Himg Hsize. rewrite Himg.
    destruct (Z.leb_spec (5 * 1024 * 1024) (Z.of_nat (String.length (buffer f))));
      [reflexivity|lia].
Qed.

End AnnouncementFacts.

(** ** [Mid] *)

Section MidFacts.
Context `{Platform}.

(** X19.  In [Mid], registering a non-empty name, a non-empty email that no
    stored user has and a non-empty password succeeds and stores the user
    with [isAdmin = false]; logging in with the same email and password
    then succeeds, and [authMiddleware], given the login's token before it
    expires, passes on the stored user's id, email, name and admin flag.
    No database call fails and the ids in the collection were issued by the
    generator.  No format or length is asked of any field. *)
Theorem mid_register_login_verify :
  forall (w : World) (env1 env2 env3 : Env) (name email password : string)
         (institution : option string),
    name <> "" -> email <> "" -> password <> "" ->
    (forall u, In u (users w) -> u_email u <> Some email) ->
    (forall u, In u (users w) -> (u_id u < oid w)%nat) ->
    healthy env1 -> healthy env2 ->
    (now env3 / 1000 < now env2 / 1000 + thirty_days)%Z ->
    let b := {| rb_name := Some name; rb_email := Some email;
                rb_password := Some password; rb_institution := institution |} in
    let c := {| lb_email := Some email; lb_password := Some password |} in
    let registered := Mid.serve (Mid.register env1 b) env1 w in
    let logged := Mid.serve (Mid.login env2 c) env2 (snd registered) in
    exists (user : User) (t1 t2 : Token),
      fst registered = json (Session (public user) t1) /\
      users (snd registered) = users w ++ [user] /\
      u_name user = Some name /\ u_email user = Some email /\
      u_isAdmin user = false /\
      fst logged = json (Session (public user) t2) /\
      (forall next,
          authMiddleware env3 (Bearer (Some t2)) next = next (t_claims t2)) /\
      c_id (t_claims t2) = u_id user /\
      c_email (t_claims t2) = u_email user /\
      c_name (t_claims t2) = u_name user /\
      c_isAdmin (t_claims t2) = u_isAdmin user.
Proof.
  intros w env1 env2 env3 name email password institution
    Hname Hmail Hpass Hnew Hids Hh1 Hh2 Hlive b c.
  unfold healthy in Hh1, Hh2.
  apply String.eqb_neq in Hname, Hmail, Hpass.
  set (user := {| u_id := oid w; u_name := Some name; u_email := Some email;
                  u_passwordHash := Some {| bh_salt := salt env1;
                    bh_digest := bcrypt_kdf (salt env1) password |};
                  u_institution := or_empty institution;
                  u_avatar := ("https://ui-avatars.com/api/?name=" ++
                    encodeURIComponent name ++
                    "&background=76935C&color=fff")%string;
                  u_isAdmin := false; u_bio := None;
                  u_createdAt := now env1 |}).
  assert (Hreg : Mid.serve (Mid.register env1 b) env1 w =
                 (json (Session (public user) (generateToken (now env1) user)),
                  set_users (set_oid w (S (oid w))) (users w ++ [user]))).
  { unfold Mid.serve, Mid.register, truthy, b.
    cbn [rb_name rb_email rb_password rb_institution].
    rewrite Hname, Hmail, Hpass. cbn [negb orb].
    unfold try_catch, bind.
    rewrite (User_findOne_healthy _ _ _ Hh1).
    rewrite (find_email_none _ _ Hnew).
    unfold bcrypt_hash, new_User, new_ObjectId, ret, bind.
    rewrite User_insert_healthy; simpl.
    - reflexivity.
    - apply healthy_tl, Hh1.
    - apply existsb_id_fresh, Hids.
    - apply existsb_email_none, Hnew. }
  exists user, (generateToken (now env1) user), (generateToken (now env2) user).
  cbv zeta. rewrite Hreg. cbn [fst snd].
  split; [reflexivity|]. split; [reflexivity|].
  split; [reflexivity|]. split; [reflexivity|]. split; [reflexivity|].
  split.
  - unfold Mid.serve, Mid.login, truthy, c. cbn [lb_email lb_password].
    rewrite Hmail, Hpass. cbn [negb orb].
    unfold try_catch, bind.
    rewrite (User_findOne_healthy _ _ _ Hh2). simpl.
    rewrite (find_email_last (Some email) (users w) user Hnew eq_refl).
    simpl. rewrite String.eqb_refl. reflexivity.
  - split; [|repeat split].
    intros next. unfold authMiddleware, generateToken.
    rewrite jwt_verify_sign by exact Hlive. reflexivity.
Qed.

(** X20.  In [Mid], a registration whose name, email or password is
    missing or empty, and a login whose email or password is, are answered
    400 "Missing fields" before any database call and change nothing. *)
Theorem mid_missing_fields :
  forall (env : Env) (w : World) (b : RegisterBody) (c : LoginBody),
    (truthy (rb_email b) = false \/ truthy (rb_password b) = false \/
     truthy (rb_name b) = false ->
     Mid.serve (Mid.register env b) env w = (res 400 (Message "Missing fields"), w)) /\
    (truthy (lb_email c) = false \/ truthy (lb_password c) = false ->
     Mid.serve (Mid.login env c) env w = (res 400 (Message "Missing fields"), w)).
Proof.
  intros env w b c. split.
  - intros Hmiss. unfold Mid.serve, Mid.register, try_catch, ret.
    destruct (truthy (rb_email b)), (truthy (rb_password b)), (truthy (rb_name b));
      try reflexivity;
      destruct Hmiss as [E|[E|E]]; discriminate E.
  - intros Hmiss. unfold Mid.serve, Mid.login, try_catch, ret.
    destruct (truthy (lb_email c)), (truthy (lb_password c));
      try reflexivity;
      destruct Hmiss as [E|E]; discriminate E.
Qed.

(** X21.  In [Mid], an upload by an authenticated caller of a file of any
    type of less than 50 MB, with no failing call, is answered 200 and saved,
    whatever the body holds: a missing title or author is stored as
    missing.  Cloudinary gains the file as one raw object under a
    [papers/] id, which the paper keeps as its handle.  Without a file the
    answer is 400 "File required" and nothing changes. *)
Theorem mid_upload_unchecked :
  forall (env : Env) (w : World) (wire : option Token) (user : Claims)
         (f : File) (b : PaperBody),
    mid_admitted env wire user f ->
    healthy env ->
    (forall p, In p (papers w) -> (p_id p < oid w)%nat) ->
    let out := Mid.serve (Mid.postPaper env (Bearer wire) (Some f) b) env w in
    (exists paper,
        fst out = json (OnePaper paper) /\
        papers (snd out) = papers w ++ [paper] /\
        cloud (snd out) = cloud w ++ [mid_object env f] /\
        p_id paper = oid w /\
        p_title paper = pb_title b /\ p_author paper = pb_author b /\
        p_cloudinary_public_id paper = Some (o_public_id (mid_object env f)) /\
        p_likes paper = 0%Z /\ p_comments paper = []) /\
    Mid.serve (Mid.postPaper env (Bearer wire) None b) env w =
      (res 400 (Message "File required"), w).
Proof.
  intros env w wire user f b [Hv Hsize] Hh Hids out. subst out.
  unfold healthy in Hh.
  unfold Mid.serve, Mid.postPaper, authMiddleware, Mid.upload, multer_single.
  rewrite Hv.
  destruct (Z.leb_spec (50 * 1024 * 1024) (Z.of_nat (String.length (buffer f))));
    [lia|].
  unfold Mid.uploadBufferToCloudinary, cloudinary_upload, new_ObjectId, Paper_insert,
    bind, try_catch, ret, get_world, put_world, modify.
  split; [|reflexivity].
  step_io Hh. step_io Hh.
  cbn [papers set_cloud set_oid oid p_id].
  rewrite (existsb_id_fresh p_id (oid w) (papers w) Hids).
  eexists. cbn [fst snd papers cloud set_papers set_cloud set_oid].
  split; [reflexivity|]. split; [reflexivity|]. split; [reflexivity|].
  cbn. repeat split.
Qed.

(** [guard] is [authMiddleware] with the continuation taken out. *)
Lemma guard_is_authMiddleware (env : Env) (auth : Authorization)
    (next : Claims -> Eff World Response) :
  authMiddleware env auth next =
  match MidNews.guard env auth with
  | inl r => ret r
  | inr payload => next payload
  end.
Proof.
  unfold authMiddleware, MidNews.guard.
  destruct auth as [|wire]; [reflexivity|].
  destruct (jwt_verify wire JWT_SECRET (now env)); reflexivity.
Qed.

Lemma get_set_key_same (k v : string) (o : MidNews.Item) :
  MidNews.get_key k (MidNews.set_key k v o) = Some v.
Proof.
  induction o as [|[k' v'] rest IH]; simpl.
  - rewrite String.eqb_refl. reflexivity.
  - destruct (String.eqb k' k) eqn:E; simpl.
    + rewrite String.eqb_refl. reflexivity.
    + rewrite E. exact IH.
Qed.

Lemma get_set_key_other (k k0 v : string) (o : MidNews.Item) :
  k0 <> k -> MidNews.get_key k0 (MidNews.set_key k v o) = MidNews.get_key k0 o.
Proof.
  intros Hne.
  induction o as [|[k' v'] rest IH]; simpl.
  - apply String.eqb_neq in Hne. rewrite String.eqb_sym, Hne. reflexivity.
  - destruct (String.eqb_spec k' k) as [E|E]; simpl.
    + subst k'. apply String.eqb_neq in Hne.
      rewrite (String.eqb_sym k k0), Hne. reflexivity.
    + destruct (String.eqb k' k0); [reflexivity|exact IH].
Qed.

Lemma post_all_store (trace : list (Env * Authorization * MidNews.Item))
    (m : MidNews.Memory) :
  MidNews.newsStore (snd (MidNews.post_all trace m)) =
    rev (MidNews.posted (fst (MidNews.post_all trace m))) ++ MidNews.newsStore m /\
  MidNews.eventsStore (snd (MidNews.post_all trace m)) = MidNews.eventsStore m.
Proof.
  revert m. induction trace as [|[[env auth] body] rest IH]; intros m; simpl.
  - split; reflexivity.
  - unfold MidNews.postNews.
    destruct (MidNews.guard env auth) as [r|payload].
    + specialize (IH m). destruct (MidNews.post_all rest m) as [rs m'].
      cbn [fst snd] in *. unfold MidNews.posted in *. simpl. exact IH.
    + match goal with
      | |- context [MidNews.post_all rest ?m1] =>
          specialize (IH m1); destruct (MidNews.post_all rest m1) as [rs m']
      end.
      cbn [fst snd MidNews.newsStore MidNews.eventsStore] in *.
      destruct IH as [IHn IHe]. split; [|exact IHe].
      unfold MidNews.posted in *. simpl. rewrite IHn, <- app_assoc. reflexivity.
Qed.

(** X22.  In [Mid], news are kept in process memory, newest first: after
    any sequence of POST /api/news, GET /api/news returns the items posted
    by authenticated callers in reverse order of posting, in front of what
    was there, and the events array is untouched.  A posted item carries
    the clock as [id] and the server's date as [date], whatever the body
    gave for them, and every other key as sent; a caller without a valid
    token is refused and adds nothing. *)
Theorem memory_news_newest_first :
  (forall (trace : list (Env * Authorization * MidNews.Item)) (m : MidNews.Memory),
      let done := MidNews.post_all trace m in
      fst (MidNews.getNews (snd done)) =
        MidNews.Listing (rev (MidNews.posted (fst done)) ++ MidNews.newsStore m) /\
      MidNews.eventsStore (snd done) = MidNews.eventsStore m) /\
  (forall (env : Env) (auth : Authorization) (body : MidNews.Item) (m : MidNews.Memory),
      match MidNews.guard env auth with
      | inl r => MidNews.postNews env auth body m = (MidNews.Refused r, m)
      | inr _ =>
          exists item,
            fst (MidNews.postNews env auth body m) = MidNews.Posted item /\
            MidNews.get_key "id" item = Some (show_Z (now env)) /\
            MidNews.get_key "date" item = Some (toLocaleDateString (now env)) /\
            (forall k, k <> "id" -> k <> "date" ->
                       MidNews.get_key k item = MidNews.get_key k body)
      end).
Proof.
  split.
  - intros trace m done. subst done.
    destruct (post_all_store trace m) as [Hn He].
    unfold MidNews.getNews. cbn [fst]. rewrite Hn. split; [reflexivity|exact He].
  - intros env auth body m. unfold MidNews.postNews.
    destruct (MidNews.guard env auth) as [r|payload]; [reflexivity|].
    eexists. cbn [fst]. split; [reflexivity|].
    split; [|split].
    + rewrite get_set_key_other by discriminate. apply get_set_key_same.
    + apply get_set_key_same.
    + intros k Hid Hdate. rewrite !get_set_key_other by assumption. reflexivity.
Qed.

End MidFacts.

(** ** The servers without accounts: uploads, listings and failures *)

Section PlainServerFacts.
Context `{Platform}.

(** X23.  A POST /api/papers without an attachment: [Early] and [Basic]
    answer 400 and change nothing; [Server2] reads [req.file.path] of no
    file and answers 500 with the TypeError's message, changing nothing;
    [Server1] saves a document with an empty [pdfUrl] and answers 201. *)
Theorem post_without_file :
  (forall (env : Env) (s : Store Early.Paper) (b : Early.Fields),
      Early.serve (Early.postPaper env None b) env s =
        (reply 400 (Error "Файл не был загружен"), s)) /\
  (forall (env : Env) (s : Store Basic.Paper) (b : Basic.Fields),
      Basic.serve (Basic.postPaper env None b) env s =
        (reply 400 (Error "Файл PDF не прикреплен"), s)) /\
  (forall (env : Env) (s : Store Server2.Paper) (b : Server2.Fields),
      Server2.serve (Server2.postPaper env None b) env s =
        (reply 500 (Error "Cannot read properties of undefined (reading 'path')"), s)) /\
  (forall (env : Env) (s : Store Server1.Paper) (b : Server1.Fields),
      healthy env -> issued_below Server1._id s -> Server1.f_id b = None ->
      let out := Server1.serve (Server1.postPaper env None b) env s in
      exists paper,
        fst out = Some (reply 201 (Document paper)) /\
        Server1.pdfUrl paper = "" /\
        Server1._id paper = next_id s /\
        docs (snd out) = docs s ++ [paper] /\
        media (snd out) = media s).
Proof.
  split; [|split; [|split]].
  - intros env s b. reflexivity.
  - intros env s b. reflexivity.
  - intros env s b. reflexivity.
  - intros env s b Hh Hids Hid out. subst out. unfold healthy in Hh.
    unfold Server1.serve, Server1.postPaper, Server1.upload, cloudinary_storage,
      Server1.unanswered, fresh_id, bind, try_catch, ret, get_world, put_world.
    rewrite Hid. step_io Hh.
    cbn [docs Server1._id].
    rewrite (existsb_id_fresh Server1._id (next_id s) (docs s) Hids).
    eexists. cbn [fst snd docs media set_docs].
    split; [reflexivity|]. repeat split.
Qed.

(** X24.  In [Early], [Basic] and [Server2], while no external call fails
    and the new document's id is not in the collection, a POST /api/papers
    with an attachment is answered 201 with the new document; the document
    joins the collection with the URL of the stored file as [pdfUrl],
    Cloudinary gains the file as one object, and the next GET /api/papers
    returns the earlier documents and the new one, each once, in descending
    order of [_id].  ([Server2]: when the body gives no [_id].) *)
Theorem plain_upload_then_listed :
  (forall (env env' : Env) (s : Store Early.Paper) (f : File) (b : Early.Fields),
      healthy env -> healthy env' -> issued_below Early._id s ->
      let id := ("unida_papers/" ++ uuid env)%string in
      let out := Early.serve (Early.postPaper env (Some f) b) env s in
      exists paper,
        fst out = reply 201 (Document paper) /\
        Early.pdfUrl paper = Some (cloudinary_secure_url "auto" id) /\
        docs (snd out) = docs s ++ [paper] /\
        media (snd out) = media s ++ [auto_object id f] /\
        exists l,
          Early.serve Early.getPapers env' (snd out) = (reply 200 (Documents l), snd out) /\
          Permutation (paper :: docs s) l /\
          descending (fun p => Z.of_nat (Early._id p)) l) /\
  (forall (env env' : Env) (s : Store Basic.Paper) (f : File) (b : Basic.Fields),
      healthy env -> healthy env' -> issued_below Basic._id s ->
      let id := ("unida_papers/" ++ "file" ++ "-" ++ show_Z (now env))%string in
      let out := Basic.serve (Basic.postPaper env (Some f) b) env s in
      exists paper,
        fst out = reply 201 (Document paper) /\
        Basic.pdfUrl paper = Some (cloudinary_secure_url "auto" id) /\
        docs (snd out) = docs s ++ [paper] /\
        media (snd out) = media s ++ [auto_object id f] /\
        exists l,
          Basic.serve Basic.getPapers env' (snd out) = (reply 200 (Documents l), snd out) /\
          Permutation (paper :: docs s) l /\
          descending (fun p => Z.of_nat (Basic._id p)) l) /\
  (forall (env env' : Env) (s : Store Server2.Paper) (f : File) (b : Server2.Fields),
      healthy env -> healthy env' -> issued_below Server2._id s ->
      Server2.f_id b = None ->
      let id := ("unida_papers/" ++ "file" ++ "-" ++ show_Z (now env))%string in
      let out := Server2.serve (Server2.postPaper env (Some f) b) env s in
      exists paper,
        fst out = reply 201 (Document paper) /\
        Server2.pdfUrl paper = cloudinary_secure_url "auto" id /\
        docs (snd out) = docs s ++ [paper] /\
        media (snd out) = media s ++ [auto_object id f] /\
        exists l,
          Server2.serve Server2.getPapers env' (snd out) = (reply 200 (Documents l), snd out) /\
          Permutation (paper :: docs s) l /\
          descending (fun p => Z.of_nat (Server2._id p)) l).
Proof.
  split; [|split].
  - intros env env' s f b Hh Hh' Hids id out. subst id out.
    unfold healthy in Hh, Hh'.
    unfold Early.serve, Early.postPaper, Early.upload, cloudinary_storage,
      fresh_id, bind, try_catch, ret, get_world, put_world, modify.
    step_io Hh. step_io Hh.
    cbn [docs media next_id set_media Early._id].
    rewrite (existsb_id_fresh Early._id (next_id s) (docs s) Hids).
    eexists. cbn [fst snd docs media set_docs set_media next_id].
    split; [reflexivity|]. split; [reflexivity|]. split; [reflexivity|].
    split; [reflexivity|].
    eexists. split; [|split].
    + unfold Early.getPapers, bind, try_catch, ret, get_world.
      step_io Hh'. cbn [fst snd docs set_docs]. reflexivity.
    + eapply perm_trans; [apply Permutation_cons_append|apply sort_desc_perm].
    + apply sort_desc_descending.
  - intros env env' s f b Hh Hh' Hids id out. subst id out.
    unfold healthy in Hh, Hh'.
    unfold Basic.serve, Basic.postPaper, Basic.upload, cloudinary_storage,
      fresh_id, bind, try_catch, ret, get_world, put_world, modify.
    step_io Hh. step_io Hh.
    cbn [docs media next_id set_media Basic._id].
    rewrite (existsb_id_fresh Basic._id (next_id s) (docs s) Hids).
    eexists. cbn [fst snd docs media set_docs set_media next_id].
    split; [reflexivity|]. split; [reflexivity|]. split; [reflexivity|].
    split; [reflexivity|].
    eexists. split; [|split].
    + unfold Basic.getPapers, bind, try_catch, ret, get_world.
      step_io Hh'. cbn [fst snd docs set_docs]. reflexivity.
    + eapply perm_trans; [apply Permutation_cons_append|apply sort_desc_perm].
    + apply sort_desc_descending.
  - intros env env' s f b Hh Hh' Hids Hid id out. subst id out.
    unfold healthy in Hh, Hh'.
    unfold Server2.serve, Server2.postPaper, Server2.upload, cloudinary_storage,
      fresh_id, bind, try_catch, ret, get_world, put_world, modify.
    rewrite Hid. step_io Hh. step_io Hh.
    cbn [docs media next_id set_media Server2._id].
    rewrite (existsb_id_fresh Server2._id (next_id s) (docs s) Hids).
    eexists. cbn [fst snd docs media set_docs set_media next_id].
    split; [reflexivity|]. split; [reflexivity|]. split; [reflexivity|].
    split; [reflexivity|].
    eexists. split; [|split].
    + unfold Server2.getPapers, bind, try_catch, ret, get_world.
      step_io Hh'. cbn [fst snd docs set_docs]. reflexivity.
    + eapply perm_trans; [apply Permutation_cons_append|apply sort_desc_perm].
    + apply sort_desc_descending.
Qed.

(** X25.  DELETE /api/papers/:id in [Basic] and [Server2]: for an ObjectId
    no document has, the answer is 404 and nothing changes; for an id that
    is no ObjectId, mongoose's CastError is caught and answered 500 with
    its message, and nothing changes; when the database call fails, the
    answer is 500 with the error's message and nothing changes. *)
Theorem plain_delete_missing_or_failing :
  forall (env : Env) (headers : Headers),
    (forall (s : Store Basic.Paper),
        (forall id, healthy env -> find_by_id Basic._id id (docs s) = None ->
         Basic.serve (Basic.deletePaper headers (IdOf id)) env s =
           (reply 404 (Error "Работа не найдена"), s)) /\
        (forall raw,
         Basic.serve (Basic.deletePaper headers (NotAnId raw)) env s =
           (reply 500 (Error (castErrorMessage raw "Paper")), s)) /\
        (forall id e rest, faults env = Some e :: rest ->
         Basic.serve (Basic.deletePaper headers (IdOf id)) env s =
           (reply 500 (Error e), s))) /\
    (forall (s : Store Server2.Paper),
        (forall id, healthy env -> find_by_id Server2._id id (docs s) = None ->
         Server2.serve (Server2.deletePaper headers (IdOf id)) env s =
           (reply 404 (Failure "Работа не найдена в базе"), s)) /\
        (forall raw,
         Server2.serve (Server2.deletePaper headers (NotAnId raw)) env s =
           (reply 500 (FailureError (castErrorMessage raw "Paper")), s)) /\
        (forall id e rest, faults env = Some e :: rest ->
         Server2.serve (Server2.deletePaper headers (IdOf id)) env s =
           (reply 500 (FailureError e), s))).
Proof.
  intros env headers. split; intros s; (split; [|split]).
  - intros id Hh Hnone. unfold healthy in Hh.
    unfold Basic.serve, Basic.deletePaper, castObjectId, bind, try_catch, ret,
      get_world, put_world.
    step_io Hh. rewrite Hnone, (delete_by_id_absent Basic._id id (docs s) Hnone).
    destruct s; reflexivity.
  - intros raw. reflexivity.
  - intros id e rest Hf.
    unfold Basic.serve, Basic.deletePaper, castObjectId, bind, try_catch, ret, io.
    rewrite Hf. reflexivity.
  - intros id Hh Hnone. unfold healthy in Hh.
    unfold Server2.serve, Server2.deletePaper, castObjectId, bind, try_catch, ret,
      get_world, put_world.
    step_io Hh. rewrite Hnone, (delete_by_id_absent Server2._id id (docs s) Hnone).
    destruct s; reflexivity.
  - intros raw. reflexivity.
  - intros id e rest Hf.
    unfold Server2.serve, Server2.deletePaper, castObjectId, bind, try_catch, ret, io.
    rewrite Hf. reflexivity.
Qed.

(** X26.  GET /api/papers when the database call fails with error [e]:
    [Early] and [Basic] answer 500 with a fixed message, [Server2] answers
    500 with [e] itself, and [Server1], whose handler has no [try], sends
    no response at all.  When the call succeeds, all four answer 200 with a
    permutation of the collection, largest [_id] first.  Nothing changes
    either way. *)
Theorem listing_and_database_failure :
  forall (env : Env),
    (forall e rest, faults env = Some e :: rest ->
       (forall s, Early.serve Early.getPapers env s =
                    (reply 500 (Error "Ошибка при получении данных"), s)) /\
       (forall s, Basic.serve Basic.getPapers env s =
                    (reply 500 (Error "Ошибка при получении данных с сервера"), s)) /\
       (forall s, Server2.serve Server2.getPapers env s = (reply 500 (Error e), s)) /\
       (forall s, Server1.serve Server1.getPapers env s = (None, s))) /\
    (healthy env ->
       (forall s, exists l,
           Early.serve Early.getPapers env s = (reply 200 (Documents l), s) /\
           Permutation (docs s) l /\ descending (fun p => Z.of_nat (Early._id p)) l) /\
       (forall s, exists l,
           Basic.serve Basic.getPapers env s = (reply 200 (Documents l), s) /\
           Permutation (docs s) l /\ descending (fun p => Z.of_nat (Basic._id p)) l) /\
       (forall s, exists l,
           Server2.serve Server2.getPapers env s = (reply 200 (Documents l), s) /\
           Permutation (docs s) l /\ descending (fun p => Z.of_nat (Server2._id p)) l) /\
       (forall s, exists l,
           Server1.serve Server1.getPapers env s = (Some (reply 200 (Documents l)), s) /\
           Permutation (docs s) l /\ descending (fun p => Z.of_nat (Server1._id p)) l)).
Proof.
  intros env. split.
  - intros e rest Hf.
    split; [|split; [|split]]; intros s.
    + unfold Early.serve, Early.getPapers, bind, try_catch, io. rewrite Hf. reflexivity.
    + unfold Basic.serve, Basic.getPapers, bind, try_catch, io. rewrite Hf. reflexivity.
    + unfold Server2.serve, Server2.getPapers, bind, try_catch, io. rewrite Hf. reflexivity.
    + unfold Server1.serve, Server1.getPapers, Server1.unanswered, bind, try_catch, io.
      rewrite Hf. reflexivity.
  - intros Hh. unfold healthy in Hh.
    split; [|split; [|split]]; intros s; eexists; (split; [|split]).
    + unfold Early.serve, Early.getPapers, bind, try_catch, ret, get_world.
      step_io Hh. reflexivity.
    + apply sort_desc_perm.
    + apply sort_desc_descending.
    + unfold Basic.serve, Basic.getPapers, bind, try_catch, ret, get_world.
      step_io Hh. reflexivity.
    + apply sort_desc_perm.
    + apply sort_desc_descending.
    + unfold Server2.serve, Server2.getPapers, bind, try_catch, ret, get_world.
      step_io Hh. reflexivity.
    + apply sort_desc_perm.
    + apply sort_desc_descending.
    + unfold Server1.serve, Server1.getPapers, Server1.unanswered,
        bind, try_catch, ret, get_world.
      step_io Hh. reflexivity.
    + apply sort_desc_perm.
    + apply sort_desc_descending.
Qed.

(** X27.  In the four servers without accounts the attachment is sent to
    Cloudinary by the upload middleware, before the handler and outside its
    [try]: when that call fails with [e], the request is answered by
    Express's own 500 error page and neither a document nor an object is
    stored. *)
Theorem storage_failure_before_handler :
  forall (env : Env) (f : File) (e : string) (rest : Faults),
    faults env = Some e :: rest ->
    (forall s b, Early.serve (Early.postPaper env (Some f) b) env s =
                   (reply 500 (Html e), s)) /\
    (forall s b, Basic.serve (Basic.postPaper env (Some f) b) env s =
                   (reply 500 (Html e), s)) /\
    (forall s b, Server2.serve (Server2.postPaper env (Some f) b) env s =
                   (reply 500 (Html e), s)) /\
    (forall s b, Server1.serve (Server1.postPaper env (Some f) b) env s =
                   (Some (reply 500 (Html e)), s)).
Proof.
  intros env f e rest Hf.
  split; [|split; [|split]]; intros s b.
  - unfold Early.serve, Early.postPaper, Early.upload, cloudinary_storage, bind, io.
    rewrite Hf. reflexivity.
  - unfold Basic.serve, Basic.postPaper, Basic.upload, cloudinary_storage, bind, io.
    rewrite Hf. reflexivity.
  - unfold Server2.serve, Server2.postPaper, Server2.upload, cloudinary_storage, bind, io.
    rewrite Hf. reflexivity.
  - unfold Server1.serve, Server1.postPaper, Server1.upload, cloudinary_storage, bind, io.
    rewrite Hf. reflexivity.
Qed.

(** X28.  In the four servers without accounts, when the file reaches
    Cloudinary but saving the document fails with [e], no document is
    stored and the file stays in Cloudinary: no handler removes it.
    [Early], [Basic] and [Server2] answer 500 with [e]; [Server1] sends no
    response. *)
Theorem failed_save_orphans_file :
  forall (env : Env) (f : File) (e : string) (rest : Faults),
    faults env = None :: Some e :: rest ->
    (forall s b,
        let out := Early.serve (Early.postPaper env (Some f) b) env s in
        fst out = reply 500 (Error e) /\ docs (snd out) = docs s /\
        media (snd out) = media s ++ [auto_object ("unida_papers/" ++ uuid env) f]) /\
    (forall s b,
        let out := Basic.serve (Basic.postPaper env (Some f) b) env s in
        fst out = reply 500 (Error e) /\ docs (snd out) = docs s /\
        media (snd out) =
          media s ++ [auto_object ("unida_papers/" ++ "file" ++ "-" ++ show_Z (now env)) f]) /\
    (forall s b,
        let out := Server2.serve (Server2.postPaper env (Some f) b) env s in
        fst out = reply 500 (Error e) /\ docs (snd out) = docs s /\
        media (snd out) =
          media s ++ [auto_object ("unida_papers/" ++ "file" ++ "-" ++ show_Z (now env)) f]) /\
    (forall s b,
        let out := Server1.serve (Server1.postPaper env (Some f) b) env s in
        fst out = None /\ docs (snd out) = docs s /\
        media (snd out) = media s ++ [default_object ("unida_papers/" ++ uuid env) f]).
Proof.
  intros env f e rest Hf.
  split; [|split; [|split]]; intros s b out; subst out.
  - unfold Early.serve, Early.postPaper, Early.upload, cloudinary_storage,
      fresh_id, bind, try_catch, io, modify.
    rewrite Hf. cbn. repeat split.
  - unfold Basic.serve, Basic.postPaper, Basic.upload, cloudinary_storage,
      fresh_id, bind, try_catch, io, modify.
    rewrite Hf. cbn. repeat split.
  - unfold Server2.serve, Server2.postPaper, Server2.upload, cloudinary_storage,
      fresh_id, bind, try_catch, io, modify.
    rewrite Hf. destruct (Server2.f_id b); cbn; repeat split.
  - unfold Server1.serve, Server1.postPaper, Server1.upload, cloudinary_storage,
      Server1.unanswered, fresh_id, bind, try_catch, io, modify.
    rewrite Hf. destruct (Server1.f_id b); cbn; repeat split.
Qed.

End PlainServerFacts.

(** ** Rate limits *)

Section LimitFacts.
Context `{Platform}.

(** X29.  In [Rich], a client past the rate limit is answered 429 with the
    limiter's text, whatever it sends, on register and login, and on an
    upload once its token verified; nothing changes.  On the upload route
    [authMiddleware] runs first, so without a token the answer is still
    401, and the limiter runs before the file filter and the field checks.
    No other route consults a limiter. *)
Theorem rate_limited_requests :
  forall (env : Env) (w : World),
    limited env = true ->
    (forall b, Rich.handle env (Rich.POST_register b) w =
                 (res 429 (Text "Too many auth requests, try again later"), w)) /\
    (forall b, Rich.handle env (Rich.POST_login b) w =
                 (res 429 (Text "Too many auth requests, try again later"), w)) /\
    (forall wire user file b,
        jwt_verify wire JWT_SECRET (now env) = Some user ->
        Rich.handle env (Rich.POST_papers (Bearer wire) file b) w =
          (res 429 (Text "Too many uploads, try later"), w)) /\
    (forall file b,
        Rich.handle env (Rich.POST_papers Absent file b) w =
          (res 401 (Message "Unauthorized"), w)) /\
    (forall r, rate_limited r = false ->
               Rich.handle env r w = Rich.handle (unlimited env) r w).
Proof.
  intros env w Hl.
  split; [|split; [|split; [|split]]].
  - intros b. unfold Rich.handle, Rich.serve, Rich.route, Rich.register,
      Rich.authLimiter, Rich.rateLimit. rewrite Hl. reflexivity.
  - intros b. unfold Rich.handle, Rich.serve, Rich.route, Rich.login,
      Rich.authLimiter, Rich.rateLimit. rewrite Hl. reflexivity.
  - intros wire user file b Hv.
    unfold Rich.handle, Rich.serve, Rich.route, Rich.postPaper, authMiddleware,
      Rich.uploadLimiter, Rich.rateLimit. rewrite Hv, Hl. reflexivity.
  - intros file b. reflexivity.
  - intros r Hr. destruct r; try discriminate Hr; reflexivity.
Qed.

End LimitFacts.

(** ** The theorems at concrete requests *)

Local Existing Instance demo_platform.

(** [Mid] takes a plain-text attachment: the upload is answered 200, the
    bytes are in Cloudinary and a Paper points at them.  (C2 as stated
    fails here.) *)
Lemma mid_accepts_non_pdf :
  mimetype note_txt <> "application/pdf" /\
  let out := Mid.serve (Mid.postPaper (quiet 6000) (Bearer (Some alice_token))
                          (Some note_txt) thesis) (quiet 6000) registered in
  status (fst out) = 200 /\
  cloud registered = [] /\
  cloud (snd out) = [{| o_public_id := "papers/note.txt-6000-u";
                        o_resource_type := "raw"; o_bytes := "hello" |}] /\
  papers registered = [] /\
  map p_cloudinary_public_id (papers (snd out)) = [Some "papers/note.txt-6000-u"].
Proof.
  split; [discriminate|].
  vm_compute. repeat split.
Qed.

(** *** What the hypotheses of the theorems leave out *)

(** C7, as first worded, fails: with the secret and the life time fixed,
    the same user gets another token a second later. *)
Lemma generateToken_reads_clock :
  JWT_SECRET = "dev_secret" /\
  c_iat (t_claims (generateToken 5000 (demo_user 0 "Alice" "a@x.com"))) = 5%Z /\
  c_iat (t_claims (generateToken 6000 (demo_user 0 "Alice" "a@x.com"))) = 6%Z /\
  generateToken 5000 (demo_user 0 "Alice" "a@x.com") <>
  generateToken 6000 (demo_user 0 "Alice" "a@x.com").
Proof.
  split; [reflexivity|]. split; [reflexivity|]. split; [reflexivity|]. discriminate.
Qed.

(** C6, as first worded, fails: a comment under an [:id] that is no
    ObjectId, and so names no stored paper, is answered 500, not 404. *)
Lemma comment_on_malformed_id :
  no_paper_under (NotAnId "7") library /\
  Rich.handle (quiet 7000)
    (Rich.POST_comments (Bearer (Some bob_token)) (NotAnId "7") nice) library =
    (res 500 (Message "Server error"), library) /\
  Mid.serve (Mid.postComment (quiet 7000) (Bearer (Some bob_token)) (NotAnId "7") nice)
    (quiet 7000) library =
    (res 500 (Message "Server error"), library).
Proof.
  split; [exact I|]. split; reflexivity.
Qed.

(** Thirty days after its issue a token no longer authenticates. *)
Remark expired_token_refused :
  Rich.handle (quiet (5000 + 30 * 86400 * 1000))
              (Rich.DELETE_paper (Bearer (Some alice_token)) (IdOf 1)) library =
  (res 401 (Message "Invalid token"), library).
Proof. reflexivity. Qed.

(** When Cloudinary fails during a DELETE the error is swallowed: the
    answer is still [{ ok: true }], the record is gone and the object
    stays. *)
Remark destroy_failure_swallowed :
  let out := Rich.handle (flaky 7000 [None; Some "ECONNRESET"])
               (Rich.DELETE_paper (Bearer (Some alice_token)) (IdOf 1)) library in
  fst out = json Ok /\ papers (snd out) = [] /\ cloud (snd out) = cloud library /\
  cloud library <> [].
Proof. vm_compute. repeat split. discriminate. Qed.

(** When saving the Paper fails after the upload, the object is left in
    Cloudinary with no record pointing at it. *)
Remark failed_save_leaves_object :
  let out := Rich.handle (flaky 6000 [None; Some "MongoNetworkError"])
               (Rich.POST_papers (Bearer (Some alice_token)) (Some thesis_pdf) thesis)
               registered in
  fst out = res 500 (MessageError "Upload failed" "MongoNetworkError") /\
  papers (snd out) = [] /\
  map o_public_id (cloud (snd out)) = ["unida/thesis.pdf-6000-u"].
Proof. vm_compute. repeat split. Qed.

(** Authorship is decided by name alone: another account with the author's
    name may delete the paper. *)
Remark namesake_may_delete :
  c_id (t_claims namesake_token) <> c_id (t_claims alice_token) /\
  let out := Rich.handle (quiet 7000)
               (Rich.DELETE_paper (Bearer (Some namesake_token)) (IdOf 1)) library in
  fst out = json Ok /\ papers (snd out) = [].
Proof. vm_compute. repeat split. discriminate. Qed.

(** *** The theorems applied *)

Lemma register_login_verify_witness :
  exists (user : User) (t : Token),
    fst (Rich.handle (quiet 5000) (Rich.POST_login alice_login) registered) =
      json (Session (public user) t) /\
    users registered = [user] /\
    c_id (t_claims t) = u_id user /\
    c_email (t_claims t) = Some "a@x.com" /\
    c_name (t_claims t) = Some "Alice" /\
    c_isAdmin (t_claims t) = false /\
    authMiddleware (quiet 9000) (Bearer (Some t)) (fun c => ret (json Ok)) = ret (json Ok).
Proof.
  destruct (register_login_verify empty_world (quiet 1000) (quiet 5000) (quiet 9000)
              "Alice" "a@x.com" "secret1" None)
    as [user [t1 [t2 [_ [Hu [Hn [He [Ha [Hl [Hv [Hi [He' [Hn' Ha']]]]]]]]]]]]].
  - simpl; lia.
  - reflexivity.
  - simpl; lia.
  - intros u [].
  - intros u [].
  - reflexivity.
  - constructor.
  - reflexivity.
  - constructor.
  - vm_compute; reflexivity.
  - exists user, t2.
    split; [exact Hl|]. split; [exact Hu|]. split; [exact Hi|].
    split; [rewrite He'; exact He|]. split; [rewrite Hn'; exact Hn|].
    split; [rewrite Ha'; exact Ha|]. apply Hv.
Defined.

Lemma rich_rejects_non_pdf_witness :
  mimetype note_txt <> "application/pdf" /\
  Rich.handle (quiet 6000) (Rich.POST_papers (Bearer (Some alice_token)) (Some note_txt) thesis)
              registered =
  (res 400 (Message "Only PDF files are allowed"), registered).
Proof.
  assert (Hm : mimetype note_txt <> "application/pdf") by discriminate.
  split; [exact Hm|].
  destruct (rich_rejects_non_pdf (quiet 6000) registered (Bearer (Some alice_token))
              note_txt thesis Hm) as [Hw [_ Hr]].
  rewrite (surjective_pairing (Rich.handle _ _ _)).
  rewrite Hw. apply f_equal2; [|reflexivity].
  apply (Hr (Some alice_token) (t_claims alice_token)); reflexivity.
Defined.

Lemma delete_by_stranger_forbidden_witness :
  same_name (Some "Bob") (p_author thesis_paper) = false /\
  Rich.handle (quiet 7000) (Rich.DELETE_paper (Bearer (Some bob_token)) (IdOf 1)) library =
    (res 403 (Message "Forbidden"), library) /\
  Mid.serve (Mid.deletePaper (quiet 7000) (Bearer (Some bob_token)) (IdOf 1)) (quiet 7000) library =
    (res 403 (Message "Forbidden"), library).
Proof.
  split; [reflexivity|].
  destruct (delete_by_stranger_forbidden (quiet 7000) library (Some bob_token)
              (t_claims bob_token) 1 thesis_paper)
    as [[Hrw Hrs] [Hmw Hms]]; try reflexivity.
  split.
  - rewrite (surjective_pairing (Rich.handle _ _ _)).
    rewrite Hrw, Hrs by constructor. reflexivity.
  - rewrite (surjective_pairing (Mid.serve _ _ _)).
    rewrite Hmw, Hms by constructor. reflexivity.
Defined.

Lemma delete_by_author_witness :
  let out := Rich.handle (quiet 7000) (Rich.DELETE_paper (Bearer (Some alice_token)) (IdOf 1))
                         library in
  stored "unida/thesis.pdf-6000-u" library /\
  fst out = json Ok /\
  papers (snd out) = [] /\
  ~ stored "unida/thesis.pdf-6000-u" (snd out) /\
  Mid.serve (Mid.deletePaper (quiet 7000) (Bearer (Some alice_token)) (IdOf 1))
            (quiet 7000) library = out /\
  fst (Rich.handle (quiet 8000) (Rich.DELETE_paper (Bearer (Some alice_token)) (IdOf 1))
         (run [(quiet 7500, Rich.POST_papers (Bearer (Some bob_token)) (Some thesis_pdf) thesis)]
              (snd out))) =
    res 404 (Message "Not found").
Proof.
  intros out.
  destruct (delete_by_author (quiet 7000) library (Some alice_token)
              (t_claims alice_token) 1 thesis_paper)
    as [Hok [Hmid [Hp [Hgone [_ Hlater]]]]].
  - reflexivity.
  - reflexivity.
  - reflexivity.
  - repeat constructor. simpl. tauto.
  - intros p [Hp|[]]. subst p. simpl. lia.
  - constructor.
  - fold out in Hok, Hp, Hgone, Hlater.
    split.
    { eexists. split; [left; reflexivity|reflexivity]. }
    split; [exact Hok|].
    split; [rewrite Hp; reflexivity|].
    split.
    { intros [o [Hin Hid]].
      assert (Hraw : o_resource_type o = "raw").
      { revert Hin. vm_compute. tauto. }
      apply (Hgone "unida/thesis.pdf-6000-u" o); [reflexivity|discriminate|exact Hin|].
      split; assumption. }
    split; [exact Hmid|].
    apply (Hlater _ (quiet 8000) (Some alice_token) (t_claims alice_token));
      [reflexivity|constructor].
Defined.

Lemma list_after_creations_witness :
  let trace :=
    [ {| up_env := quiet 6000; up_auth := Bearer (Some alice_token);
         up_file := Some thesis_pdf; up_body := thesis |};
      {| up_env := quiet 6500; up_auth := Absent;
         up_file := Some thesis_pdf; up_body := thesis |};
      {| up_env := quiet 7000; up_auth := Bearer (Some bob_token);
         up_file := Some thesis_pdf; up_body := thesis |} ] in
  let plain :=
    [ {| s1_env := quiet 6000; s1_file := Some thesis_pdf; s1_fields := plain_fields None |};
      {| s1_env := quiet 6500; s1_file := None; s1_fields := plain_fields (Some 0) |};
      {| s1_env := quiet 7000; s1_file := None; s1_fields := plain_fields None |} ] in
  papers registered = [] /\
  healthy (quiet 9000) /\
  map status (fst (rich_uploads trace registered)) = [200; 401; 200] /\
  (exists l,
      fst (Rich.handle (quiet 9000) Rich.GET_papers (snd (rich_uploads trace registered))) =
        json (PaperList l) /\
      length l = 2 /\ descending p_date l) /\
  (exists l,
      fst (Mid.serve Mid.getPapers (quiet 9000) (snd (mid_uploads trace registered))) =
        json (PaperList l) /\
      length l = 2 /\ descending p_date l) /\
  (exists l,
      fst (Server1.serve Server1.getPapers (quiet 9000)
             (snd (server1_uploads plain empty_store))) =
        Some (reply 200 (Documents l)) /\
      length l = 2 /\ descending (fun p => Z.of_nat (Server1._id p)) l).
Proof.
  intros trace plain.
  assert (Hh : healthy (quiet 9000)) by constructor.
  split; [reflexivity|]. split; [exact Hh|]. split; [reflexivity|].
  destruct list_after_creations as [Hrich [Hmid Hplain]].
  destruct (Hrich trace registered (quiet 9000) eq_refl Hh) as [l [Hget [Hlen [_ Hsort]]]].
  destruct (Hmid trace registered (quiet 9000) eq_refl Hh) as [m [Hget' [Hlen' [_ Hsort']]]].
  destruct (Hplain plain empty_store (quiet 9000) eq_refl Hh)
    as [n [Hget'' [Hlen'' [_ Hsort'']]]].
  split; [|split].
  - exists l. split; [rewrite Hget; reflexivity|].
    split; [exact Hlen|exact Hsort].
  - exists m. split; [rewrite Hget'; reflexivity|].
    split; [exact Hlen'|exact Hsort'].
  - exists n. split; [rewrite Hget''; reflexivity|].
    split; [exact Hlen''|exact Hsort''].
Defined.

Lemma comment_on_missing_paper_witness :
  no_paper_under (IdOf 7) library /\
  Rich.handle (quiet 7000) (Rich.POST_comments (Bearer (Some bob_token)) (IdOf 7) nice)
    library = (res 404 (Message "Not found"), library) /\
  Mid.serve (Mid.postComment (quiet 7000) (Bearer (Some bob_token)) (IdOf 7) nice)
    (quiet 7000) library = (res 404 (Message "Not found"), library) /\
  Rich.handle (quiet 7000) (Rich.POST_comments (Bearer (Some bob_token)) (NotAnId "abc") nice)
    library = (res 500 (Message "Server error"), library).
Proof.
  assert (Habs : no_paper_under (IdOf 7) library) by reflexivity.
  split; [exact Habs|].
  destruct (comment_on_missing_paper (quiet 7000) library (Bearer (Some bob_token))
              (IdOf 7) nice Habs) as [Hrw [Hmw Hresp]].
  destruct (Hresp (Some bob_token) (t_claims bob_token) "nice") as [Hfound _];
    [reflexivity|reflexivity|reflexivity|discriminate|].
  destruct (Hfound 7 eq_refl) as [Hr Hm]; [constructor|].
  destruct (comment_on_missing_paper (quiet 7000) library (Bearer (Some bob_token))
              (NotAnId "abc") nice I) as [Hrw' [_ Hresp']].
  destruct (Hresp' (Some bob_token) (t_claims bob_token) "nice") as [_ Hcast];
    [reflexivity|reflexivity|reflexivity|discriminate|].
  destruct (Hcast "abc" eq_refl) as [Hr' _].
  split; [|split].
  - rewrite (surjective_pairing (Rich.handle _ _ _)).
    apply f_equal2; [exact Hr|exact Hrw].
  - rewrite (surjective_pairing (Mid.serve _ _ _)).
    apply f_equal2; [exact Hm|exact Hmw].
  - rewrite (surjective_pairing (Rich.handle _ _ _)).
    apply f_equal2; [exact Hr'|exact Hrw'].
Defined.

Lemma generateToken_deterministic_witness :
  generateToken 5000 (demo_user 0 "Alice" "a@x.com") =
  generateToken 5999 (demo_user 0 "Alice" "a@x.com") /\
  c_exp (t_claims alice_token) = (c_iat (t_claims alice_token) + 2592000)%Z.
Proof.
  destruct (generateToken_deterministic (demo_user 0 "Alice" "a@x.com") 5000 5999)
    as [Hsame [_ Hlife]].
  split; [apply Hsame; reflexivity|exact Hlife].
Defined.

Lemma email_uniqueness_invariant_witness :
  unique_emails (users registered) /\
  Rich.handle (quiet 2000) (Rich.POST_register alice) registered =
    (res 400 (Message "Email already registered"), registered) /\
  status (fst (Rich.handle (quiet 2000) (Rich.POST_register alice) registered)) = 400.
Proof.
  destruct email_uniqueness_invariant as [_ [Hreach [_ Htaken]]].
  split; [apply Hreach; apply Rich.reach_step, Rich.reach_init|].
  split; [reflexivity|].
  assert (Hin : exists u, In u (users registered) /\ u_email u = Some "a@x.com").
  { eexists. split; [left; reflexivity|reflexivity]. }
  destruct Hin as [u [Hin Hu]].
  apply (proj2 (Htaken (quiet 2000) alice registered u "a@x.com" Hin Hu eq_refl));
    [reflexivity|constructor].
Defined.

Lemma delete_without_auth_witness :
  let anonymous := {| authorization := None |} in
  let bearer := {| authorization := Some "Bearer anything" |} in
  Basic.serve (Basic.deletePaper anonymous (IdOf 3)) (quiet 7000) plain_store =
    Basic.serve (Basic.deletePaper bearer (IdOf 3)) (quiet 7000) plain_store /\
  fst (Basic.serve (Basic.deletePaper anonymous (IdOf 3)) (quiet 7000) plain_store) =
    reply 200 Success /\
  docs (snd (Basic.serve (Basic.deletePaper anonymous (IdOf 3)) (quiet 7000) plain_store)) = [] /\
  media (snd (Basic.serve (Basic.deletePaper anonymous (IdOf 3)) (quiet 7000) plain_store)) =
    media plain_store /\
  fst (Server2.serve (Server2.deletePaper anonymous (IdOf 3)) (quiet 7000) flat_store) =
    reply 200 Success /\
  media (snd (Server2.serve (Server2.deletePaper anonymous (IdOf 3)) (quiet 7000) flat_store)) =
    media flat_store.
Proof.
  intros anonymous bearer.
  destruct (delete_without_auth (quiet 7000) anonymous bearer 3) as [Hbasic Hflat].
  destruct (Hbasic plain_store plain_paper) as [Hsame [Hok [Hdocs [_ [_ Hmedia]]]]].
  { reflexivity. }
  { repeat constructor. simpl. tauto. }
  { constructor. }
  destruct (Hflat flat_store flat_paper) as [_ [Hok' [_ [_ [_ Hmedia']]]]].
  { reflexivity. }
  { repeat constructor. simpl. tauto. }
  { constructor. }
  split; [symmetry; exact Hsame|].
  split; [exact Hok|].
  split; [rewrite Hdocs; reflexivity|].
  split; [exact Hmedia|].
  split; [exact Hok'|exact Hmedia'].
Defined.

Lemma no_admin_reachable_witness :
  let t := @generateToken demo_platform 1000
             {| u_id := 0; u_name := Some "Alice"; u_email := Some "a@x.com";
                u_passwordHash := Some {| bh_salt := "s"; bh_digest := "s$secret1" |};
                u_institution := "";
                u_avatar := "https://ui-avatars.com/api/?name=Alice&background=76935C&color=fff";
                u_isAdmin := false; u_bio := None; u_createdAt := 1000 |} in
  issued t /\
  no_admin (users registered) /\
  c_isAdmin (t_claims t) = false /\
  snd (Rich.handle (quiet 7000) (Rich.DELETE_news (Bearer (Some t)) (IdOf 0)) library) = library /\
  In (status (fst (Rich.handle (quiet 7000) (Rich.DELETE_news (Bearer (Some t)) (IdOf 0)) library)))
     [401; 403].
Proof.
  intros t.
  assert (Ht : issued t).
  { exists empty_world, (quiet 1000), (Rich.POST_register alice).
    eexists. split; [apply Rich.reach_init|reflexivity]. }
  destruct no_admin_reachable as [_ [Hinv [Htok Hgate]]].
  split; [exact Ht|].
  split; [apply Hinv; apply Rich.reach_step, Rich.reach_init|].
  split; [apply Htok, Ht|].
  destruct (Hgate t (quiet 7000) library (IdOf 0) Ht) as [[Hw Hs] _].
  split; [exact Hw|exact Hs].
Defined.

(** *** The further properties at concrete requests *)

Lemma blob_length (n : nat) : String.length (blob n) = n.
Proof. induction n as [|n IH]; simpl; [reflexivity|rewrite IH; reflexivity]. Qed.

Lemma protected_routes_need_token_witness :
  Rich.handle (quiet 7000) (Rich.DELETE_paper Absent (IdOf 1)) library =
    (res 401 (Message "Unauthorized"), library) /\
  Rich.handle (quiet 2592005000) (Rich.DELETE_paper (Bearer (Some alice_token)) (IdOf 1)) library =
    (res 401 (Message "Invalid token"), library) /\
  status (fst (Rich.handle (quiet 7000) Rich.GET_papers library)) <> 401.
Proof.
  split; [|split].
  - destruct (protected_routes_need_token (quiet 7000) (Rich.DELETE_paper Absent (IdOf 1)) library)
      as [Hp _].
    apply (proj1 (Hp Absent eq_refl)). reflexivity.
  - destruct (protected_routes_need_token (quiet 2592005000)
                (Rich.DELETE_paper (Bearer (Some alice_token)) (IdOf 1)) library) as [Hp _].
    apply (proj2 (Hp (Bearer (Some alice_token)) eq_refl) (Some alice_token));
      reflexivity.
  - apply (proj2 (protected_routes_need_token (quiet 7000) Rich.GET_papers library)).
    reflexivity.
Defined.

Lemma default_secret_is_public_witness :
  truthy env_JWT_SECRET = false /\
  authMiddleware (quiet 7000) (Bearer (Some forged_admin_token))
    (fun c => ret (res (if c_isAdmin c then 200 else 403) Ok)) =
  ret (json Ok).
Proof.
  split; [reflexivity|].
  unfold forged_admin_token.
  rewrite (default_secret_is_public (quiet 7000) 42 (Some "eve@x.com") (Some "Eve") true
             3600 5000).
  - reflexivity.
  - reflexivity.
  - reflexivity.
Defined.

Lemma login_bad_credentials_witness :
  Rich.handle (quiet 7000)
    (Rich.POST_login {| lb_email := Some "a@x.com"; lb_password := Some "wrong-pw" |})
    registered = (res 400 (Message "Invalid credentials"), registered) /\
  Rich.handle (quiet 7000)
    (Rich.POST_login {| lb_email := Some "nobody@x.com"; lb_password := Some "secret1" |})
    registered = (res 400 (Message "Invalid credentials"), registered).
Proof.
  split.
  - apply (login_bad_credentials (quiet 7000) _ registered "a@x.com" "wrong-pw");
      try reflexivity; try discriminate; constructor.
  - apply (login_bad_credentials (quiet 7000) _ registered "nobody@x.com" "secret1");
      try reflexivity; try discriminate; constructor.
Defined.

Lemma read_only_routes_witness :
  snd (Rich.handle (flaky 7000 [Some "database down"]) Rich.GET_papers library) = library /\
  snd (Rich.handle (quiet 7000) (Rich.POST_login alice_login) library) = library.
Proof.
  split; apply read_only_routes; reflexivity.
Defined.


Lemma upload_creates_paper_witness :
  exists paper,
    fst (Rich.handle (quiet 6000)
           (Rich.POST_papers (Bearer (Some alice_token)) (Some thesis_pdf) thesis)
           registered) = json (OnePaper paper) /\
    papers library = papers registered ++ [paper] /\
    cloud library = cloud registered ++ [raw_object (quiet 6000) thesis_pdf] /\
    find_by_id p_id 1 (papers library) = Some paper /\
    p_title paper = Some "Thesis" /\ p_date paper = 6000%Z.
Proof.
  destruct (upload_creates_paper (quiet 6000) registered (Some alice_token)
              (t_claims alice_token) thesis_pdf thesis)
    as (paper & Hr & Hp & Hc & _ & _ & _ & Hf & Hi & Ht & _ & _ & _ & _ & _ & _ & _ & Hd & _).
  - repeat split; reflexivity.
  - constructor.
  - intros p [].
  - exists paper. split; [exact Hr|]. split; [exact Hp|]. split; [exact Hc|].
    split; [rewrite <- Hf, Hi; reflexivity|]. split; [exact Ht|exact Hd].
Defined.

Lemma upload_then_delete_restores_witness :
  let deleted := Rich.handle (quiet 7000) (Rich.DELETE_paper (Bearer (Some alice_token)) (IdOf 1))
                   library in
  fst deleted = json Ok /\
  papers (snd deleted) = papers registered /\
  cloud (snd deleted) = cloud registered /\
  users (snd deleted) = users registered.
Proof.
  apply (upload_then_delete_restores (quiet 6000) (quiet 7000) registered
           (Some alice_token) (Some alice_token) (t_claims alice_token)
           (t_claims alice_token) thesis_pdf thesis).
  - repeat split; reflexivity.
  - constructor.
  - intros p [].
  - intros o [].
  - reflexivity.
  - reflexivity.
  - constructor.
Defined.

Lemma upload_failure_modes_witness :
  Rich.handle (flaky 6000 [Some "cloud down"])
    (Rich.POST_papers (Bearer (Some alice_token)) (Some thesis_pdf) thesis) registered =
    (res 500 (MessageError "Upload failed" "cloud down"), registered) /\
  (let out := Rich.handle (flaky 6000 [None; Some "database down"])
                (Rich.POST_papers (Bearer (Some alice_token)) (Some thesis_pdf) thesis)
                registered in
   fst out = res 500 (MessageError "Upload failed" "database down") /\
   papers (snd out) = papers registered /\
   cloud (snd out) =
     cloud registered ++ [raw_object (flaky 6000 [None; Some "database down"]) thesis_pdf]).
Proof.
  split.
  - apply (proj1 (upload_failure_modes (flaky 6000 [Some "cloud down"]) registered
                    (Some alice_token) (t_claims alice_token) thesis_pdf thesis
                    "cloud down" []
                    ltac:(repeat split; reflexivity))).
    reflexivity.
  - apply (proj2 (upload_failure_modes (flaky 6000 [None; Some "database down"]) registered
                    (Some alice_token) (t_claims alice_token) thesis_pdf thesis
                    "database down" []
                    ltac:(repeat split; reflexivity))).
    reflexivity.
Defined.

Lemma comment_appended_witness :
  let out := Rich.handle (quiet 7000) (Rich.POST_comments (Bearer (Some bob_token)) (IdOf 1) nice)
               library in
  fst out = json (OkComments [new_comment (quiet 7000) (t_claims bob_token) nice]) /\
  length (papers (snd out)) = 1 /\
  users (snd out) = users library /\ cloud (snd out) = cloud library.
Proof.
  destruct (comment_appended (quiet 7000) library (Some bob_token) (t_claims bob_token)
              1 nice thesis_paper)
    as [Hr [_ [Hl [_ [Hu [Hc _]]]]]].
  - reflexivity.
  - reflexivity.
  - reflexivity.
  - constructor.
  - split; [exact Hr|]. split; [exact Hl|]. split; [exact Hu|exact Hc].
Defined.

Lemma reachable_states_sound_witness :
  Rich.reachable library /\
  Forall sound_user (users library) /\ Forall sound_paper (papers library).
Proof.
  assert (Hreach : Rich.reachable library).
  { unfold library, registered. do 2 apply Rich.reach_step. apply Rich.reach_init. }
  split; [exact Hreach|].
  destruct (proj2 reachable_states_sound library Hreach) as [Hu Hp].
  split; apply Forall_forall; assumption.
Defined.

Lemma paper_only_gains_comments_witness :
  let trace :=
    [ (quiet 7000, Rich.POST_comments (Bearer (Some bob_token)) (IdOf 1) nice);
      (quiet 7100, Rich.POST_papers (Bearer (Some bob_token)) (Some thesis_pdf) thesis);
      (quiet 7200, Rich.POST_comments (Bearer (Some alice_token)) (IdOf 1) nice) ] in
  exists p',
    find_by_id p_id 1 (papers (run trace library)) = Some p' /\
    length (p_comments p') = 2 /\
    more_comments thesis_paper p'.
Proof.
  intros trace.
  eexists. split; [reflexivity|]. split; [reflexivity|].
  apply (paper_only_gains_comments trace library 1 thesis_paper).
  - split; [|split; [|split]].
    + intros u [Hu|[]]. subst u. simpl. lia.
    + intros p [Hp|[]]. subst p. simpl. lia.
    + repeat constructor. simpl. tauto.
    + repeat constructor. simpl. tauto.
  - reflexivity.
  - reflexivity.
Defined.

Lemma avatar_upload_witness :
  let out := Rich.handle (quiet 7000) (Rich.POST_avatar (Bearer (Some alice_token))
                                         (Some photo_png)) library in
  fst out = json (OkAvatar (cloudinary_secure_url "image"
                              (rich_public_id (quiet 7000) photo_png))) /\
  cloud (snd out) = cloud library ++ [image_object (quiet 7000) photo_png] /\
  papers (snd out) = papers library /\
  map login_data (users (snd out)) = map login_data (users library).
Proof.
  intros out.
  pose proof (avatar_upload (quiet 7000) library (Some alice_token) (t_claims alice_token)
                photo_png eq_refl eq_refl ltac:(simpl; lia) ltac:(constructor)) as Ha.
  cbv zeta in Ha. fold out in Ha.
  destruct Ha as [Hc [Hp Hm]].
  destruct (find_by_id u_id (c_id (t_claims alice_token)) (users library)) as [u|] eqn:E;
    [|discriminate E].
  destruct Hm as [Hr [Hu _]].
  split; [exact Hr|]. split; [exact Hc|]. split; [exact Hp|].
  reflexivity.
Defined.

Lemma admin_delete_answers_witness :
  c_isAdmin (t_claims forged_admin_token) = true /\
  find_by_id n_id 3 (news library) = None /\
  Rich.handle (quiet 7000) (Rich.DELETE_news (Bearer (Some forged_admin_token)) (IdOf 3))
    library = (json Ok, library) /\
  fst (Rich.handle (quiet 7000)
         (Rich.DELETE_event (Bearer (Some forged_admin_token)) (IdOf 3)) library) = json Ok /\
  Rich.handle (quiet 7000) (Rich.DELETE_news (Bearer (Some forged_admin_token)) (NotAnId "3"))
    library = (res 500 (Message "Server error"), library).
Proof.
  destruct (admin_delete_answers (quiet 7000) library (Some forged_admin_token)
              (t_claims forged_admin_token)) as [Hcast Hraw].
  - reflexivity.
  - reflexivity.
  - destruct (Hcast 3) as [[Hn _] [He _]]; [constructor|].
    split; [reflexivity|]. split; [reflexivity|].
    split; [|split; [exact He|apply (Hraw "3")]].
    rewrite (surjective_pairing (Rich.handle _ _ _)).
    apply f_equal2; [exact Hn|reflexivity].
Defined.

Lemma posting_news_and_events_witness :
  c_isAdmin (t_claims bob_token) = false /\
  (exists item,
      fst (Rich.handle (quiet 7000) (Rich.POST_news (Bearer (Some bob_token)) headline)
             library) = json (OneNews item) /\
      n_author item = Some "Bob" /\ n_title item = Some "Open day") /\
  (exists item,
      fst (Rich.handle (quiet 7000) (Rich.POST_events (Bearer (Some bob_token))
                                       untitled_event) library) = json (OneEvent item) /\
      e_title item = None).
Proof.
  split; [reflexivity|].
  destruct (posting_news_and_events (quiet 7000) library (Some bob_token)
              (t_claims bob_token) headline untitled_event)
    as [_ [Hnews Hevent]].
  - reflexivity.
  - constructor.
  - reflexivity.
  - reflexivity.
  - intros n [].
  - intros e [].
  - split.
    + destruct (Hnews eq_refl) as [item [Hr [_ [Ha [_ [Ht _]]]]]].
      exists item. split; [exact Hr|]. split; [exact Ha|exact Ht].
    + destruct Hevent as [item [Hr [_ [Ht _]]]].
      exists item. split; [exact Hr|exact Ht].
Defined.

Lemma announcements_listed_witness :
  let posted := snd (Rich.handle (quiet 7000)
                       (Rich.POST_news (Bearer (Some bob_token)) headline) library) in
  exists l,
    Rich.handle (quiet 9000) Rich.GET_news posted = (json (NewsList l), posted) /\
    length l = 1.
Proof.
  intros posted.
  destruct (announcements_listed (quiet 9000) posted) as [[l [Hr [Hp _]]] _].
  - constructor.
  - exists l. split; [exact Hr|].
    rewrite (Permutation_length Hp). reflexivity.
Defined.

Lemma middleware_errors_are_500_witness :
  Rich.handle (quiet 7000) (Rich.POST_papers (Bearer (Some alice_token)) (Some huge_pdf)
                              thesis) registered =
    (res 500 (Message "File too large"), registered) /\
  Rich.handle (quiet 7000) (Rich.POST_avatar (Bearer (Some alice_token)) (Some note_txt))
    registered =
    (res 500 (Message "Only image files are allowed for avatar"), registered) /\
  Rich.handle (quiet 7000) (Rich.POST_avatar (Bearer (Some alice_token)) (Some huge_png))
    registered =
    (res 500 (Message "File too large"), registered).
Proof.
  split; [|split].
  - destruct (middleware_errors_are_500 (quiet 7000) registered (Some alice_token)
                (t_claims alice_token) huge_pdf thesis) as [Hbig _]; [reflexivity|].
    apply Hbig.
    + reflexivity.
    + reflexivity.
    + unfold huge_pdf. cbn [buffer]. rewrite blob_length, N_nat_Z. discriminate.
  - destruct (middleware_errors_are_500 (quiet 7000) registered (Some alice_token)
                (t_claims alice_token) note_txt thesis) as [_ [Hkind _]]; [reflexivity|].
    apply Hkind. reflexivity.
  - destruct (middleware_errors_are_500 (quiet 7000) registered (Some alice_token)
                (t_claims alice_token) huge_png thesis) as [_ [_ Hbig]]; [reflexivity|].
    apply Hbig.
    + reflexivity.
    + unfold huge_png. cbn [buffer]. rewrite blob_length, N_nat_Z. discriminate.
Defined.

Lemma mid_register_login_verify_witness :
  let joined := Mid.serve (Mid.register (quiet 1000) sloppy) (quiet 1000) empty_world in
  exists (user : User) (t : Token),
    users (snd joined) = [user] /\
    u_email user = Some "not-an-email" /\
    fst (Mid.serve (Mid.login (quiet 5000)
                      {| lb_email := Some "not-an-email"; lb_password := Some "pw" |})
           (quiet 5000) (snd joined)) = json (Session (public user) t) /\
    authMiddleware (quiet 9000) (Bearer (Some t)) (fun c => ret (json Ok)) = ret (json Ok).
Proof.
  intros joined.
  destruct (mid_register_login_verify empty_world (quiet 1000) (quiet 5000) (quiet 9000)
              "A" "not-an-email" "pw" None)
    as [user [t1 [t2 [_ [Hu [_ [He [_ [Hl [Hv _]]]]]]]]]].
  - discriminate.
  - discriminate.
  - discriminate.
  - intros u [].
  - intros u [].
  - constructor.
  - constructor.
  - vm_compute; reflexivity.
  - exists user, t2.
    split; [exact Hu|]. split; [exact He|]. split; [exact Hl|]. apply Hv.
Defined.

Lemma mid_missing_fields_witness :
  Mid.serve (Mid.register (quiet 2000)
               {| rb_name := Some ""; rb_email := Some "b@x.com";
                  rb_password := Some "secret1"; rb_institution := None |})
    (quiet 2000) registered = (res 400 (Message "Missing fields"), registered) /\
  Mid.serve (Mid.login (quiet 2000) {| lb_email := Some "a@x.com"; lb_password := None |})
    (quiet 2000) registered = (res 400 (Message "Missing fields"), registered).
Proof.
  split.
  - apply (proj1 (mid_missing_fields (quiet 2000) registered _ alice_login)).
    right; right; reflexivity.
  - apply (proj2 (mid_missing_fields (quiet 2000) registered alice _)).
    right; reflexivity.
Defined.

Lemma mid_upload_unchecked_witness :
  let out := Mid.serve (Mid.postPaper (quiet 6000) (Bearer (Some alice_token))
                          (Some note_txt) bare) (quiet 6000) registered in
  exists paper,
    fst out = json (OnePaper paper) /\
    papers (snd out) = papers registered ++ [paper] /\
    p_title paper = None /\ p_author paper = None /\
    cloud (snd out) = cloud registered ++ [mid_object (quiet 6000) note_txt].
Proof.
  intros out.
  destruct (mid_upload_unchecked (quiet 6000) registered (Some alice_token)
              (t_claims alice_token) note_txt bare)
    as [[paper [Hr [Hp [Hc [_ [Ht [Ha _]]]]]]] _].
  - split; [reflexivity|simpl; lia].
  - constructor.
  - intros p [].
  - exists paper. fold out in Hr, Hp, Hc.
    split; [exact Hr|]. split; [exact Hp|]. split; [exact Ht|]. split; [exact Ha|exact Hc].
Defined.

Lemma post_without_file_witness :
  let out := Server1.serve (Server1.postPaper (quiet 6000) None (plain_fields None))
               (quiet 6000) empty_store in
  exists paper,
    fst out = Some (reply 201 (Document paper)) /\
    Server1.pdfUrl paper = "" /\
    docs (snd out) = [paper].
Proof.
  intros out.
  destruct (proj2 (proj2 (proj2 post_without_file)) (quiet 6000) empty_store
              (plain_fields None))
    as [paper [Hr [Hu [_ [Hd _]]]]].
  - constructor.
  - intros p [].
  - reflexivity.
  - exists paper. fold out in Hr, Hd.
    split; [exact Hr|]. split; [exact Hu|exact Hd].
Defined.

Lemma plain_upload_then_listed_witness :
  let out := Basic.serve (Basic.postPaper (quiet 6000) (Some thesis_pdf) basic_fields)
               (quiet 6000) plain_store in
  exists paper l,
    fst out = reply 201 (Document paper) /\
    docs (snd out) = [plain_paper; paper] /\
    Basic.serve Basic.getPapers (quiet 7000) (snd out) = (reply 200 (Documents l), snd out) /\
    length l = 2.
Proof.
  intros out.
  destruct (proj1 (proj2 plain_upload_then_listed) (quiet 6000) (quiet 7000) plain_store
              thesis_pdf basic_fields)
    as [paper [Hr [_ [Hd [_ [l [Hl [Hp _]]]]]]]].
  - constructor.
  - constructor.
  - intros p [Hp|[]]. subst p. simpl. lia.
  - exists paper, l. fold out in Hr, Hd, Hl.
    split; [exact Hr|]. split; [exact Hd|]. split; [exact Hl|].
    rewrite <- (Permutation_length Hp). reflexivity.
Defined.

Lemma plain_delete_missing_or_failing_witness :
  let anonymous := {| authorization := None |} in
  Basic.serve (Basic.deletePaper anonymous (IdOf 9)) (quiet 7000) plain_store =
    (reply 404 (Error "Работа не найдена"), plain_store) /\
  Basic.serve (Basic.deletePaper anonymous (NotAnId "9")) (quiet 7000) plain_store =
    (reply 500 (Error (castErrorMessage "9" "Paper")), plain_store) /\
  Server2.serve (Server2.deletePaper anonymous (IdOf 3)) (flaky 7000 [Some "database down"])
    flat_store = (reply 500 (FailureError "database down"), flat_store).
Proof.
  intros anonymous.
  destruct (plain_delete_missing_or_failing (quiet 7000) anonymous) as [Hbasic _].
  destruct (Hbasic plain_store) as [Hmissing [Hcast _]].
  destruct (plain_delete_missing_or_failing (flaky 7000 [Some "database down"]) anonymous)
    as [_ Hflat].
  destruct (Hflat flat_store) as [_ [_ Hdown]].
  split; [|split].
  - apply Hmissing; [constructor|reflexivity].
  - apply Hcast.
  - apply (Hdown 3 "database down" []). reflexivity.
Defined.

Lemma listing_and_database_failure_witness :
  Server1.serve Server1.getPapers (flaky 7000 [Some "database down"]) empty_store =
    (None, empty_store) /\
  Server2.serve Server2.getPapers (flaky 7000 [Some "database down"]) flat_store =
    (reply 500 (Error "database down"), flat_store) /\
  Basic.serve Basic.getPapers (flaky 7000 [Some "database down"]) plain_store =
    (reply 500 (Error "Ошибка при получении данных с сервера"), plain_store).
Proof.
  destruct (proj1 (listing_and_database_failure (flaky 7000 [Some "database down"]))
              "database down" [] eq_refl) as [_ [Hb [Hs2 Hs1]]].
  split; [apply Hs1|]. split; [apply Hs2|apply Hb].
Defined.

Lemma storage_failure_before_handler_witness :
  Basic.serve (Basic.postPaper (flaky 6000 [Some "cloud down"]) (Some thesis_pdf)
                 basic_fields) (flaky 6000 [Some "cloud down"]) plain_store =
    (reply 500 (Html "cloud down"), plain_store).
Proof.
  apply (storage_failure_before_handler (flaky 6000 [Some "cloud down"]) thesis_pdf
           "cloud down" [] eq_refl).
Defined.

Lemma failed_save_orphans_file_witness :
  let env := flaky 6000 [None; Some "database down"] in
  let out := Basic.serve (Basic.postPaper env (Some thesis_pdf) basic_fields) env
               plain_store in
  fst out = reply 500 (Error "database down") /\
  docs (snd out) = docs plain_store /\
  length (media (snd out)) = S (length (media plain_store)).
Proof.
  intros env out.
  destruct (proj1 (proj2 (failed_save_orphans_file env thesis_pdf "database down" []
                            eq_refl)) plain_store basic_fields) as [Hr [Hd Hm]].
  fold out in Hr, Hd, Hm.
  split; [exact Hr|]. split; [exact Hd|].
  rewrite Hm. rewrite length_app. simpl. lia.
Defined.

Lemma rate_limited_requests_witness :
  Rich.handle (throttled 7000) (Rich.POST_login alice_login) registered =
    (res 429 (Text "Too many auth requests, try again later"), registered) /\
  Rich.handle (throttled 7000)
    (Rich.POST_papers (Bearer (Some alice_token)) (Some note_txt) bare) registered =
    (res 429 (Text "Too many uploads, try later"), registered) /\
  Rich.handle (throttled 7000) (Rich.POST_papers Absent (Some thesis_pdf) thesis) registered =
    (res 401 (Message "Unauthorized"), registered).
Proof.
  destruct (rate_limited_requests (throttled 7000) registered eq_refl)
    as [_ [Hlogin [Hup [Hanon _]]]].
  split; [apply Hlogin|]. split; [|apply Hanon].
  apply (Hup (Some alice_token) (t_claims alice_token)). reflexivity.
Defined.
